(** * bonsai_cli/api.py: the HTTP mediation layer of the Bonsai CLI

    A shallow embedding of [bonsai_cli/api.py] (version 2 of the Bonsai
    command line API client) and the properties of its request dispatcher,
    response normalizer, error classifier and resource methods.

    Python strings are sequences of Unicode code points ([list N]);
    dictionaries are finite maps ([gmap]); the client object, the request
    log and the wire are threaded through a state-and-exception monad. *)

From Stdlib Require Import ZArith NArith String Ascii List Lia Bool.
From stdpp Require Import gmap list.

#[local] Set Warnings "-register-all".
#[local] Open Scope string_scope.
#[local] Open Scope list_scope.
#[local] Open Scope N_scope.

(* ===================================================================== *)
(** * Python strings and values                                            *)
(* ===================================================================== *)

(** A Python [str]: a sequence of code points. *)
Abbreviation pystr := (list N).

(** A source literal written with single quotes or without embedded
    double quotes. *)
Definition py (s : string) : pystr := map N_of_ascii (list_ascii_of_string s).
Arguments py s%_string.

(** A source literal that contains double quotes: the apostrophes of the
    argument stand for the double quotes of the source literal. *)
Definition dq (s : string) : pystr :=
  map (fun c => if c =? 39 then 34 else c) (py s).
Arguments dq s%_string.

Definition DQUOTE : N := 34.
Definition BACKSLASH : N := 92.
Definition LBRACE : N := 123.
Definition RBRACE : N := 125.

(** Python values that occur in this file: JSON data, [datetime.timedelta]
    ([response.elapsed], in microseconds) and the [requests] HTTPError
    stored in an error payload. A JSON number with a fraction or an
    exponent keeps its lexeme: floating point arithmetic is not modelled. *)
Inductive value : Type :=
| VNone
| VBool (b : bool)
| VInt (z : Z)
| VFloat (lexeme : pystr)
| VStr (s : pystr)
| VList (l : list value)
| VDict (d : gmap pystr value)
| VTimedelta (us : Z)
| VHTTPError (msg : pystr).

(** [isinstance(v, dict)] *)
Definition is_dict (v : value) : bool :=
  match v with VDict _ => true | _ => false end.

(** Exceptions raised in this file. [HTTPError] is the one of [requests];
    [JSONDecodeError] is the one of the decoder (for [response.json()] the
    subclass that [requests] makes of it), a [ValueError];
    [RecursionError] is what the decoder lets out when the text is nested
    deeper than the interpreter's stack has room for; [TransportError]
    stands for any exception of a session call that is neither a
    [ConnectionError] nor a [Timeout]. *)
Inductive exn : Type :=
| BrainServerError (exception : value)
| UsageError (msg : pystr)
| KeyError (key : pystr)
| IndexError
| ValueError (msg : pystr)
| JSONDecodeError
| RecursionError
| HTTPError (msg : pystr)
| TransportError (msg : pystr).

(** [isinstance(e, ValueError)] *)
Definition is_ValueError (e : exn) : bool :=
  match e with
  | ValueError _ | JSONDecodeError => true
  | _ => false
  end.

Inductive result (A : Type) : Type :=
| Ok (a : A)
| Raise (e : exn).
Arguments Ok {A} a.
Arguments Raise {A} e.

Definition rbind {A B} (r : result A) (k : A -> result B) : result B :=
  match r with Ok a => k a | Raise e => Raise e end.

Definition rmap {A B} (f : A -> B) (r : result A) : result B :=
  match r with Ok a => Ok (f a) | Raise e => Raise e end.

(** [sub in s] for strings. *)
Fixpoint startswith (sub s : pystr) : bool :=
  match sub, s with
  | [], _ => true
  | _ :: _, [] => false
  | a :: sub', b :: s' => (a =? b) && startswith sub' s'
  end.

Fixpoint contains (sub s : pystr) : bool :=
  startswith sub s ||
  match s with
  | [] => false
  | _ :: s' => contains sub s'
  end.

(** [s[-n:]] for a positive [n]. *)
Definition last_chars (n : nat) (s : pystr) : pystr :=
  drop (length s - n)%nat s.

(** [str.isspace] on one code point. *)
Definition isspace (c : N) : bool :=
  ((9 <=? c) && (c <=? 13)) || ((28 <=? c) && (c <=? 32)) ||
  (c =? 133) || (c =? 160) || (c =? 5760) ||
  ((8192 <=? c) && (c <=? 8202)) || (c =? 8232) || (c =? 8233) ||
  (c =? 8239) || (c =? 8287) || (c =? 12288).

(** [bool(s.strip())]: some character of [s] is not white space. *)
Definition strip_nonempty (s : pystr) : bool :=
  existsb (fun c => negb (isspace c)) s.

(** Decimal digits of [str(int)]. *)
Fixpoint digits (d : Decimal.uint) : pystr :=
  match d with
  | Decimal.Nil => []
  | Decimal.D0 d => 48 :: digits d
  | Decimal.D1 d => 49 :: digits d
  | Decimal.D2 d => 50 :: digits d
  | Decimal.D3 d => 51 :: digits d
  | Decimal.D4 d => 52 :: digits d
  | Decimal.D5 d => 53 :: digits d
  | Decimal.D6 d => 54 :: digits d
  | Decimal.D7 d => 55 :: digits d
  | Decimal.D8 d => 56 :: digits d
  | Decimal.D9 d => 57 :: digits d
  end.

Definition str_of_int (z : Z) : pystr :=
  match z with
  | Z0 => [48]
  | Zpos p => digits (Pos.to_uint p)
  | Zneg p => 45 :: digits (Pos.to_uint p)
  end.

(* ===================================================================== *)
(** * The JSON decoder ([json.loads], [Response.json])                     *)
(* ===================================================================== *)

(** The decoder of the Python standard library, as a scanner over code
    points followed by a recursive descent over its tokens. Strings are
    decoded in strict mode: control characters are refused, the escapes
    are those of JSON, and a [\uD8xx\uDCxx] pair is joined into one code
    point. Duplicate keys of an object keep the last value.

    The decoder reads the text once, from left to right, and stops at the
    first thing it cannot take: a text that is not JSON
    ([JSONDecodeError]), an integer literal with more digits than
    [int()] converts (a [ValueError], since CPython 3.11 and the security
    releases of 3.7 to 3.10; the limit can be changed or switched off), or
    an array or object nested deeper than the interpreter's stack has
    room for ([RecursionError]). The scanner therefore hands the parser
    the tokens up to its own first error, and the parser meets the errors
    in the order of the text. *)
Module Json.

Inductive token : Type :=
| TLBrace | TRBrace | TLBrack | TRBrack | TComma | TColon
| TString (s : pystr)
| TAtom (v : value).

(** Scanner states: between tokens, inside a bare word (number or
    literal name), inside a string, after a backslash, inside the four
    hex digits of a [\u] escape. [acc] is reversed; [pend] is a high
    surrogate read from a [\u] escape that may still be joined with a
    low one. *)
Inductive lstate : Type :=
| Out
| Word (acc : pystr)
| Str (acc : pystr) (pend : option N)
| Esc (acc : pystr) (pend : option N)
| Uni (acc : pystr) (pend : option N) (k : nat) (n : N).

Definition is_ws (c : N) : bool :=
  (c =? 32) || (c =? 9) || (c =? 10) || (c =? 13).

Definition punct (c : N) : option token :=
  if c =? 123 then Some TLBrace
  else if c =? 125 then Some TRBrace
  else if c =? 91 then Some TLBrack
  else if c =? 93 then Some TRBrack
  else if c =? 44 then Some TComma
  else if c =? 58 then Some TColon
  else None.

Definition is_digit (c : N) : bool := (48 <=? c) && (c <=? 57).

Definition hexval (c : N) : option N :=
  if is_digit c then Some (c - 48)
  else if (65 <=? c) && (c <=? 70) then Some (c - 55)
  else if (97 <=? c) && (c <=? 102) then Some (c - 87)
  else None.

Fixpoint all_digits (s : pystr) : bool :=
  match s with
  | [] => true
  | c :: s' => is_digit c && all_digits s'
  end.

Fixpoint skip_digits (s : pystr) : pystr :=
  match s with
  | [] => []
  | c :: s' => if is_digit c then skip_digits s' else s
  end.

(** The integer part [0|[1-9][0-9]*]: what follows it, if it is there. *)
Definition int_part (s : pystr) : option pystr :=
  match s with
  | [] => None
  | c :: s' =>
      if c =? 48 then Some s'
      else if is_digit c then Some (skip_digits s')
      else None
  end.

(** The exponent [[eE][-+]?[0-9]+] up to the end of the word. *)
Definition exp_part (s : pystr) : bool :=
  match s with
  | e :: s' =>
      ((e =? 101) || (e =? 69)) &&
      match s' with
      | sg :: d :: s'' =>
          if (sg =? 45) || (sg =? 43) then is_digit d && all_digits s''
          else all_digits s'
      | [d] => is_digit d
      | [] => false
      end
  | [] => false
  end.

(** The fraction and exponent after the integer part, up to the end of
    the word: [Some true] when there is none (an integer). *)
Definition tail_part (s : pystr) : option bool :=
  match s with
  | [] => Some true
  | c :: s' =>
      if c =? 46 then
        match s' with
        | d :: _ =>
            if is_digit d then
              match skip_digits s' with
              | [] => Some false
              | r => if exp_part r then Some false else None
              end
            else None
        | [] => None
        end
      else if exp_part s then Some false else None
  end.

Fixpoint nat_of_digits (s : pystr) (n : N) : N :=
  match s with
  | [] => n
  | c :: s' => nat_of_digits s' (10 * n + (c - 48))
  end.

Definition number (w : pystr) : option value :=
  let '(neg, body) :=
    match w with
    | c :: w' => if c =? 45 then (true, w') else (false, w)
    | [] => (false, w)
    end in
  match int_part body with
  | None => None
  | Some r =>
      match tail_part r with
      | None => None
      | Some false => Some (VFloat w)
      | Some true =>
          let n := Z.of_N (nat_of_digits body 0) in
          Some (VInt (if neg then (- n)%Z else n))
      end
  end.

Definition pystr_eqb (a b : pystr) : bool := bool_decide (a = b).

(** A bare word is a literal name or a number. *)
Definition classify (w : pystr) : option value :=
  if pystr_eqb w (py "true") then Some (VBool true)
  else if pystr_eqb w (py "false") then Some (VBool false)
  else if pystr_eqb w (py "null") then Some VNone
  else if pystr_eqb w (py "NaN") || pystr_eqb w (py "Infinity")
          || pystr_eqb w (py "-Infinity") then Some (VFloat w)
  else number w.

Definition flush (acc : pystr) (pend : option N) : pystr :=
  match pend with Some h => h :: acc | None => acc end.

Definition is_high (n : N) : bool := (55296 <=? n) && (n <=? 56319).
Definition is_low (n : N) : bool := (56320 <=? n) && (n <=? 57343).

(** The simple escapes of the decoder's table. *)
Definition unescape (c : N) : option N :=
  if c =? 34 then Some 34
  else if c =? 92 then Some 92
  else if c =? 47 then Some 47
  else if c =? 98 then Some 8
  else if c =? 102 then Some 12
  else if c =? 110 then Some 10
  else if c =? 114 then Some 13
  else if c =? 116 then Some 9
  else None.

(** The state after a complete [\uXXXX] of value [n]. *)
Definition after_uni (acc : pystr) (pend : option N) (n : N) : lstate :=
  match pend with
  | Some h =>
      if is_low n
      then Str ((65536 + N.lor (N.shiftl (h - 55296) 10) (n - 56320)) :: acc) None
      else if is_high n then Str (h :: acc) (Some n)
      else Str (n :: h :: acc) None
  | None =>
      if is_high n then Str acc (Some n) else Str (n :: acc) None
  end.

Definition step_out (c : N) : lstate * list token :=
  if is_ws c then (Out, [])
  else match punct c with
       | Some t => (Out, [t])
       | None => if c =? 34 then (Str [] None, []) else (Word [c], [])
       end.

Definition is_delim (c : N) : bool :=
  is_ws c || bool_decide (is_Some (punct c)) || (c =? 34).

(** One code point of input. *)
Definition step (st : lstate) (c : N) : option (lstate * list token) :=
  match st with
  | Out => Some (step_out c)
  | Word acc =>
      if is_delim c then
        match classify (rev acc) with
        | Some v => let '(st', toks) := step_out c in Some (st', TAtom v :: toks)
        | None => None
        end
      else Some (Word (c :: acc), [])
  | Str acc pend =>
      if c =? 34 then Some (Out, [TString (rev (flush acc pend))])
      else if c =? 92 then Some (Esc acc pend, [])
      else if c <? 32 then None
      else Some (Str (c :: flush acc pend) None, [])
  | Esc acc pend =>
      if c =? 117 then Some (Uni acc pend 0%nat 0, [])
      else match unescape c with
           | Some x => Some (Str (x :: flush acc pend) None, [])
           | None => None
           end
  | Uni acc pend k n =>
      match hexval c with
      | Some d =>
          let n' := 16 * n + d in
          match k with
          | 3%nat => Some (after_uni acc pend n', [])
          | _ => Some (Uni acc pend (S k) n', [])
          end
      | None => None
      end
  end.

(** End of input. *)
Definition finish (st : lstate) : option (list token) :=
  match st with
  | Out => Some []
  | Word acc =>
      match classify (rev acc) with
      | Some v => Some [TAtom v]
      | None => None
      end
  | _ => None
  end.

(** The tokens of a text that the scanner reads to its end. *)
Fixpoint scan (st : lstate) (s : pystr) : option (list token) :=
  match s with
  | [] => finish st
  | c :: s' =>
      match step st c with
      | Some (st', toks) =>
          match scan st' s' with
          | Some rest => Some (toks ++ rest)
          | None => None
          end
      | None => None
      end
  end.

(** A fraction (a dot and a digit) or an exponent ([e] or [E], an
    optional sign, a digit) starts here: the number pattern would go on. *)
Definition continues (s : pystr) : bool :=
  match s with
  | c :: d :: s' =>
      if c =? 46 then is_digit d
      else if (c =? 101) || (c =? 69) then
        if (d =? 45) || (d =? 43)
        then match s' with d' :: _ => is_digit d' | [] => false end
        else is_digit d
      else false
  | _ => false
  end.

(** A bare word that is no value as a whole: the number pattern matches
    at its start, and when what it matches is an integer (an optional
    minus sign, then [0] or a run of digits that does not start with [0],
    with no fraction and no exponent after it), the decoder converts
    that integer before it looks at the rest. *)
Definition int_prefix (w : pystr) : option Z :=
  let '(neg, body) :=
    match w with
    | c :: w' => if c =? 45 then (true, w') else (false, w)
    | [] => (false, w)
    end in
  match body with
  | c :: r =>
      if c =? 48 then
        if continues r then None else Some 0%Z
      else if is_digit c then
        if continues (skip_digits r) then None
        else
          let n := Z.of_N (nat_of_digits (take (length body - length (skip_digits r)) body) 0) in
          Some (if neg then (- n)%Z else n)
      else None
  | [] => None
  end.

(** The tokens that the parser still gets of the piece at which the
    scanner stops. *)
Definition stub (st : lstate) : list token :=
  match st with
  | Word acc =>
      match int_prefix (rev acc) with
      | Some z => [TAtom (VInt z)]
      | None => []
      end
  | _ => []
  end.

(** The tokens up to the first piece that the scanner cannot read, and
    whether it has read the text to its end. *)
Fixpoint lex (st : lstate) (s : pystr) : list token * bool :=
  match s with
  | [] =>
      match finish st with
      | Some toks => (toks, true)
      | None => (stub st, false)
      end
  | c :: s' =>
      match step st c with
      | Some (st', toks) => let '(rest, complete) := lex st' s' in (toks ++ rest, complete)
      | None => (stub st, false)
      end
  end.

(** What the decoder makes of a text: a value, or one of its three
    failures, the [ValueError] with the number of digits of the integer. *)
Inductive decoded (A : Type) : Type :=
| Decoded (a : A)
| Malformed
| TooManyDigits (n : nat)
| TooDeep.
Arguments Decoded {A} a.
Arguments Malformed {A}.
Arguments TooManyDigits {A} n.
Arguments TooDeep {A}.

(** The number of digits of an integer literal. *)
Definition digits_of (z : Z) : nat := length (str_of_int (Z.abs z)).

(** [int()] refuses a literal with more than [max_digits] digits. *)
Definition too_long (max_digits : option nat) (z : Z) : bool :=
  match max_digits with
  | Some m => (m <? digits_of z)%nat
  | None => false
  end.

(** Recursive descent over the tokens; every call consumes a token, so
    the number of tokens (plus one) is enough fuel. [room] is the number
    of arrays and objects that may still be entered one inside the
    other. *)
Fixpoint parse_value (fuel : nat) (max_digits : option nat) (room : nat)
    (toks : list token) : decoded (value * list token) :=
  match fuel with
  | O => Malformed
  | S f =>
      match toks with
      | TAtom v :: r =>
          match v with
          | VInt z =>
              if too_long max_digits z then TooManyDigits (digits_of z)
              else Decoded (v, r)
          | _ => Decoded (v, r)
          end
      | TString s :: r => Decoded (VStr s, r)
      | TLBrack :: r =>
          match room with
          | O => TooDeep
          | S room' =>
              match r with
              | TRBrack :: r' => Decoded (VList [], r')
              | _ => parse_elems f max_digits room' r []
              end
          end
      | TLBrace :: r =>
          match room with
          | O => TooDeep
          | S room' =>
              match r with
              | TRBrace :: r' => Decoded (VDict ∅, r')
              | _ => parse_members f max_digits room' r ∅
              end
          end
      | _ => Malformed
      end
  end
with parse_elems (fuel : nat) (max_digits : option nat) (room : nat)
    (toks : list token) (acc : list value) : decoded (value * list token) :=
  match fuel with
  | O => Malformed
  | S f =>
      match parse_value f max_digits room toks with
      | Decoded (v, TComma :: r) => parse_elems f max_digits room r (v :: acc)
      | Decoded (v, TRBrack :: r) => Decoded (VList (rev (v :: acc)), r)
      | Decoded _ => Malformed
      | Malformed => Malformed
      | TooManyDigits n => TooManyDigits n
      | TooDeep => TooDeep
      end
  end
with parse_members (fuel : nat) (max_digits : option nat) (room : nat)
    (toks : list token) (d : gmap pystr value) : decoded (value * list token) :=
  match fuel with
  | O => Malformed
  | S f =>
      match toks with
      | TString k :: TColon :: r =>
          match parse_value f max_digits room r with
          | Decoded (v, TComma :: r') => parse_members f max_digits room r' (<[k:=v]> d)
          | Decoded (v, TRBrace :: r') => Decoded (VDict (<[k:=v]> d), r')
          | Decoded _ => Malformed
          | Malformed => Malformed
          | TooManyDigits n => TooManyDigits n
          | TooDeep => TooDeep
          end
      | _ => Malformed
      end
  end.

(** [json.loads(s)] with room for [room] levels of nesting and the limit
    [max_digits] of [int()]. What is left after the value, or a piece that
    the scanner could not read, is extra data. *)
Definition loads (room : nat) (max_digits : option nat) (s : pystr) : decoded value :=
  let '(toks, complete) := lex Out s in
  match parse_value (S (2 * length toks)) max_digits room toks with
  | Decoded (v, []) => if complete then Decoded v else Malformed
  | Decoded (_, _ :: _) => Malformed
  | Malformed => Malformed
  | TooManyDigits n => TooManyDigits n
  | TooDeep => TooDeep
  end.

End Json.

(* ===================================================================== *)
(** * The transport ([requests]) and the world around the client          *)
(* ===================================================================== *)

(** [requests.Response]. [headers] is the case-insensitive dictionary of
    [requests], kept under lower-cased names; [elapsed] is in
    microseconds; [text] is the body decoded with the encoding that the
    response declares (or that [requests] guesses from the bytes);
    [json_text] is the text that [response.json()] gives to the decoder:
    the body decoded as the UTF encoding that its first bytes show when
    the response declares no encoding, and [text] otherwise. *)
Record Response : Type := mkResponse {
  status_code : Z;
  reason : pystr;
  resp_url : pystr;
  text : pystr;
  json_text : pystr;
  headers : gmap pystr pystr;
  elapsed : Z
}.

(** The session method that is called. *)
Inductive verb : Type := GET | DELETE | PUT | POST | PATCH.

(** The body keyword of the call: none, [json=data] or [data=data]. *)
Inductive body : Type :=
| NoBody
| JsonBody (data : value)
| DataBody (data : value).

(** One call of a session method with its keyword arguments. *)
Record Request : Type := mkRequest {
  method : verb;
  url : pystr;
  req_headers : gmap pystr value;
  req_body : body;
  allow_redirects : bool;
  timeout : Z
}.

(** What a session call does. *)
Inductive Outcome : Type :=
| RaisesConnectionError
| RaisesTimeout
| RaisesOther (msg : pystr)
| Returns (response : Response).

(** The places of this file where the JSON decoder is called. *)
Inductive place : Type :=
| in_dict
| in_handle_and_raise
| in_create_sim_collection
| in_patch_sim_session.

(** The collaborators outside this file: the Python runtime's [repr]
    (which [str] uses for containers), [pprint.pformat], [uuid4] (the
    identifier of the n-th draw), [urllib]'s [urljoin], the network
    behind the session (given the calls made before), the token of
    [AADClient(tenant_id).get_access_token()], the user-agent text of
    [_get_user_info], and of the interpreter: how many arrays and
    objects, one inside the other, the decoder has room for when it is
    called at a place of this file, the limit of
    [sys.get_int_max_str_digits()] ([None] for an interpreter without
    the limit or with the limit switched off) and the message of the
    [ValueError] of [int()] for a literal of that many digits. *)
Class Externals : Type := {
  py_repr : value -> pystr;
  pformat : gmap pystr value -> pystr;
  uuid4 : nat -> pystr;
  urljoin : pystr -> pystr -> pystr;
  network : list Request -> Request -> Outcome;
  get_access_token : option pystr -> pystr;
  user_info : pystr;
  recursion_room : place -> nat;
  int_max_str_digits : option nat;
  int_limit_message : nat -> pystr
}.

(** The client object. Only [_access_key] is ever reassigned. *)
Record BonsaiAPI : Type := mkBonsaiAPI {
  _access_key : pystr;
  _workspace_id : pystr;
  tenant_id : option pystr;
  _api_url : pystr;
  _gateway_url : pystr;
  _user_info : pystr
}.

(** The client, the number of identifiers drawn from [uuid4], the session
    calls made, the messages given to [log.debug] and the lines given to
    [click.echo] (the latest first in each list). *)
Record World : Type := mkWorld {
  self : BonsaiAPI;
  drawn : nat;
  wire : list Request;
  debug_log : list pystr;
  stdout : list pystr
}.

(** Computations that read and change the world and may raise; what was
    done before an exception stays done. *)
Definition M (A : Type) : Type := World -> result A * World.

Definition ret {A} (a : A) : M A := fun w => (Ok a, w).
Definition raise {A} (e : exn) : M A := fun w => (Raise e, w).
Definition bind {A B} (c : M A) (k : A -> M B) : M B :=
  fun w => match c w with
           | (Ok a, w') => k a w'
           | (Raise e, w') => (Raise e, w')
           end.
Definition lift {A} (r : result A) : M A := fun w => (r, w).

Notation "'let*' x ':=' c 'in' k" := (bind c (fun x => k))
  (at level 10, x name, c at level 100, k at level 200).
Notation "c ';;' k" := (bind c (fun _ => k))
  (at level 100, k at level 200, right associativity).

Definition TIMEOUT : Z := 300.

(** The URL path templates. *)
Definition _LIST_BRAINS_URL_PATH_TEMPLATE : pystr :=
  py "/v2/workspaces/{workspacename}/brains".
Definition _CREATE_BRAIN_URL_PATH_TEMPLATE : pystr :=
  py "/v2/workspaces/{workspacename}/brains/{name}".
Definition _GET_BRAIN_URL_PATH_TEMPLATE : pystr :=
  py "/v2/workspaces/{workspacename}/brains/{name}".
Definition _DELETE_BRAIN_URL_PATH_TEMPLATE : pystr :=
  py "/v2/workspaces/{workspacename}/brains/{name}".
Definition _UPDATE_BRAIN_URL_PATH_TEMPLATE : pystr :=
  py "/v2/workspaces/{workspacename}/brains/{name}".
Definition _LIST_BRAIN_VERSIONS_URL_PATH_TEMPLATE : pystr :=
  py "/v2/workspaces/{workspacename}/brains/{name}/versions".
Definition _GET_BRAIN_VERSION_URL_PATH_TEMPLATE : pystr :=
  py "/v2/workspaces/{workspacename}/brains/{name}/versions/{version}".
Definition _CREATE_BRAIN_VERSION_URL_PATH_TEMPLATE : pystr :=
  py "/v2/workspaces/{workspacename}/brains/{name}/versions".
Definition _UPDATE_BRAIN_VERSION_URL_PATH_TEMPLATE : pystr :=
  py "/v2/workspaces/{workspacename}/brains/{name}/versions/{version}".
Definition _DELETE_BRAIN_VERSION_URL_PATH_TEMPLATE : pystr :=
  py "/v2/workspaces/{workspacename}/brains/{name}/versions/{version}".
Definition _LIST_SIM_PACKAGE_URL_PATH_TEMPLATE : pystr :=
  py "/v2/workspaces/{workspacename}/simulatorpackages".
Definition _GET_SIM_PACKAGE_URL_PATH_TEMPLATE : pystr :=
  py "/v2/workspaces/{workspacename}/simulatorpackages/{simulatorpackagename}".
Definition _CREATE_SIM_PACKAGE_URL_PATH_TEMPLATE : pystr :=
  py "/v2/workspaces/{workspacename}/simulatorpackages/{packagename}".
Definition _UPDATE_SIM_PACKAGE_URL_PATH_TEMPLATE : pystr :=
  py "/v2/workspaces/{workspacename}/simulatorpackages/{simulatorpackagename}".
Definition _DELETE_SIM_PACKAGE_URL_PATH_TEMPLATE : pystr :=
  py "/v2/workspaces/{workspacename}/simulatorpackages/{simulatorpackagename}".
Definition _LIST_SIM_COLLECTION_URL_PATH_TEMPLATE : pystr :=
  py "/v2/workspaces/{workspacename}/simulatorpackages/{simulatorpackagename}/simulatorcollections".
Definition _GET_SIM_COLLECTION_URL_PATH_TEMPLATE : pystr :=
  py "/v2/workspaces/{workspacename}/simulatorpackages/{simulatorpackagename}/simulatorcollections/{collectionid}".
Definition _CREATE_SIM_COLLECTION_URL_PATH_TEMPLATE : pystr :=
  py "/v2/workspaces/{workspacename}/simulatorpackages/{simulatorpackagename}/simulatorcollections".
Definition _UPDATE_SIM_COLLECTION_URL_PATH_TEMPLATE : pystr :=
  py "/v2/workspaces/{workspacename}/simulatorpackages/{simulatorpackagename}/simulatorcollections/{collectionid}".
Definition _DELETE_SIM_COLLECTION_URL_PATH_TEMPLATE : pystr :=
  py "/v2/workspaces/{workspacename}/simulatorpackages/{simulatorpackagename}/simulatorcollections/{collectionid}".
Definition _LIST_EXPORTED_BRAINS_URL_PATH_TEMPLATE : pystr :=
  py "/v2/workspaces/{workspacename}/exportedBrains".
Definition _CREATE_EXPORTED_BRAIN_URL_PATH_TEMPLATE : pystr :=
  py "/v2/workspaces/{workspacename}/exportedBrains".
Definition _GET_EXPORTED_BRAIN_URL_PATH_TEMPLATE : pystr :=
  py "/v2/workspaces/{workspacename}/exportedBrains/{exportedbrainname}".
Definition _DELETE_EXPORTED_BRAIN_URL_PATH_TEMPLATE : pystr :=
  py "/v2/workspaces/{workspacename}/exportedBrains/{exportedbrainname}".
Definition _UPDATE_EXPORTED_BRAIN_URL_PATH_TEMPLATE : pystr :=
  py "/v2/workspaces/{workspacename}/exportedBrains/{exportedbrainname}".
Definition _LIST_SIM_BASE_IMAGE_URL_PATH_TEMPLATE : pystr :=
  py "/v2/workspaces/{workspacename}/simulatorbaseimages".
Definition _GET_SIM_BASE_IMAGE_URL_PATH_TEMPLATE : pystr :=
  py "/v2/workspaces/{workspacename}/simulatorbaseimages/{imageidentifier}".
Definition _RESET_BRAIN_TRAINING_URL_PATH_TEMPLATE : pystr :=
  py "/v2/workspaces/{workspacename}/brains/{name}/versions/{version}/resetTraining".
Definition _START_BRAIN_TRAINING_URL_PATH_TEMPLATE : pystr :=
  py "/v2/workspaces/{workspacename}/brains/{name}/versions/{version}/startTraining".
Definition _STOP_BRAIN_TRAINING_URL_PATH_TEMPLATE : pystr :=
  py "/v2/workspaces/{workspacename}/brains/{name}/versions/{version}/stopTraining".
Definition _START_BRAIN_ASSESSMENT_URL_PATH_TEMPLATE : pystr :=
  py "/v2/workspaces/{workspacename}/brains/{name}/versions/{version}/startAssessment".
Definition _STOP_BRAIN_ASSESSMENT_URL_PATH_TEMPLATE : pystr :=
  py "/v2/workspaces/{workspacename}/brains/{name}/versions/{version}/stopAssessment".
Definition _LIST_SIM_SESSIONS_URL_PATH_TEMPLATE : pystr :=
  py "/v2/workspaces/{workspacename}/simulatorsessions?deployment_mode=neq:Hosted".
Definition _GET_SIM_SESSIONS_URL_PATH_TEMPLATE : pystr :=
  py "/v2/workspaces/{workspacename}/simulatorsessions/{sessionid}".
Definition _PATCH_SIM_SESSIONS_URL_PATH_TEMPLATE : pystr :=
  py "/v2/workspaces/{workspacename}/simulatorSessions/{sessionid}".

Section Client.
Context `{Externals}.

(** [str(v)]: a string is itself, the rest is its [repr]. *)
Definition py_str (v : value) : pystr :=
  match v with
  | VStr s => s
  | VInt z => str_of_int z
  | VNone => py "None"
  | VBool true => py "True"
  | VBool false => py "False"
  | _ => py_repr v
  end.

(** [bool(v)] *)
Definition truthy (v : value) : bool :=
  match v with
  | VNone => false
  | VBool b => b
  | VInt z => negb (z =? 0)%Z
  | VStr [] => false
  | VList [] => false
  | VDict d => negb (bool_decide (d = ∅))
  | VTimedelta us => negb (us =? 0)%Z
  | _ => true
  end.

(** [template.format(args..., kwargs...)] for the replacement fields of
    this file: [{}] takes the next positional argument, [{name}] the
    keyword argument of that name; [{{] and [}}] are braces. [field] is
    the (reversed) name of the field being read. *)
Fixpoint format_from (t : pystr) (field : option pystr)
    (args : list value) (kwargs : gmap pystr value) : result pystr :=
  match t with
  | [] =>
      match field with
      | None => Ok []
      | Some _ => Raise (ValueError (py "expected '}' before end of string"))
      end
  | c :: t' =>
      match field with
      | Some name =>
          if c =? RBRACE then
            match name with
            | [] =>
                match args with
                | v :: args' =>
                    rmap (app (py_str v)) (format_from t' None args' kwargs)
                | [] => Raise IndexError
                end
            | _ =>
                match kwargs !! rev name with
                | Some v => rmap (app (py_str v)) (format_from t' None args kwargs)
                | None => Raise (KeyError (rev name))
                end
            end
          else format_from t' (Some (c :: name)) args kwargs
      | None =>
          if c =? LBRACE then
            match t' with
            | c' :: t'' =>
                if c' =? LBRACE
                then rmap (cons LBRACE) (format_from t'' None args kwargs)
                else format_from t' (Some []) args kwargs
            | [] => Raise (ValueError (py "Single '{' encountered in format string"))
            end
          else if c =? RBRACE then
            match t' with
            | c' :: t'' =>
                if c' =? RBRACE
                then rmap (cons RBRACE) (format_from t'' None args kwargs)
                else Raise (ValueError (py "Single '}' encountered in format string"))
            | [] => Raise (ValueError (py "Single '}' encountered in format string"))
            end
          else rmap (cons c) (format_from t' None args kwargs)
      end
  end.

Definition format (t : pystr) (args : list value) (kwargs : gmap pystr value)
  : result pystr :=
  format_from t None args kwargs.

(** [json.loads(s)] called at [p]: the value, or the exception that
    the decoder raises. *)
Definition decode (p : place) (s : pystr) : result value :=
  match Json.loads (recursion_room p) int_max_str_digits s with
  | Json.Decoded v => Ok v
  | Json.Malformed => Raise JSONDecodeError
  | Json.TooManyDigits n => Raise (ValueError (int_limit_message n))
  | Json.TooDeep => Raise RecursionError
  end.

(** [response.json()] called at [p]. *)
Definition json (p : place) (response : Response) : result value :=
  decode p (json_text response).

(** [response.raise_for_status()] *)
Definition raise_for_status (response : Response) : result unit :=
  let code := status_code response in
  if (400 <=? code)%Z && (code <? 500)%Z then
    Raise (HTTPError (str_of_int code ++ py " Client Error: " ++ reason response
                        ++ py " for url: " ++ resp_url response))
  else if (500 <=? code)%Z && (code <? 600)%Z then
    Raise (HTTPError (str_of_int code ++ py " Server Error: " ++ reason response
                        ++ py " for url: " ++ resp_url response))
  else Ok tt.

(** [response.ok], also [bool(response)]. *)
Definition ok (response : Response) : bool :=
  match raise_for_status response with Ok _ => true | Raise _ => false end.

Definition lower (c : N) : N :=
  if (65 <=? c) && (c <=? 90) then c + 32 else c.

(** [response.headers[name]] *)
Definition headers_getitem (response : Response) (name : pystr) : result pystr :=
  match headers response !! map lower name with
  | Some v => Ok v
  | None => Raise (KeyError (map lower name))
  end.

(** [v[k]] for a string key: anything but a present key of a dict raises. *)
Definition getitem (v : value) (k : pystr) : option value :=
  match v with
  | VDict d => d !! k
  | _ => None
  end.

(** [try: x = e  except: x = default] *)
Definition or_else {A} (r : result A) (default : A) : A :=
  match r with Ok a => a | Raise _ => default end.

Definition of_option {A} (o : option A) (e : exn) : result A :=
  match o with Some a => Ok a | None => Raise e end.

(** The statements of a [try] block, run in order on the local
    variables [S]: what was assigned before an exception stays. *)
Fixpoint run_block {S} (stmts : list (S -> result S)) (s : S) : result unit * S :=
  match stmts with
  | [] => (Ok tt, s)
  | stmt :: rest =>
      match stmt s with
      | Ok s' => run_block rest s'
      | Raise e => (Raise e, s)
      end
  end.

(** [try: stmts  except KeyError: pass] *)
Definition except_KeyError_pass {S} (r : result unit * S) : result S :=
  match r with
  | (Ok _, s) => Ok s
  | (Raise (KeyError _), s) => Ok s
  | (Raise e, _) => Raise e
  end.

(** [try: c  except ...: handler]; [handler e = None] when no clause
    matches [e]. *)
Definition try_except {A} (c : M A) (handler : exn -> option (M A)) : M A :=
  fun w =>
    match c w with
    | (Ok a, w') => (Ok a, w')
    | (Raise e, w') =>
        match handler e with
        | Some h => h w'
        | None => (Raise e, w')
        end
    end.

(* ===================================================================== *)
(** * [_handle_and_raise] and [_dict]                                      *)
(* ===================================================================== *)

(** [_handle_and_raise(response, e, request_id)]: the exception it
    raises. *)
Definition _handle_and_raise (response : Response) (e : value) (request_id : pystr)
  : exn :=
  let error_response : gmap pystr value := ∅ in
  let error_dump :=
    or_else (json in_handle_and_raise response)
      (VStr (py "Unknown server error occurred")) in
  let error_code :=
    or_else
      (rbind (json in_handle_and_raise response) (fun j =>
       rbind (of_option (getitem j (py "error")) (KeyError (py "error"))) (fun err =>
       rbind (of_option (getitem err (py "code")) (KeyError (py "code"))) (fun code =>
       format (dq "Request failed with error code '{}'") [code] ∅))))
      [] in
  let error_message :=
    or_else
      (rbind (json in_handle_and_raise response) (fun j =>
       rbind (of_option (getitem j (py "error")) (KeyError (py "error"))) (fun err =>
       rbind (of_option (getitem err (py "message")) (KeyError (py "message"))) (fun message =>
       format (py "Error message: {}") [message] ∅))))
      (py "Request failed.") in
  match except_KeyError_pass (run_block
          [ (fun m => rmap (app m) (format (py " Request ID: {}") [VStr request_id] ∅));
            (fun m => rbind (headers_getitem response (py "SpanID")) (fun span =>
                      rmap (app m) (format (py " Span ID: {}") [VStr span] ∅))) ]
          error_message) with
  | Raise e' => e'
  | Ok error_message =>
      match except_KeyError_pass (run_block
              [ (fun d => Ok (<[py "errorDump" := error_dump]> d));
                (fun d => Ok (<[py "status" := VStr (py "Failed")]> d));
                (fun d => Ok (<[py "statusCode" := VInt (status_code response)]> d));
                (fun d => Ok (<[py "elapsed" := VTimedelta (elapsed response)]> d));
                (fun d => Ok (<[py "exception" := e]> d));
                (fun d => Ok (<[py "errorCode" := VStr error_code]> d));
                (fun d => Ok (<[py "errorMessage" := VStr error_message]> d));
                (fun d => rmap (fun t => <[py "timeTaken" := VStr t]> d)
                            (headers_getitem response (py "x-ms-response-time"))) ]
              error_response) with
      | Raise e' => e'
      | Ok error_response => BrainServerError (VDict error_response)
      end
  end.

(** [try: c  except ValueError: x = default] *)
Definition except_ValueError {A} (r : result A) (default : A) : result A :=
  match r with
  | Ok a => Ok a
  | Raise e => if is_ValueError e then Ok default else Raise e
  end.

(** [_dict(response, request_id)] *)
Definition _dict (response : Response) (request_id : pystr) : result (gmap pystr value) :=
  rbind
    (if ok response && truthy (VStr (text response)) && strip_nonempty (text response)
     then
       except_ValueError
         (rmap (fun j => match j with
                         | VDict d => d
                         | v => {[ py "value" := v ]}
                         end)
               (json in_dict response))
         ∅
     else Ok ∅) (fun response_dict =>
  except_KeyError_pass (run_block
    [ (fun d => Ok (<[py "status" :=
                       VStr (if ok response then py "Succeeded" else py "Failed")]> d));
      (fun d => Ok (<[py "statusCode" := VInt (status_code response)]> d));
      (fun d => Ok (<[py "statusMessage" := VStr []]> d));
      (fun d => Ok (<[py "elapsed" := VTimedelta (elapsed response)]> d));
      (fun d => rmap (fun t => <[py "timeTaken" := VStr t]> d)
                  (headers_getitem response (py "x-ms-response-time"))) ]
    response_dict)).

(* ===================================================================== *)
(** * The client: [BonsaiAPI]                                              *)
(* ===================================================================== *)

(** An [Optional[str]] argument as a value. *)
Definition opt (o : option pystr) : value :=
  match o with Some s => VStr s | None => VNone end.

(** [BonsaiAPI.__init__], on the messages given to [log.debug] so far:
    the client it builds or the error it raises, and the messages after. *)
Definition __init__ (access_key workspace_id tenant_id api_url gateway_url : option pystr)
    (log : list pystr) : result BonsaiAPI * list pystr :=
  match format (py "Bootstrapping the Bonsai API for user: {}") [opt workspace_id] ∅ with
  | Raise e => (Raise e, log)
  | Ok m =>
      (match access_key with
       | None => Raise (ValueError (py "Access key is missing"))
       | Some access_key =>
       match workspace_id with
       | None => Raise (ValueError (py "Workspace name is missing"))
       | Some workspace_id =>
       match api_url with
       | None => Raise (ValueError (py "API url is missing"))
       | Some api_url =>
       match gateway_url with
       | None => Raise (ValueError (py "Gateway url is missing"))
       | Some gateway_url =>
           Ok (mkBonsaiAPI access_key workspace_id tenant_id api_url gateway_url
                 user_info)
       end end end end,
       m :: log)
  end.

Definition get_self : M BonsaiAPI := fun w => (Ok (self w), w).

(** [self._access_key = key] *)
Definition set_access_key (key : pystr) : M unit :=
  fun w =>
    let s := self w in
    (Ok tt,
     mkWorld (mkBonsaiAPI key (_workspace_id s) (tenant_id s) (_api_url s)
                (_gateway_url s) (_user_info s))
       (drawn w) (wire w) (debug_log w) (stdout w)).

(** [str(uuid4())] *)
Definition uuid4_str : M pystr :=
  fun w => (Ok (uuid4 (drawn w)),
            mkWorld (self w) (S (drawn w)) (wire w) (debug_log w) (stdout w)).

(** [log.debug(msg)] *)
Definition log_debug (msg : pystr) : M unit :=
  fun w => (Ok tt, mkWorld (self w) (drawn w) (wire w) (msg :: debug_log w) (stdout w)).

(** [click.echo(line)] *)
Definition click_echo (line : pystr) : M unit :=
  fun w => (Ok tt, mkWorld (self w) (drawn w) (wire w) (debug_log w) (line :: stdout w)).

(** A call of a session method. *)
Definition session_call (rq : Request) : M Outcome :=
  fun w => (Ok (network (wire w) rq),
            mkWorld (self w) (drawn w) (rq :: wire w) (debug_log w) (stdout w)).

(** [self._get_headers()] *)
Definition _get_headers : M (gmap pystr value) :=
  let* s := get_self in
  ret (<[py "User-Agent" := VStr (_user_info s)]>
       (<[py "Authorization" := VStr (_access_key s)]> ∅)).

(** [self._raise_on_redirect(response)] *)
Definition _raise_on_redirect (response : Response) : M unit :=
  let* s := get_self in
  if (status_code response =? 301)%Z then
    let* msg := lift (format (py "{} Moved Permanently: Likely misconfigured url: {}")
                        [VInt (status_code response); VStr (_api_url s)] ∅) in
    raise (HTTPError msg)
  else ret tt.

(** The session call for [http_method]; an unknown method is a
    [UsageError]. *)
Definition request_for (http_method url : pystr) (data : value)
    (headers_out : gmap pystr value) : result Request :=
  if Json.pystr_eqb http_method (py "GET") then
    Ok (mkRequest GET url headers_out NoBody true TIMEOUT)
  else if Json.pystr_eqb http_method (py "DELETE") then
    Ok (mkRequest DELETE url headers_out NoBody false TIMEOUT)
  else if Json.pystr_eqb http_method (py "PUT") then
    Ok (mkRequest PUT url headers_out (JsonBody data) false TIMEOUT)
  else if Json.pystr_eqb http_method (py "POST") then
    Ok (mkRequest POST url headers_out (JsonBody data) false TIMEOUT)
  else if Json.pystr_eqb http_method (py "PATCH") then
    Ok (mkRequest PATCH url headers_out (JsonBody data) false TIMEOUT)
  else if Json.pystr_eqb http_method (py "POST_RAW") then
    Ok (mkRequest POST url headers_out (DataBody data) false TIMEOUT)
  else if Json.pystr_eqb http_method (py "PUT_RAW") then
    Ok (mkRequest PUT url headers_out (DataBody data) false TIMEOUT)
  else Raise (UsageError (py "UNSUPPORTED HTTP REQUEST METHOD")).

(** The header dump that is logged: [Authorization] is the string
    [self._access_key]. *)
Definition scrub (headers_out : gmap pystr value) : gmap pystr value :=
  let scrubbed_headers := headers_out in
  match scrubbed_headers !! py "Authorization" with
  | Some (VStr token) =>
      if truthy (VStr token)
      then <[py "Authorization" := VStr (py "***" ++ last_chars 10 token)]> scrubbed_headers
      else scrubbed_headers
  | _ => scrubbed_headers
  end.

(** [self._try_http_request(http_method, url, data, headers)] *)
Definition _try_http_request (http_method url : pystr) (data : value)
    (headers : option (gmap pystr value)) : M (gmap pystr value) :=
  let* m := lift (format (py "Sending {} request to {}") [VStr http_method; VStr url] ∅) in
  log_debug m ;;
  let* req_id := uuid4_str in
  let* headers_out := _get_headers in
  let* request_id := uuid4_str in
  let headers_out := {[ py "RequestId" := VStr request_id ]} ∪ headers_out in
  let scrubbed_headers := scrub headers_out in
  let* m := lift (format (py "{} request headers:" ++ [10] ++ py "{}")
                    [VStr http_method; VStr (pformat scrubbed_headers)] ∅) in
  log_debug m ;;
  let headers_out :=
    match headers with
    | Some h => if truthy (VDict h) then h ∪ headers_out else headers_out
    | None => headers_out
    end in
  let* rq := lift (request_for http_method url data headers_out) in
  let* outcome := session_call rq in
  match outcome with
  | RaisesConnectionError =>
      let* m := lift (format
        (py "Connection Error. Unable to connect to domain: {}. Request ID: {}")
        [VStr url; VStr req_id] ∅) in
      raise (BrainServerError (VStr m))
  | RaisesTimeout =>
      let* m := lift (format
        (py "Request to {} timed out. Current timeout is {} seconds. Use the --timeout/-t option to adjust the timeout. Request ID: {}")
        [VStr url; VInt TIMEOUT; VStr req_id] ∅) in
      raise (BrainServerError (VStr m))
  | RaisesOther e => raise (TransportError e)
  | Returns response =>
      try_except
        (lift (raise_for_status response) ;;
         _raise_on_redirect response ;;
         let* m := lift (format (py "{} {} results:" ++ [10] ++ py "{}")
                           [VStr http_method; VStr url; VStr (text response)] ∅) in
         log_debug m ;;
         lift (_dict response req_id))
        (fun e =>
           match e with
           | HTTPError msg => Some (raise (_handle_and_raise response (VHTTPError msg) req_id))
           | _ => None
           end)
  end.

(** The two legacy-authentication markers looked for in [str(err)]. *)
Definition auth_deprecated (err_text : pystr) : bool :=
  contains (py "BonsaiAuthDeprecated") err_text ||
  contains (py "InvalidUseOfAccessKey") err_text.

(** [self._http_request(http_method, url, data, headers, debug, output)] *)
Definition _http_request (http_method url : pystr) (data : value)
    (headers : option (gmap pystr value)) (debug : bool) (output : option pystr)
  : M (gmap pystr value) :=
  (if debug then
     click_echo (py "------ REQUEST ------") ;;
     click_echo [] ;;
     let* l := lift (format (py "HTTP METHOD : {}") [VStr http_method] ∅) in
     click_echo l ;;
     let* l := lift (format (py "URL         : {}") [VStr url] ∅) in
     click_echo l ;;
     let* l := lift (format (py "BODY        : {}") [data] ∅) in
     click_echo l ;;
     click_echo [] ;;
     click_echo []
   else ret tt) ;;
  try_except
    (_try_http_request http_method url data headers)
    (fun e =>
       match e with
       | BrainServerError err =>
           Some (
             if auth_deprecated (py_str err) then
               let* m := lift (format
                 (py "Received BonsaiAuthDeprecated or InvalidUseOfAccessKey from service, switching to AAD authentication. Full error text: {}")
                 [VStr (py_str err)] ∅) in
               log_debug m ;;
               let* s := get_self in
               set_access_key (get_access_token (tenant_id s)) ;;
               _try_http_request http_method url data headers
             else raise (BrainServerError err))
       | _ => None
       end).

Definition _post (url : pystr) (data : value) (debug : bool) (output : option pystr) :=
  _http_request (py "POST") url data None debug output.

Definition _patch (url : pystr) (data : value) (debug : bool) (output : option pystr) :=
  _http_request (py "PATCH") url data None debug output.

Definition _put (url : pystr) (data : value) (debug : bool) (output : option pystr) :=
  _http_request (py "PUT") url data None debug output.

Definition _get (url : pystr) (debug : bool) (output : option pystr) :=
  _http_request (py "GET") url VNone None debug output.

Definition _delete (url : pystr) (debug : bool) (output : option pystr) :=
  _http_request (py "DELETE") url VNone None debug output.

(* ===================================================================== *)
(** * The resource methods                                                 *)
(* ===================================================================== *)

(** [workspace if workspace else self._workspace_id] *)
Definition select_workspace (workspace : option pystr) (s : BonsaiAPI) : value :=
  match workspace with
  | Some w => if truthy (VStr w) then VStr w else VStr (_workspace_id s)
  | None => VStr (_workspace_id s)
  end.

(** A dict display or the keyword arguments of a call, in source order. *)
Definition dict_of (items : list (string * value)) : gmap pystr value :=
  fold_left (fun d kv => <[py (fst kv) := snd kv]> d) items ∅.

(** [log.debug(template.format(args...))] *)
Definition log_format (template : pystr) (args : list value) : M unit :=
  let* m := lift (format template args ∅) in
  log_debug m.

(** [urljoin(base, TEMPLATE.format(kwargs...))] *)
Definition url_for (base template : pystr) (kwargs : list (string * value)) : M pystr :=
  let* url_path := lift (format template [] (dict_of kwargs)) in
  ret (urljoin base url_path).

Definition list_brains (workspace : option pystr) (debug : bool) (output : option pystr)
  : M (gmap pystr value) :=
  let* s := get_self in
  log_format (py "Getting list of brains for {}...") [VStr (_workspace_id s)] ;;
  let* url := url_for (_api_url s) _LIST_BRAINS_URL_PATH_TEMPLATE
                [("workspacename", select_workspace workspace s)] in
  _get url debug output.

Definition create_brain (name display_name : pystr) (description workspace : option pystr)
    (debug : bool) (output : option pystr) : M (gmap pystr value) :=
  let* s := get_self in
  log_format (py "Creating a BRAIN named {}") [VStr name] ;;
  let* url := url_for (_api_url s) _CREATE_BRAIN_URL_PATH_TEMPLATE
                [("workspacename", select_workspace workspace s); ("name", VStr name)] in
  let data := dict_of [("name", VStr name); ("displayName", VStr display_name);
                       ("description", opt description)] in
  _put url (VDict data) debug output.

Definition update_brain (name display_name description : pystr) (workspace : option pystr)
    (debug : bool) (output : option pystr) : M (gmap pystr value) :=
  let* s := get_self in
  log_format (py "Updating details for brain {} in workspace {}...")
    [VStr name; VStr (_workspace_id s)] ;;
  let* url := url_for (_api_url s) _UPDATE_BRAIN_URL_PATH_TEMPLATE
                [("workspacename", select_workspace workspace s); ("name", VStr name)] in
  let data := dict_of [("displayName", VStr display_name); ("description", VStr description)] in
  _patch url (VDict data) debug output.

Definition get_brain (name : pystr) (workspace : option pystr)
    (debug : bool) (output : option pystr) : M (gmap pystr value) :=
  let* s := get_self in
  log_format (py "Getting details about brain {} in workspace {}...")
    [VStr name; VStr (_workspace_id s)] ;;
  let* url := url_for (_api_url s) _GET_BRAIN_URL_PATH_TEMPLATE
                [("workspacename", select_workspace workspace s); ("name", VStr name)] in
  _get url debug output.

Definition delete_brain (name : pystr) (workspace : option pystr) (debug : bool)
  : M (gmap pystr value) :=
  let* s := get_self in
  log_format (py "Deleting a brain named {}") [VStr name] ;;
  let* url := url_for (_api_url s) _DELETE_BRAIN_URL_PATH_TEMPLATE
                [("workspacename", select_workspace workspace s); ("name", VStr name)] in
  _delete url debug None.

Definition create_brain_version (name : pystr) (source_version : Z) (description : pystr)
    (workspace : option pystr) (debug : bool) (output : option pystr)
  : M (gmap pystr value) :=
  let* s := get_self in
  log_format (py "Creating a new version of BRAIN {} from source version {}")
    [VStr name; VInt source_version] ;;
  let* url := url_for (_api_url s) _CREATE_BRAIN_VERSION_URL_PATH_TEMPLATE
                [("workspacename", select_workspace workspace s); ("name", VStr name)] in
  let data := dict_of [("sourceVersion", VInt source_version);
                       ("description", VStr description)] in
  _post url (VDict data) debug output.

Definition list_brain_versions (name : pystr) (workspace : option pystr)
    (debug : bool) (output : option pystr) : M (gmap pystr value) :=
  let* s := get_self in
  log_format (py "Getting list of brains for {}...") [VStr (_workspace_id s)] ;;
  let* url := url_for (_api_url s) _LIST_BRAIN_VERSIONS_URL_PATH_TEMPLATE
                [("workspacename", select_workspace workspace s); ("name", VStr name)] in
  _get url debug output.

Definition get_brain_version (name : pystr) (version : Z) (workspace : option pystr)
    (debug : bool) (output : option pystr) : M (gmap pystr value) :=
  let* s := get_self in
  log_format (py "Getting details about brain version {} of brain {} in workspace {}...")
    [VStr name; VInt version; VStr (_workspace_id s)] ;;
  let* url := url_for (_api_url s) _GET_BRAIN_VERSION_URL_PATH_TEMPLATE
                [("workspacename", select_workspace workspace s); ("name", VStr name);
                 ("version", VInt version)] in
  _get url debug output.

Definition update_brain_version_details (name : pystr) (version : Z) (description : pystr)
    (workspace : option pystr) (debug : bool) (output : option pystr)
  : M (gmap pystr value) :=
  let* s := get_self in
  log_format (py "Updating details for brain {} in workspace {}...")
    [VStr name; VStr (_workspace_id s)] ;;
  let* url := url_for (_api_url s) _UPDATE_BRAIN_VERSION_URL_PATH_TEMPLATE
                [("workspacename", select_workspace workspace s); ("name", VStr name);
                 ("version", VInt version)] in
  let data := dict_of [("description", VStr description)] in
  _patch url (VDict data) debug output.

Definition update_brain_version_inkling (name : pystr) (version : Z) (inkling : pystr)
    (workspace : option pystr) (debug : bool) (output : option pystr)
  : M (gmap pystr value) :=
  let* s := get_self in
  log_format (py "Updating inkling for brain {} in workspace {}...")
    [VStr name; VStr (_workspace_id s)] ;;
  let* url := url_for (_api_url s) _UPDATE_BRAIN_VERSION_URL_PATH_TEMPLATE
                [("workspacename", select_workspace workspace s); ("name", VStr name);
                 ("version", VInt version)] in
  let data := dict_of [("inkling", VStr inkling)] in
  _patch url (VDict data) debug output.

Definition delete_brain_version (name : pystr) (version : Z) (workspace : option pystr)
    (debug : bool) (output : option pystr) : M (gmap pystr value) :=
  let* s := get_self in
  log_format (py "Deleting version {} of brain {}") [VInt version; VStr name] ;;
  let* url := url_for (_api_url s) _DELETE_BRAIN_VERSION_URL_PATH_TEMPLATE
                [("workspacename", select_workspace workspace s); ("name", VStr name);
                 ("version", VInt version)] in
  _delete url debug output.

(** The [float] arguments are given by their decimal lexeme. *)
Definition create_sim_package (name image_path : pystr) (start_instance_count : Z)
    (cores_per_instance memory_in_gb_per_instance : pystr)
    (display_name description os_type package_type : option pystr)
    (min_instance_count max_instance_count : Z) (auto_scale auto_terminate : bool)
    (workspace : option pystr) (debug : bool) (output : option pystr)
  : M (gmap pystr value) :=
  let* s := get_self in
  let* url := url_for (_api_url s) _CREATE_SIM_PACKAGE_URL_PATH_TEMPLATE
                [("workspacename", select_workspace workspace s);
                 ("packagename", VStr name)] in
  let data := dict_of
    [("startInstanceCount", VInt start_instance_count);
     ("coresPerInstance", VFloat cores_per_instance);
     ("memInGbPerInstance", VFloat memory_in_gb_per_instance);
     ("displayName", opt display_name); ("description", opt description);
     ("osType", opt os_type); ("packageType", opt package_type);
     ("imagePath", VStr image_path);
     ("minInstanceCount", VInt min_instance_count);
     ("maxInstanceCount", VInt max_instance_count);
     ("autoScale", VBool auto_scale); ("autoTerminate", VBool auto_terminate)] in
  _put url (VDict data) debug output.

Definition list_sim_package (workspace : option pystr) (debug : bool)
    (output : option pystr) : M (gmap pystr value) :=
  let* s := get_self in
  log_format (py "Getting list of simulator packages for {}...") [VStr (_workspace_id s)] ;;
  let* url := url_for (_api_url s) _LIST_SIM_PACKAGE_URL_PATH_TEMPLATE
                [("workspacename", select_workspace workspace s)] in
  _get url debug output.

Definition get_sim_package (name : pystr) (workspace : option pystr)
    (debug : bool) (output : option pystr) : M (gmap pystr value) :=
  let* s := get_self in
  log_format (py "Getting details about sim package {} in workspace {}...")
    [VStr name; VStr (_workspace_id s)] ;;
  let* url := url_for (_api_url s) _GET_SIM_PACKAGE_URL_PATH_TEMPLATE
                [("workspacename", select_workspace workspace s);
                 ("simulatorpackagename", VStr name)] in
  _get url debug output.

Definition update_sim_package (name : pystr) (start_instance_count : Z)
    (cores_per_instance memory_in_gb_per_instance : pystr)
    (display_name description : option pystr)
    (min_instance_count max_instance_count : Z) (auto_scale auto_terminate : bool)
    (workspace : option pystr) (debug : bool) (output : option pystr)
  : M (gmap pystr value) :=
  let* s := get_self in
  log_format (py "Updating details for simulator package {} in workspace {}...")
    [VStr name; VStr (_workspace_id s)] ;;
  let* url := url_for (_api_url s) _UPDATE_SIM_PACKAGE_URL_PATH_TEMPLATE
                [("workspacename", select_workspace workspace s);
                 ("simulatorpackagename", VStr name)] in
  let data := dict_of
    [("startInstanceCount", VInt start_instance_count);
     ("coresPerInstance", VFloat cores_per_instance);
     ("memInGbPerInstance", VFloat memory_in_gb_per_instance);
     ("displayName", opt display_name); ("description", opt description);
     ("minInstanceCount", VInt min_instance_count);
     ("maxInstanceCount", VInt max_instance_count);
     ("autoScale", VBool auto_scale); ("autoTerminate", VBool auto_terminate)] in
  _patch url (VDict data) debug output.

Definition delete_sim_package (name : pystr) (workspace : option pystr)
    (debug : bool) (output : option pystr) : M (gmap pystr value) :=
  let* s := get_self in
  log_format (py "Deleting simulator package {}") [VStr name] ;;
  let* url := url_for (_api_url s) _DELETE_SIM_PACKAGE_URL_PATH_TEMPLATE
                [("workspacename", select_workspace workspace s);
                 ("simulatorpackagename", VStr name)] in
  _delete url debug output.

(** The literal that both [create_sim_collection] and
    [patch_sim_session] format and give to [json.loads]. *)
Definition PURPOSE_TEMPLATE : pystr :=
  dq "{{'action': '{}', 'target': {{'workspaceName': '{}', 'brainName': '{}', 'brainVersion': '{}', 'conceptName': '{}'  }} }}".

(** [json.loads(s)] as a computation. *)
Definition json_loads (p : place) (s : pystr) : M value := lift (decode p s).

Definition create_sim_collection (packagename brain_name : pystr) (brain_version : Z)
    (concept_name purpose_action : pystr)
    (description cores_per_instance memory_in_gb_per_instance start_instance_count
       min_instance_count max_instance_count auto_scaling auto_termination
       workspace : option pystr)
    (debug : bool) (output : option pystr) : M (gmap pystr value) :=
  let* s := get_self in
  log_format (py "Creating a new sim collection") [] ;;
  let* url := url_for (_api_url s) _CREATE_SIM_COLLECTION_URL_PATH_TEMPLATE
                [("workspacename", select_workspace workspace s);
                 ("simulatorpackagename", VStr packagename)] in
  let* t := lift (format PURPOSE_TEMPLATE
                    [VStr purpose_action; VStr (_workspace_id s); VStr brain_name;
                     VInt brain_version; VStr concept_name] ∅) in
  let* purpose := json_loads in_create_sim_collection t in
  let data := dict_of
    [("purpose", purpose); ("description", opt description);
     ("resourceGroupName", VStr []); ("Subscription", VStr []);
     ("coresPerInstance", opt cores_per_instance);
     ("memInGBPerInstance", opt memory_in_gb_per_instance);
     ("startInstanceCount", opt start_instance_count);
     ("minInstanceCount", opt min_instance_count);
     ("maxInstanceCount", opt max_instance_count);
     ("autoScaling", opt auto_scaling);
     ("autoTermination", opt auto_termination)] in
  _post url (VDict data) debug output.

Definition list_sim_collection (sim_package_name : pystr) (workspace : option pystr)
    (debug : bool) (output : option pystr) : M (gmap pystr value) :=
  let* s := get_self in
  log_format (py "Getting list of simulator collections of sim package {} in workspace...")
    [VStr sim_package_name; VStr (_workspace_id s)] ;;
  let* url := url_for (_api_url s) _LIST_SIM_COLLECTION_URL_PATH_TEMPLATE
                [("workspacename", select_workspace workspace s);
                 ("simulatorpackagename", VStr sim_package_name)] in
  _get url debug output.

Definition list_sim_base_images (workspace : option pystr) (debug : bool)
    (output : option pystr) : M (gmap pystr value) :=
  let* s := get_self in
  log_format (py "Getting list of simulator base images") [] ;;
  let* url := url_for (_api_url s) _LIST_SIM_BASE_IMAGE_URL_PATH_TEMPLATE
                [("workspacename", select_workspace workspace s)] in
  _get url debug output.

Definition get_sim_collection (sim_package_name collection_id : pystr)
    (workspace : option pystr) (debug : bool) (output : option pystr)
  : M (gmap pystr value) :=
  let* s := get_self in
  log_format
    (py "Getting details about sim collection {} of sim package {} in workspace {}...")
    [VStr collection_id; VStr sim_package_name; VStr (_workspace_id s)] ;;
  let* url := url_for (_api_url s) _GET_SIM_COLLECTION_URL_PATH_TEMPLATE
                [("workspacename", select_workspace workspace s);
                 ("simulatorpackagename", VStr sim_package_name);
                 ("collectionid", VStr collection_id)] in
  _get url debug output.

Definition get_sim_base_image (image_identifier : pystr) (workspace : option pystr)
    (debug : bool) (output : option pystr) : M (gmap pystr value) :=
  let* s := get_self in
  log_format (py "Getting details for simulator base image {}...")
    [VStr image_identifier] ;;
  let* url := url_for (_api_url s) _GET_SIM_BASE_IMAGE_URL_PATH_TEMPLATE
                [("workspacename", select_workspace workspace s);
                 ("imageidentifier", VStr image_identifier)] in
  _get url debug output.

Definition update_sim_collection (sim_package_name collection_id : pystr)
    (description workspace : option pystr) (debug : bool) (output : option pystr)
  : M (gmap pystr value) :=
  let* s := get_self in
  log_format
    (py "Updating details for sim collection {} of sim package {} in workspace {}...")
    [VStr collection_id; VStr sim_package_name; VStr (_workspace_id s)] ;;
  let* url := url_for (_api_url s) _UPDATE_SIM_COLLECTION_URL_PATH_TEMPLATE
                [("workspacename", select_workspace workspace s);
                 ("simulatorpackageName", VStr sim_package_name);
                 ("collectionid", VStr collection_id)] in
  let data := dict_of [("description", opt description)] in
  _patch url (VDict data) debug output.

Definition delete_sim_collection (sim_package_name collection_id : pystr)
    (workspace : option pystr) (debug : bool) (output : option pystr)
  : M (gmap pystr value) :=
  let* s := get_self in
  log_format (py "Deleting for sim collection {} of sim package {} in workspace {}...")
    [VStr collection_id; VStr sim_package_name; VStr (_workspace_id s)] ;;
  let* url := url_for (_api_url s) _DELETE_SIM_COLLECTION_URL_PATH_TEMPLATE
                [("workspacename", select_workspace workspace s);
                 ("simulatorpackagename", VStr sim_package_name);
                 ("collectionid", VStr collection_id)] in
  _delete url debug output.

Definition start_training (name : pystr) (version : Z) (workspace : option pystr)
    (debug : bool) (output : option pystr) : M (gmap pystr value) :=
  let* s := get_self in
  let* url := url_for (_api_url s) _START_BRAIN_TRAINING_URL_PATH_TEMPLATE
                [("workspacename", select_workspace workspace s); ("name", VStr name);
                 ("version", VInt version)] in
  _post url VNone debug output.

Definition stop_training (name : pystr) (version : Z) (workspace : option pystr)
    (debug : bool) (output : option pystr) : M (gmap pystr value) :=
  let* s := get_self in
  let* url := url_for (_api_url s) _STOP_BRAIN_TRAINING_URL_PATH_TEMPLATE
                [("workspacename", select_workspace workspace s); ("name", VStr name);
                 ("version", VInt version)] in
  _post url VNone debug output.

Definition reset_training (name : pystr) (version : Z) (concept_name lesson_number : pystr)
    (workspace : option pystr) (debug : bool) (output : option pystr)
  : M (gmap pystr value) :=
  let* s := get_self in
  let* url := url_for (_api_url s) _RESET_BRAIN_TRAINING_URL_PATH_TEMPLATE
                [("workspacename", select_workspace workspace s); ("name", VStr name);
                 ("version", VInt version)] in
  let concepts := [VDict (dict_of [("name", VStr concept_name);
                                   ("lessonIndex", VStr lesson_number)])] in
  let data := dict_of [("resetAll", VBool false); ("concepts", VList concepts)] in
  _post url (VDict data) debug output.

Definition start_assessment (name : pystr) (version : Z) (workspace : option pystr)
    (debug : bool) (output : option pystr) : M (gmap pystr value) :=
  let* s := get_self in
  let* url := url_for (_api_url s) _START_BRAIN_ASSESSMENT_URL_PATH_TEMPLATE
                [("workspacename", select_workspace workspace s); ("name", VStr name);
                 ("version", VInt version)] in
  _post url VNone debug output.

Definition stop_assessment (name : pystr) (version : Z) (workspace : option pystr)
    (debug : bool) (output : option pystr) : M (gmap pystr value) :=
  let* s := get_self in
  let* url := url_for (_api_url s) _STOP_BRAIN_ASSESSMENT_URL_PATH_TEMPLATE
                [("workspacename", select_workspace workspace s); ("name", VStr name);
                 ("version", VInt version)] in
  _post url VNone debug output.

Definition create_exported_brain (name processor_architecture brain_name : pystr)
    (brain_version : Z) (display_name description workspace : option pystr)
    (debug : bool) (output : option pystr) : M (gmap pystr value) :=
  let* s := get_self in
  log_format (py "Creating a new exported brain {}") [VStr name] ;;
  let* url := url_for (_api_url s) _CREATE_EXPORTED_BRAIN_URL_PATH_TEMPLATE
                [("workspacename", select_workspace workspace s)] in
  let data := dict_of
    [("name", VStr name); ("subscription", VStr []); ("resourceGroup", VStr []);
     ("processorArchitecture", VStr processor_architecture);
     ("brainName", VStr brain_name); ("brainVersion", VInt brain_version);
     ("displayName", opt display_name); ("description", opt description)] in
  _post url (VDict data) debug output.

Definition list_exported_brain (workspace : option pystr) (debug : bool)
    (output : option pystr) : M (gmap pystr value) :=
  let* s := get_self in
  log_format (py "Getting list of exported brains for {}...") [VStr (_workspace_id s)] ;;
  let* url := url_for (_api_url s) _LIST_EXPORTED_BRAINS_URL_PATH_TEMPLATE
                [("workspacename", select_workspace workspace s)] in
  _get url debug output.

Definition get_exported_brain (name : pystr) (workspace : option pystr)
    (debug : bool) (output : option pystr) : M (gmap pystr value) :=
  let* s := get_self in
  log_format (py "Getting details about exported brain {} in workspace {}...")
    [VStr name; VStr (_workspace_id s)] ;;
  let* url := url_for (_api_url s) _GET_EXPORTED_BRAIN_URL_PATH_TEMPLATE
                [("workspacename", select_workspace workspace s);
                 ("exportedbrainname", VStr name)] in
  _get url debug output.

Definition update_exported_brain (name : pystr)
    (display_name description workspace : option pystr)
    (debug : bool) (output : option pystr) : M (gmap pystr value) :=
  let* s := get_self in
  log_format (py "Updating details for exported brain {} in workspace {}...")
    [VStr name; VStr (_workspace_id s)] ;;
  let* url := url_for (_api_url s) _UPDATE_EXPORTED_BRAIN_URL_PATH_TEMPLATE
                [("workspacename", select_workspace workspace s);
                 ("exportedbrainname", VStr name)] in
  let data := dict_of [("displayName", opt display_name);
                       ("description", opt description)] in
  _put url (VDict data) debug output.

Definition delete_exported_brain (name : pystr) (workspace : option pystr)
    (debug : bool) (output : option pystr) : M (gmap pystr value) :=
  let* s := get_self in
  log_format (py "Deleting exported brain {}") [VStr name] ;;
  let* url := url_for (_api_url s) _DELETE_EXPORTED_BRAIN_URL_PATH_TEMPLATE
                [("workspacename", select_workspace workspace s);
                 ("exportedbrainname", VStr name)] in
  _delete url debug output.

Definition list_unmanaged_sim_session (workspace : option pystr) (debug : bool)
    (output : option pystr) : M (gmap pystr value) :=
  let* s := get_self in
  log_format (py "Getting list of simulator sessions for {}...") [VStr (_workspace_id s)] ;;
  let* url := url_for (_gateway_url s) _LIST_SIM_SESSIONS_URL_PATH_TEMPLATE
                [("workspacename", select_workspace workspace s)] in
  _get url debug output.

Definition get_sim_session (session_id : pystr) (workspace : option pystr)
    (debug : bool) (output : option pystr) : M (gmap pystr value) :=
  let* s := get_self in
  log_format (py "Getting details about simulator session {} in workspace {}...")
    [VStr session_id; VStr (_workspace_id s)] ;;
  let* url := url_for (_gateway_url s) _GET_SIM_SESSIONS_URL_PATH_TEMPLATE
                [("workspacename", select_workspace workspace s);
                 ("sessionid", VStr session_id)] in
  _get url debug output.

Definition patch_sim_session (session_id brain_name : pystr) (version : Z)
    (purpose_action concept_name : pystr) (workspace : option pystr)
    (debug : bool) (output : option pystr) : M (gmap pystr value) :=
  let* s := get_self in
  log_format (py "Patching details about simulator session {} in workspace {}...")
    [VStr session_id; VStr (_workspace_id s)] ;;
  let* url := url_for (_gateway_url s) _PATCH_SIM_SESSIONS_URL_PATH_TEMPLATE
                [("workspacename", select_workspace workspace s);
                 ("sessionid", VStr session_id)] in
  let* t := lift (format PURPOSE_TEMPLATE
                    [VStr purpose_action; VStr (_workspace_id s); VStr brain_name;
                     VInt version; VStr concept_name] ∅) in
  let* purpose := json_loads in_patch_sim_session t in
  let data := dict_of [("purposeOperation", VStr (py "SetValue")); ("purpose", purpose)] in
  _patch url (VDict data) debug output.

End Client.

(* ===================================================================== *)
(** * Specification-level definitions                                      *)
(* ===================================================================== *)

Section Specs.
Context `{Externals}.

(** [_dict] looks at the body: the status is no error and the text is
    more than white space. *)
Definition reads_body (response : Response) : bool :=
  ok response && truthy (VStr (text response)) && strip_nonempty (text response).

(** The body part of the result of [_dict], when the decoder lets
    nothing out but a [ValueError]. *)
Definition body_dict (response : Response) : gmap pystr value :=
  if reads_body response
  then
    match json in_dict response with
    | Ok (VDict d) => d
    | Ok v => {[ py "value" := v ]}
    | Raise _ => ∅
    end
  else ∅.

(** The exception that [_dict] lets out: one of the decoder that is no
    [ValueError]. *)
Definition lets_out (response : Response) : option exn :=
  if reads_body response
  then
    match json in_dict response with
    | Raise e => if is_ValueError e then None else Some e
    | Ok _ => None
    end
  else None.

(** The four status fields that [_dict] always assigns. *)
Definition status_fields (response : Response) (d : gmap pystr value)
  : gmap pystr value :=
  <[py "elapsed" := VTimedelta (elapsed response)]>
  (<[py "statusMessage" := VStr []]>
  (<[py "statusCode" := VInt (status_code response)]>
  (<[py "status" := VStr (if ok response then py "Succeeded" else py "Failed")]> d))).

(** All of what [_dict] assigns: [timeTaken] only with the timing header. *)
Definition overlay (response : Response) (d : gmap pystr value) : gmap pystr value :=
  match headers response !! py "x-ms-response-time" with
  | Some t => <[py "timeTaken" := VStr t]> (status_fields response d)
  | None => status_fields response d
  end.

(** The keys that [_dict] assigns. *)
Definition status_keys : list pystr :=
  [py "status"; py "statusCode"; py "statusMessage"; py "elapsed"; py "timeTaken"].

(** The value the normalizer itself has for a status key: from the
    response status, the elapsed time and the timing header. *)
Definition normalizer_value (response : Response) (k : pystr) : option value :=
  if bool_decide (k = py "status") then
    Some (VStr (if ok response then py "Succeeded" else py "Failed"))
  else if bool_decide (k = py "statusCode") then Some (VInt (status_code response))
  else if bool_decide (k = py "statusMessage") then Some (VStr [])
  else if bool_decide (k = py "elapsed") then Some (VTimedelta (elapsed response))
  else if bool_decide (k = py "timeTaken") then
    VStr <$> (headers response !! py "x-ms-response-time")
  else None.

(** A 200 response without the timing header whose body has a
    [timeTaken] field. *)
Definition forged_time_response : Response :=
  mkResponse 200 (py "OK") (py "https://api.bons.ai/v2/workspaces/acme/brains")
    (dq "{'timeTaken': 'forged', 'name': 'b1'}")
    (dq "{'timeTaken': 'forged', 'name': 'b1'}") ∅ 1500.

(** A 200 response with the timing header, whose body has fields named
    like the status fields. *)
Definition timed_response : Response :=
  mkResponse 200 (py "OK") (py "https://api.bons.ai/v2/workspaces/acme/brains")
    (dq "{'timeTaken': 'forged', 'status': 'Failed', 'name': 'b1'}")
    (dq "{'timeTaken': 'forged', 'status': 'Failed', 'name': 'b1'}")
    {[ py "x-ms-response-time" := py "12" ]} 1500.

(** A 200 response whose body is not JSON, and one whose body is a JSON
    array. *)
Definition html_response : Response :=
  mkResponse 200 (py "OK") (py "https://api.bons.ai/") (py "<html>hello</html>")
    (py "<html>hello</html>") ∅ 7.

Definition array_response : Response :=
  mkResponse 200 (py "OK") (py "https://api.bons.ai/") (py "[1, 2]") (py "[1, 2]") ∅ 7.

(** The exceptions of the decoder. *)
Definition decoder_error (e : exn) : Prop :=
  match e with
  | JSONDecodeError | RecursionError => True
  | ValueError msg => exists n, msg = int_limit_message n
  | _ => False
  end.

(** What a text is when nothing limits the decoder: with room for as
    many levels as the text has characters and no limit on the digits of
    an integer. *)
Definition unlimited (s : pystr) : Json.decoded value := Json.loads (length s) None s.

(** A JSON text and its value; a text that is not JSON. *)
Definition valid_json (s : pystr) (v : value) : Prop := unlimited s = Json.Decoded v.
Definition invalid_json (s : pystr) : Prop := unlimited s = Json.Malformed.

(** [n + 1] arrays, one inside the other. *)
Fixpoint nested (n : nat) : value :=
  match n with
  | O => VList []
  | S n' => VList [nested n']
  end.

(** The text of [nested (n - 1)], and its first half. *)
Definition opened (n : nat) : pystr := replicate n 91%N.
Definition brackets (n : nat) : pystr := opened n ++ replicate n 93%N.

(** Two 200 responses: the body of one is a JSON array of 901 levels, the
    body of the other is 901 opening brackets, which is not JSON. *)
Definition deep_array_response : Response :=
  mkResponse 200 (py "OK") (py "https://api.bons.ai/") (brackets 901) (brackets 901) ∅ 7.

Definition open_brackets_response : Response :=
  mkResponse 200 (py "OK") (py "https://api.bons.ai/") (opened 901) (opened 901) ∅ 7.

(** A 200 response whose body is an object with an integer of 4301
    digits. *)
Definition long_integer_response : Response :=
  mkResponse 200 (py "OK") (py "https://api.bons.ai/")
    (dq "{'name': 'b1', 'n': " ++ replicate 4301 57%N ++ py "}")
    (dq "{'name': 'b1', 'n': " ++ replicate 4301 57%N ++ py "}") ∅ 7.

(** [response.json()["error"][field]], when it is there. *)
Definition error_field (response : Response) (field : pystr) : option value :=
  match json in_handle_and_raise response with
  | Ok j =>
      match getitem j (py "error") with
      | Some err => getitem err field
      | None => None
      end
  | Raise _ => None
  end.

(** What [_handle_and_raise] records: each entry from its own source. *)
Definition error_dump_value (response : Response) : value :=
  match json in_handle_and_raise response with
  | Ok v => v
  | Raise _ => VStr (py "Unknown server error occurred")
  end.

Definition error_code_text (response : Response) : pystr :=
  match error_field response (py "code") with
  | Some code => dq "Request failed with error code '" ++ py_str code ++ [DQUOTE]
  | None => []
  end.

Definition error_message_text (response : Response) (request_id : pystr) : pystr :=
  match error_field response (py "message") with
  | Some message => py "Error message: " ++ py_str message
  | None => py "Request failed."
  end
  ++ py " Request ID: " ++ request_id
  ++ match headers response !! py "spanid" with
     | Some span => py " Span ID: " ++ span
     | None => []
     end.

Definition error_payload (response : Response) (e : value) (request_id : pystr)
  : gmap pystr value :=
  let d :=
    <[py "errorMessage" := VStr (error_message_text response request_id)]>
    (<[py "errorCode" := VStr (error_code_text response)]>
    (<[py "exception" := e]>
    (<[py "elapsed" := VTimedelta (elapsed response)]>
    (<[py "statusCode" := VInt (status_code response)]>
    (<[py "status" := VStr (py "Failed")]>
    (<[py "errorDump" := error_dump_value response]> ∅)))))) in
  match headers response !! py "x-ms-response-time" with
  | Some t => <[py "timeTaken" := VStr t]> d
  | None => d
  end.

(** The texts of the dispatcher. *)
Definition sending_text (http_method url : pystr) : pystr :=
  py "Sending " ++ http_method ++ py " request to " ++ url.

Definition headers_text (http_method : pystr) (scrubbed_headers : gmap pystr value) : pystr :=
  http_method ++ py " request headers:" ++ [10] ++ pformat scrubbed_headers.

Definition results_text (http_method url body : pystr) : pystr :=
  http_method ++ py " " ++ url ++ py " results:" ++ [10] ++ body.

Definition connection_error_text (url req_id : pystr) : pystr :=
  py "Connection Error. Unable to connect to domain: " ++ url
  ++ py ". Request ID: " ++ req_id.

Definition timeout_text (url req_id : pystr) : pystr :=
  py "Request to " ++ url ++ py " timed out. Current timeout is 300 seconds. Use the --timeout/-t option to adjust the timeout. Request ID: " ++ req_id.

Definition redirect_text (api_url : pystr) : pystr :=
  py "301 Moved Permanently: Likely misconfigured url: " ++ api_url.

Definition fallback_text (err_text : pystr) : pystr :=
  py "Received BonsaiAuthDeprecated or InvalidUseOfAccessKey from service, switching to AAD authentication. Full error text: " ++ err_text.

(** The headers an attempt builds in world [w], before and after the
    caller's [headers] are laid over them. *)
Definition base_headers (w : World) : gmap pystr value :=
  {[ py "RequestId" := VStr (uuid4 (S (drawn w))) ]}
  ∪ (<[py "User-Agent" := VStr (_user_info (self w))]>
     (<[py "Authorization" := VStr (_access_key (self w))]> ∅)).

Definition headers_out (w : World) (headers : option (gmap pystr value))
  : gmap pystr value :=
  match headers with
  | Some h => if truthy (VDict h) then h ∪ base_headers w else base_headers w
  | None => base_headers w
  end.

(** The world of an attempt when it reaches the session call: two
    identifiers drawn, two messages logged. *)
Definition after_prologue (http_method url : pystr) (w : World) : World :=
  mkWorld (self w) (S (S (drawn w))) (wire w)
    (headers_text http_method (scrub (base_headers w))
       :: sending_text http_method url :: debug_log w)
    (stdout w).

Definition after_send (rq : Request) (w : World) : World :=
  mkWorld (self w) (drawn w) (rq :: wire w) (debug_log w) (stdout w).

Definition after_log (m : pystr) (w : World) : World :=
  mkWorld (self w) (drawn w) (wire w) (m :: debug_log w) (stdout w).

(** What an attempt makes of a response. *)
Definition on_response (http_method url : pystr) (response : Response)
    (req_id : pystr) (w : World) : result (gmap pystr value) * World :=
  match raise_for_status response with
  | Raise (HTTPError msg) =>
      (Raise (_handle_and_raise response (VHTTPError msg) req_id), w)
  | Raise e => (Raise e, w)
  | Ok _ =>
      if (status_code response =? 301)%Z then
        (Raise (_handle_and_raise response
                  (VHTTPError (redirect_text (_api_url (self w)))) req_id), w)
      else
        (_dict response req_id,
         after_log (results_text http_method url (text response)) w)
  end.

(** What an attempt makes of the outcome of its session call. *)
Definition on_outcome (http_method url : pystr) (outcome : Outcome)
    (req_id : pystr) (w : World) : result (gmap pystr value) * World :=
  match outcome with
  | RaisesConnectionError =>
      (Raise (BrainServerError (VStr (connection_error_text url req_id))), w)
  | RaisesTimeout =>
      (Raise (BrainServerError (VStr (timeout_text url req_id))), w)
  | RaisesOther e => (Raise (TransportError e), w)
  | Returns response => on_response http_method url response req_id w
  end.

(** The world with the credential replaced. *)
Definition with_access_key (key : pystr) (w : World) : World :=
  snd (set_access_key key w).

(** What the header dump shows for a credential. *)
Definition masked (key : pystr) : pystr :=
  match key with
  | [] => []
  | _ => py "***" ++ last_chars 10 key
  end.

(** The world after the [if (debug)] block of [_http_request]. *)
Definition after_echo (http_method url : pystr) (data : value) (debug : bool)
    (w : World) : World :=
  if debug then
    mkWorld (self w) (drawn w) (wire w) (debug_log w)
      ([] :: [] :: (py "BODY        : " ++ py_str data)
          :: (py "URL         : " ++ url)
          :: (py "HTTP METHOD : " ++ http_method)
          :: [] :: py "------ REQUEST ------" :: stdout w)
  else w.

(** The world in which the retry runs: the fallback is logged and the
    credential is the token of the fallback scheme. *)
Definition refreshed (err : value) (w : World) : World :=
  with_access_key (get_access_token (tenant_id (self w)))
    (after_log (fallback_text (py_str err)) w).

(** The verbs of the dispatcher other than [GET]. *)
Definition mutating_methods : list pystr :=
  [py "DELETE"; py "PUT"; py "POST"; py "PATCH"; py "POST_RAW"; py "PUT_RAW"].

End Specs.

(** ** The purpose object *)

(** A string with a double quote or a backslash. *)
Definition dirty (s : pystr) : Prop := DQUOTE ∈ s \/ BACKSLASH ∈ s.

#[export] Instance dirty_dec (s : pystr) : Decision (dirty s) := or_dec _ _.

(** Scanner states reached on blank input: between tokens, or in a bare
    word that starts with white space. *)
Definition blank_state (st : Json.lstate) : Prop :=
  st = Json.Out \/
  exists acc c w, st = Json.Word acc /\ rev acc = c :: w /\ isspace c = true.

(** The text that [PURPOSE_TEMPLATE.format] makes of five strings. *)
Definition purpose_text (action workspace brain version concept : pystr) : pystr :=
  dq "{'action': '" ++ action
  ++ dq "', 'target': {'workspaceName': '" ++ workspace
  ++ dq "', 'brainName': '" ++ brain
  ++ dq "', 'brainVersion': '" ++ version
  ++ dq "', 'conceptName': '" ++ concept
  ++ dq "'  } }".

(** The object the template is written for: the five strings under
    their keys. *)
Definition purpose_object (action workspace brain version concept : pystr) : value :=
  VDict (<[py "target" :=
             VDict (<[py "conceptName" := VStr concept]>
                   (<[py "brainVersion" := VStr version]>
                   (<[py "brainName" := VStr brain]>
                   (<[py "workspaceName" := VStr workspace]> ∅))))]>
         (<[py "action" := VStr action]> ∅)).

(** An object with the keys and the nesting of the purpose object, and a
    string in each of the five places. *)
Definition purpose_shaped (v : value) : Prop :=
  exists action workspace brain version concept,
    v = purpose_object action workspace brain version concept.

(** A brain name with an escape that the decoder accepts. *)
Definition escaped_name : pystr := py "b\u0031".

(** A string that occurs as a value somewhere in a Python value. *)
Inductive leaf (s : pystr) : value -> Prop :=
| leaf_str : leaf s (VStr s)
| leaf_list l v : v ∈ l -> leaf s v -> leaf s (VList l)
| leaf_dict (d : gmap pystr value) k v : d !! k = Some v -> leaf s v -> leaf s (VDict d).

(** The scanner run over a piece of input: the state it ends in and the
    tokens it has produced. *)
Fixpoint run (st : Json.lstate) (s : pystr) : option (Json.lstate * list Json.token) :=
  match s with
  | [] => Some (st, [])
  | c :: s' =>
      match Json.step st c with
      | Some (st1, toks1) =>
          match run st1 s' with
          | Some (st2, toks2) => Some (st2, toks1 ++ toks2)
          | None => None
          end
      | None => None
      end
  end.

(** What the scanner keeps of the string it is in, against the number
    [n] of characters read for it: a decoded character takes at least one
    character of input, an escape more than one. *)
Definition within (st : Json.lstate) (n : nat) : Prop :=
  match st with
  | Json.Out | Json.Word _ => True
  | Json.Str acc pend =>
      (length (Json.flush acc pend) <= n)%nat /\
      (dirty (Json.flush acc pend) -> (length (Json.flush acc pend) < n)%nat)
  | Json.Esc acc pend => (length (Json.flush acc pend) < n)%nat
  | Json.Uni acc pend k _ => (length (Json.flush acc pend) + 1 + k < n)%nat
  end.

(** A string token decoded from at most [n] characters of input. *)
Definition fits (n : nat) (t : pystr) : Prop :=
  (length t <= n)%nat /\ (dirty t -> (length t < n)%nat).

(** A string token is tame among the strings [F] when, if it has a quote
    or a backslash, some string of [F] has one too and is longer. *)
Definition tame (F : list pystr) (t : pystr) : Prop :=
  dirty t -> exists f, f ∈ F /\ dirty f /\ (length t < length f)%nat.

(** The piece of the template after the quote that closes a string: read
    between tokens it yields [toks] and ends at the start of a string;
    read inside a string it is refused. *)
Definition reopens (rest : pystr) (toks : list Json.token) : Prop :=
  run Json.Out rest = Some (Json.Str [] None, toks) /\
  (forall acc, run (Json.Str acc None) rest = None) /\
  (forall t, Json.TString t ∈ toks -> ~ dirty t).

(** The same for the last piece of the template, up to the end of input. *)
Definition finishes (rest : pystr) (toks : list Json.token) : Prop :=
  Json.scan Json.Out rest = Some toks /\
  (forall acc, Json.scan (Json.Str acc None) rest = None) /\
  (forall t, Json.TString t ∈ toks -> ~ dirty t).

(** Where the strings of a decoded value come from: a string token, or
    a value inside an atom. *)
Definition sources (toks : list Json.token) (s : pystr) : Prop :=
  Json.TString s ∈ toks \/ exists v, Json.TAtom v ∈ toks /\ leaf s v.

(** ** The calls of the resource methods *)

(** A call of a resource method, without the arguments [workspace],
    [debug] and [output] that the methods share. *)
Inductive resource_call : Type :=
| ListBrains
| CreateBrain (name display_name : pystr) (description : option pystr)
| UpdateBrain (name display_name description : pystr)
| GetBrain (name : pystr)
| DeleteBrain (name : pystr)
| CreateBrainVersion (name : pystr) (source_version : Z) (description : pystr)
| ListBrainVersions (name : pystr)
| GetBrainVersion (name : pystr) (version : Z)
| UpdateBrainVersionDetails (name : pystr) (version : Z) (description : pystr)
| UpdateBrainVersionInkling (name : pystr) (version : Z) (inkling : pystr)
| DeleteBrainVersion (name : pystr) (version : Z)
| CreateSimPackage (name image_path : pystr) (start_instance_count : Z)
    (cores_per_instance memory_in_gb_per_instance : pystr)
    (display_name description os_type package_type : option pystr)
    (min_instance_count max_instance_count : Z) (auto_scale auto_terminate : bool)
| ListSimPackage
| GetSimPackage (name : pystr)
| UpdateSimPackage (name : pystr) (start_instance_count : Z)
    (cores_per_instance memory_in_gb_per_instance : pystr)
    (display_name description : option pystr)
    (min_instance_count max_instance_count : Z) (auto_scale auto_terminate : bool)
| DeleteSimPackage (name : pystr)
| CreateSimCollection (packagename brain_name : pystr) (brain_version : Z)
    (concept_name purpose_action : pystr)
    (description cores_per_instance memory_in_gb_per_instance start_instance_count
       min_instance_count max_instance_count auto_scaling auto_termination : option pystr)
| ListSimCollection (sim_package_name : pystr)
| ListSimBaseImages
| GetSimCollection (sim_package_name collection_id : pystr)
| GetSimBaseImage (image_identifier : pystr)
| UpdateSimCollection (sim_package_name collection_id : pystr) (description : option pystr)
| DeleteSimCollection (sim_package_name collection_id : pystr)
| StartTraining (name : pystr) (version : Z)
| StopTraining (name : pystr) (version : Z)
| ResetTraining (name : pystr) (version : Z) (concept_name lesson_number : pystr)
| StartAssessment (name : pystr) (version : Z)
| StopAssessment (name : pystr) (version : Z)
| CreateExportedBrain (name processor_architecture brain_name : pystr) (brain_version : Z)
    (display_name description : option pystr)
| ListExportedBrain
| GetExportedBrain (name : pystr)
| UpdateExportedBrain (name : pystr) (display_name description : option pystr)
| DeleteExportedBrain (name : pystr)
| ListUnmanagedSimSession
| GetSimSession (session_id : pystr)
| PatchSimSession (session_id brain_name : pystr) (version : Z)
    (purpose_action concept_name : pystr).

Section Calls.
Context `{Externals}.

Definition invoke (c : resource_call) (workspace : option pystr) (debug : bool)
    (output : option pystr) : M (gmap pystr value) :=
  match c with
  | ListBrains => list_brains workspace debug output
  | CreateBrain n dn de => create_brain n dn de workspace debug output
  | UpdateBrain n dn de => update_brain n dn de workspace debug output
  | GetBrain n => get_brain n workspace debug output
  | DeleteBrain n => delete_brain n workspace debug
  | CreateBrainVersion n sv de => create_brain_version n sv de workspace debug output
  | ListBrainVersions n => list_brain_versions n workspace debug output
  | GetBrainVersion n v => get_brain_version n v workspace debug output
  | UpdateBrainVersionDetails n v de =>
      update_brain_version_details n v de workspace debug output
  | UpdateBrainVersionInkling n v i =>
      update_brain_version_inkling n v i workspace debug output
  | DeleteBrainVersion n v => delete_brain_version n v workspace debug output
  | CreateSimPackage n ip sic cpi mem dn de os pt mn mx sc tm =>
      create_sim_package n ip sic cpi mem dn de os pt mn mx sc tm workspace debug output
  | ListSimPackage => list_sim_package workspace debug output
  | GetSimPackage n => get_sim_package n workspace debug output
  | UpdateSimPackage n sic cpi mem dn de mn mx sc tm =>
      update_sim_package n sic cpi mem dn de mn mx sc tm workspace debug output
  | DeleteSimPackage n => delete_sim_package n workspace debug output
  | CreateSimCollection p bn bv cn pa de cpi mem sic mn mx sc tm =>
      create_sim_collection p bn bv cn pa de cpi mem sic mn mx sc tm workspace debug output
  | ListSimCollection sp => list_sim_collection sp workspace debug output
  | ListSimBaseImages => list_sim_base_images workspace debug output
  | GetSimCollection sp ci => get_sim_collection sp ci workspace debug output
  | GetSimBaseImage i => get_sim_base_image i workspace debug output
  | UpdateSimCollection sp ci de => update_sim_collection sp ci de workspace debug output
  | DeleteSimCollection sp ci => delete_sim_collection sp ci workspace debug output
  | StartTraining n v => start_training n v workspace debug output
  | StopTraining n v => stop_training n v workspace debug output
  | ResetTraining n v cn ln => reset_training n v cn ln workspace debug output
  | StartAssessment n v => start_assessment n v workspace debug output
  | StopAssessment n v => stop_assessment n v workspace debug output
  | CreateExportedBrain n pa bn bv dn de =>
      create_exported_brain n pa bn bv dn de workspace debug output
  | ListExportedBrain => list_exported_brain workspace debug output
  | GetExportedBrain n => get_exported_brain n workspace debug output
  | UpdateExportedBrain n dn de => update_exported_brain n dn de workspace debug output
  | DeleteExportedBrain n => delete_exported_brain n workspace debug output
  | ListUnmanagedSimSession => list_unmanaged_sim_session workspace debug output
  | GetSimSession si => get_sim_session si workspace debug output
  | PatchSimSession si bn v pa cn => patch_sim_session si bn v pa cn workspace debug output
  end.

End Calls.

(** ** Stand-ins for the collaborators, for concrete runs *)

(** A stand-in for [repr]: of a dict, its error code and message. *)
Definition stub_repr (v : value) : pystr :=
  match v with
  | VDict d =>
      match d !! py "errorCode" with Some (VStr s) => s | _ => [] end
      ++ py " "
      ++ match d !! py "errorMessage" with Some (VStr s) => s | _ => [] end
  | _ => py "<object>"
  end.

(** A stand-in for [pformat]: the [Authorization] entry. *)
Definition stub_pformat (hs : gmap pystr value) : pystr :=
  match hs !! py "Authorization" with
  | Some (VStr t) => py "{'Authorization': '" ++ t ++ py "'}"
  | _ => py "{}"
  end.

Definition stub_externals (net : list Request -> Request -> Outcome) : Externals :=
  {| py_repr := stub_repr;
     pformat := stub_pformat;
     uuid4 := fun n => py "uuid-" ++ str_of_int (Z.of_nat n);
     urljoin := fun base path => base ++ path;
     network := net;
     get_access_token := fun _ => py "aad-token";
     user_info := py "bonsai-cli/1.0.0 (python 3.8.0; linux)";
     recursion_room := fun _ => 900%nat;
     int_max_str_digits := Some 4300%nat;
     int_limit_message := fun n =>
       py "Exceeds the limit (4300 digits) for integer string conversion: value has "
       ++ str_of_int (Z.of_nat n) ++ py " digits" |}.

(** A network that cannot be reached. *)
Definition unreachable : list Request -> Request -> Outcome :=
  fun _ _ => RaisesConnectionError.

(** The collaborators of the concrete runs that make no call. *)
Definition stub_runtime : Externals := stub_externals unreachable.

Definition deprecated_response : Response :=
  mkResponse 401 (py "Unauthorized") (py "https://api.bons.ai/v2/workspaces/acme/brains")
    (dq "{'error': {'code': 'BonsaiAuthDeprecated', 'message': 'use AAD'}}")
    (dq "{'error': {'code': 'BonsaiAuthDeprecated', 'message': 'use AAD'}}") ∅ 900.

Definition brains_response : Response :=
  mkResponse 200 (py "OK") (py "https://api.bons.ai/v2/workspaces/acme/brains")
    (dq "{'value': [{'name': 'b1'}]}") (dq "{'value': [{'name': 'b1'}]}") ∅ 1200.

Definition moved_response : Response :=
  mkResponse 301 (py "Moved Permanently") (py "http://api.bons.ai/v2/workspaces/acme/brains")
    [] [] ∅ 300.

(** A service that refuses every credential but the token of the
    fallback scheme. *)
Definition aad_only : list Request -> Request -> Outcome :=
  fun _ rq =>
    match req_headers rq !! py "Authorization" with
    | Some (VStr t) =>
        if Json.pystr_eqb t (py "aad-token") then Returns brains_response
        else Returns deprecated_response
    | _ => Returns deprecated_response
    end.

(** A service that refuses every credential, also the fallback's. *)
Definition always_deprecated : list Request -> Request -> Outcome :=
  fun _ _ => Returns deprecated_response.

(** A service that answers 301 to everything. *)
Definition always_moved : list Request -> Request -> Outcome :=
  fun _ _ => Returns moved_response.

Definition stub_client : BonsaiAPI :=
  mkBonsaiAPI (py "bonsai-key-0123456789abcdef") (py "acme") (Some (py "tenant-1"))
    (py "https://api.bons.ai") (py "https://gateway.bons.ai")
    (py "bonsai-cli/1.0.0 (python 3.8.0; linux)").

Definition stub_world : World := mkWorld stub_client 0 [] [] [].

Definition brains_url : pystr := py "https://api.bons.ai/v2/workspaces/acme/brains".

(** The first attempt of a listing against the service that wants the
    fallback token, and the payload of the error it raises. *)
Definition first_attempt : result (gmap pystr value) * World :=
  @_try_http_request (stub_externals aad_only) (py "GET") brains_url VNone None stub_world.

Definition deprecated_error : value :=
  VDict (@error_payload (stub_externals aad_only) deprecated_response
           (VHTTPError (py "401 Client Error: Unauthorized for url: https://api.bons.ai/v2/workspaces/acme/brains"))
           (py "uuid-0")).

(** A deletion answered by 301. *)
Definition moved_attempt : result (gmap pystr value) * World :=
  @_try_http_request (stub_externals always_moved) (py "DELETE") brains_url VNone None
    stub_world.

(** Another credential with the last 10 characters of the client's. *)
Definition other_key : pystr := py "another-secret-6789abcdef".

(** ** Further specification-level definitions *)

(** The verbs that [_try_http_request] knows. *)
Definition supported_methods : list pystr := py "GET" :: mutating_methods.

(** The world with other lines on the standard output. *)
Definition with_stdout (lines : list pystr) (w : World) : World :=
  mkWorld (self w) (drawn w) (wire w) (debug_log w) lines.

(** The fields of the client that are set once, in [__init__]. *)
Definition same_config (s s' : BonsaiAPI) : Prop :=
  _workspace_id s' = _workspace_id s /\ tenant_id s' = tenant_id s /\
  _api_url s' = _api_url s /\ _gateway_url s' = _gateway_url s /\
  _user_info s' = _user_info s.

(** A response with another body. *)
Definition with_text (body : pystr) (response : Response) : Response :=
  mkResponse (status_code response) (reason response) (resp_url response) body body
    (headers response) (elapsed response).

(** A service that answers every call with the listing of brains. *)
Definition always_ok : list Request -> Request -> Outcome :=
  fun _ _ => Returns brains_response.

(** A gateway answer that is not JSON. *)
Definition bad_gateway_response : Response :=
  mkResponse 502 (py "Bad Gateway") (py "https://api.bons.ai/v2/workspaces/acme/brains")
    (py "<html>Bad Gateway</html>") (py "<html>Bad Gateway</html>") ∅ 40.

(** The text of the [HTTPError] of [raise_for_status] for an error
    status. *)
Definition status_error_text (response : Response) : pystr :=
  str_of_int (status_code response)
  ++ (if (status_code response <? 500)%Z then py " Client Error: "
      else py " Server Error: ")
  ++ reason response ++ py " for url: " ++ resp_url response.

(** A URL with a marker of the legacy authentication in it. *)
Definition marked_url : pystr :=
  py "https://api.bons.ai/v2/workspaces/acme/brains/BonsaiAuthDeprecated".

(** A client with a short credential. *)
Definition short_key_world : World :=
  mkWorld (mkBonsaiAPI (py "s3cret") (py "acme") None (py "https://api.bons.ai")
             (py "https://gateway.bons.ai") (py "bonsai-cli/1.0.0"))
    0 [] [] [].

(** ** [_get_user_info] and the echo of [_http_request] *)

Section MoreSpecs.
Context `{Externals}.

(** The lines that the [if (debug)] block of [_http_request] echoes, the
    latest first. *)
Definition echo_lines (http_method url : pystr) (data : value) : list pystr :=
  [ []; []; py "BODY        : " ++ py_str data; py "URL         : " ++ url;
    py "HTTP METHOD : " ++ http_method; []; py "------ REQUEST ------" ].

(** [BonsaiAPI._get_user_info()], on the version of the package, the
    version of the interpreter and the platform. *)
Definition _get_user_info (bonsai_cli_version : pystr) (major minor micro : Z)
    (platform : pystr) : result pystr :=
  rbind (format (py "{}.{}.{}") [VInt major; VInt minor; VInt micro] ∅)
    (fun python_version =>
       format (py "bonsai-cli/{} (python {}; {})")
         [VStr bonsai_cli_version; VStr python_version; VStr platform] ∅).

End MoreSpecs.

(** A control character (a code point below the space) somewhere in a
    string. *)
Definition has_control (s : pystr) : bool := existsb (fun c => c <? 32) s.

(** A string that the purpose template keeps as it is: no double quote,
    no backslash and no control character. *)
Definition plain (s : pystr) : Prop := ~ dirty s /\ has_control s = false.

(** The tokens of the purpose text up to each of its five strings. *)
Definition upto_action : list Json.token := [Json.TLBrace; Json.TString (py "action"); Json.TColon].
Definition upto_workspace (a : pystr) : list Json.token :=
  upto_action ++ Json.TString a
    :: [Json.TComma; Json.TString (py "target"); Json.TColon; Json.TLBrace; Json.TString (py "workspaceName"); Json.TColon].
Definition upto_brain (a w : pystr) : list Json.token :=
  upto_workspace a ++ Json.TString w :: [Json.TComma; Json.TString (py "brainName"); Json.TColon].
Definition upto_version (a w b : pystr) : list Json.token :=
  upto_brain a w ++ Json.TString b :: [Json.TComma; Json.TString (py "brainVersion"); Json.TColon].
Definition upto_concept (a w b v : pystr) : list Json.token :=
  upto_version a w b ++ Json.TString v :: [Json.TComma; Json.TString (py "conceptName"); Json.TColon].


(** ** The routing of the resource methods *)

(** The session method that a verb of the dispatcher stands for. *)
Definition session_method (m : pystr) : option verb :=
  match request_for m [] VNone ∅ with
  | Ok rq => Some (method rq)
  | Raise _ => None
  end.

(** The session method of each resource method. *)
Definition verb_of (c : resource_call) : verb :=
  match c with
  | ListBrains | GetBrain _ | ListBrainVersions _ | GetBrainVersion _ _
  | ListSimPackage | GetSimPackage _ | ListSimCollection _ | ListSimBaseImages
  | GetSimCollection _ _ | GetSimBaseImage _ | ListExportedBrain | GetExportedBrain _
  | ListUnmanagedSimSession | GetSimSession _ => GET
  | DeleteBrain _ | DeleteBrainVersion _ _ | DeleteSimPackage _
  | DeleteSimCollection _ _ | DeleteExportedBrain _ => DELETE
  | CreateBrain _ _ _ | CreateSimPackage _ _ _ _ _ _ _ _ _ _ _ _ _
  | UpdateExportedBrain _ _ _ => PUT
  | UpdateBrain _ _ _ | UpdateBrainVersionDetails _ _ _ | UpdateBrainVersionInkling _ _ _
  | UpdateSimPackage _ _ _ _ _ _ _ _ _ _ | UpdateSimCollection _ _ _
  | PatchSimSession _ _ _ _ _ => PATCH
  | CreateBrainVersion _ _ _ | CreateSimCollection _ _ _ _ _ _ _ _ _ _ _ _ _
  | StartTraining _ _ | StopTraining _ _ | ResetTraining _ _ _ _
  | StartAssessment _ _ | StopAssessment _ _ | CreateExportedBrain _ _ _ _ _ _ => POST
  end.

(** The base URL of each resource method: the gateway for the simulator
    sessions, the API for the rest. *)
Definition base_of (c : resource_call) (s : BonsaiAPI) : pystr :=
  match c with
  | ListUnmanagedSimSession | GetSimSession _ | PatchSimSession _ _ _ _ _ => _gateway_url s
  | _ => _api_url s
  end.

(** The methods that decode a purpose text, and the one that formats its
    URL with a keyword the template does not have. *)
Definition decodes_purpose (c : resource_call) : bool :=
  match c with
  | CreateSimCollection _ _ _ _ _ _ _ _ _ _ _ _ _ | PatchSimSession _ _ _ _ _ => true
  | _ => false
  end.

Definition misnames_keyword (c : resource_call) : bool :=
  match c with
  | UpdateSimCollection _ _ _ => true
  | _ => false
  end.

(** The exceptions that a resource method lets out: those of the
    dispatcher, the [RecursionError] of the decoder (in [_dict] for every
    method), and for the methods that decode a purpose text the
    decoder's two kinds of [ValueError]. *)
Definition may_raise (c : resource_call) (e : exn) : Prop :=
  match e with
  | BrainServerError _ | TransportError _ | RecursionError => True
  | JSONDecodeError | ValueError _ => decodes_purpose c = true
  | KeyError k => misnames_keyword c = true /\ k = py "simulatorpackagename"
  | _ => False
  end.

Section Routing.
Context `{Externals}.

(** A URL under the path of a workspace of a base URL. *)
Definition under_workspace (base : pystr) (ws : value) (u : pystr) : Prop :=
  exists path,
    u = urljoin base path /\
    startswith (py "/v2/workspaces/" ++ py_str ws ++ py "/") path = true.

(** The world [w'] after a computation that started with the client [s0]
    and the wire [wire0]: the configuration is the same, at most two
    calls were made, all with the session method [v], the timeout of 300
    seconds and a URL in [U]; the first call carries the credential of
    [s0], a second one the token of the fallback scheme, which is then the
    credential of the client. *)
Definition routed (v : verb) (U : pystr -> Prop) (s0 : BonsaiAPI) (wire0 : list Request)
    (w' : World) : Prop :=
  same_config s0 (self w') /\
  exists sent,
    wire w' = sent ++ wire0 /\ (length sent <= 2)%nat /\
    _access_key (self w')
    = (if bool_decide (length sent = 2%nat) then get_access_token (tenant_id s0)
       else _access_key s0) /\
    Forall (fun rq => method rq = v /\ timeout rq = TIMEOUT /\ U (url rq)) sent /\
    (forall rq, last sent = Some rq ->
       req_headers rq !! py "Authorization" = Some (VStr (_access_key s0))) /\
    (forall rq1 rq2, sent = [rq2; rq1] ->
       req_headers rq2 !! py "Authorization"
       = Some (VStr (get_access_token (tenant_id s0)))).

(** A computation that, started with the client [s0] and the wire
    [wire0], ends in a routed world and lets out only exceptions in [P]. *)
Definition behaves {A} (v : verb) (U : pystr -> Prop) (P : exn -> Prop)
    (s0 : BonsaiAPI) (wire0 : list Request) (c : M A) : Prop :=
  forall w, self w = s0 -> wire w = wire0 ->
    routed v U s0 wire0 (snd (c w)) /\ forall e, fst (c w) = Raise e -> P e.



End Routing.

(** The request of a raw POST of the stand-in client. *)
Definition raw_post : Request :=
  mkRequest POST brains_url
    (@headers_out (stub_externals unreachable) stub_world None)
    (DataBody (VStr (py "raw"))) false TIMEOUT.

(** The listing of brains as the stand-in client asks for it. *)
Definition brains_get (net : list Request -> Request -> Outcome)
    (hs : option (gmap pystr value)) : Request :=
  mkRequest GET brains_url (@headers_out (stub_externals net) stub_world hs) NoBody true
    TIMEOUT.

(** The error envelope of [deprecated_response]. *)
Definition deprecated_envelope : gmap pystr value :=
  <[py "message" := VStr (py "use AAD")]>
  (<[py "code" := VStr (py "BonsaiAuthDeprecated")]> ∅).

(** Headers of a caller with an identifier of its own. *)
Definition caller_headers : gmap pystr value :=
  {[ py "RequestId" := VStr (py "mine") ]}.

Section Sessions.
Context `{Externals}.

(** Resource methods called one after the other on the same client, each
    with its [workspace], [debug] and [output]: an exception of a call is
    left to the caller, and the client stays as the call left it. *)
Fixpoint run_calls (calls : list (resource_call * option pystr * bool * option pystr))
    (w : World) : World :=
  match calls with
  | [] => w
  | (c, workspace, debug, output) :: rest =>
      run_calls rest (snd (invoke c workspace debug output w))
  end.

End Sessions.

(** The world of the stand-in client after a listing of brains against
    the service that wants the fallback token. *)
Definition switched_world : World :=
  snd (@invoke (stub_externals aad_only) ListBrains None false None stub_world).

(* ===================================================================== *)
(** * Proofs                                                               *)
(* ===================================================================== *)

Ltac pyneq := let E := fresh in intros E; vm_compute in E; discriminate E.

(** ** The decoder refuses blank input *)

Module JsonFacts.
Import Json.

Lemma isspace_range c :
  isspace c = true -> 9 <= c <= 13 \/ 28 <= c <= 32 \/ c = 133 \/ 160 <= c.
Proof.
  unfold isspace. rewrite !orb_true_iff, !andb_true_iff, !N.leb_le, !N.eqb_eq. lia.
Qed.

Lemma isspace_is_digit c : isspace c = true -> is_digit c = false.
Proof.
  intros Hs%isspace_range. unfold is_digit.
  apply andb_false_iff. rewrite !N.leb_gt. lia.
Qed.

Lemma isspace_punct c : isspace c = true -> punct c = None.
Proof.
  intros Hs%isspace_range. unfold punct.
  repeat match goal with
         | |- context [N.eqb ?a ?b] => destruct (N.eqb_spec a b); [lia|]
         end.
  reflexivity.
Qed.

Lemma classify_space c w : isspace c = true -> classify (c :: w) = None.
Proof.
  intros Hs. pose proof (isspace_range _ Hs) as Hr.
  pose proof (isspace_is_digit _ Hs) as Hd.
  unfold classify, pystr_eqb.
  repeat (rewrite bool_decide_eq_false_2;
          [| intros E; vm_compute in E; injection E; lia]).
  cbn [orb]. unfold number.
  destruct (N.eqb_spec c 45); [lia|].
  unfold int_part. destruct (N.eqb_spec c 48); [lia|]. now rewrite Hd.
Qed.

Lemma scan_cons st c s :
  scan st (c :: s) =
  match step st c with
  | Some (st', toks) =>
      match scan st' s with
      | Some rest => Some (toks ++ rest)
      | None => None
      end
  | None => None
  end.
Proof. reflexivity. Qed.

Lemma scan_blank s : forall st,
  Forall (fun c => isspace c = true) s -> blank_state st ->
  scan st s = None \/ scan st s = Some [].
Proof.
  induction s as [|c s IH]; intros st Hall Hst.
  - destruct Hst as [-> | (acc & c & w & -> & Hrev & Hc)].
    + right. reflexivity.
    + left. unfold scan, finish. rewrite Hrev, classify_space by assumption. reflexivity.
  - inversion Hall as [|? ? Hc Hall']; subst.
    rewrite scan_cons.
    destruct Hst as [-> | (acc & c0 & w & -> & Hrev & Hc0)].
    + unfold step, step_out.
      destruct (is_ws c).
      * destruct (IH Out Hall' (or_introl eq_refl)) as [-> | ->]; auto.
      * rewrite (isspace_punct _ Hc).
        destruct (N.eqb_spec c 34) as [->|_]; [discriminate Hc|].
        assert (Hb : blank_state (Word [c])).
        { right. exists [c], c, []. auto. }
        destruct (IH _ Hall' Hb) as [-> | ->]; auto.
    + unfold step. destruct (is_delim c).
      * rewrite Hrev, classify_space by assumption. auto.
      * assert (Hb : blank_state (Word (c :: acc))).
        { right. exists (c :: acc), c0, (w ++ [c]). split; [reflexivity|].
          split; [|assumption]. change (rev (c :: acc)) with (rev acc ++ [c]).
          rewrite Hrev. reflexivity. }
        destruct (IH _ Hall' Hb) as [-> | ->]; auto.
Qed.

(** The scanner that stops at its first error reads a text to its end
    exactly when the strict one does, with the same tokens. *)
Lemma lex_scan s : forall st toks,
  lex st s = (toks, true) <-> scan st s = Some toks.
Proof.
  induction s as [|c s IH]; intros st toks; cbn [lex scan].
  - destruct (finish st); split; intros E; inversion E; reflexivity.
  - destruct (step st c) as [[st' ts]|].
    + destruct (lex st' s) as [rest complete] eqn:El.
      destruct (scan st' s) as [rest'|] eqn:Es.
      * apply IH in Es. rewrite Es in El. inversion El; subst.
        split; intros E; inversion E; reflexivity.
      * split; [|discriminate]. intros E. inversion E; subst.
        apply IH in El. rewrite El in Es. discriminate Es.
    + split; discriminate.
Qed.

(** A text that decodes is read to its end by the scanner. *)
Lemma loads_scan room md s v :
  loads room md s = Decoded v ->
  exists toks, scan Out s = Some toks /\
    parse_value (S (2 * length toks)) md room toks = Decoded (v, []).
Proof.
  unfold loads. destruct (lex Out s) as [toks complete] eqn:El.
  destruct (parse_value _ md room toks) as [[v' [|t r]]| | |] eqn:Ep; try discriminate.
  destruct complete; [|discriminate]. intros E. inversion E; subst.
  exists toks. split; [now apply lex_scan | assumption].
Qed.

(** A text that decodes has a character that is not white space. *)
Lemma loads_nonblank room md s v : loads room md s = Decoded v -> strip_nonempty s = true.
Proof.
  intros Hl. destruct (strip_nonempty s) eqn:Hs; [reflexivity|exfalso].
  assert (Hall : Forall (fun c => isspace c = true) s).
  { apply Forall_forall. intros c Hc. unfold strip_nonempty in Hs.
    rewrite <- not_true_iff_false, existsb_exists in Hs.
    destruct (isspace c) eqn:Hsp; [reflexivity|].
    exfalso. apply Hs. exists c. rewrite Hsp.
    split; [now apply list_elem_of_In | reflexivity]. }
  apply loads_scan in Hl as (toks & Hsc & Hp).
  destruct (scan_blank s Out Hall (or_introl eq_refl)) as [E | E];
    rewrite E in Hsc; [discriminate Hsc|].
  inversion Hsc; subst. discriminate Hp.
Qed.

Lemma loads_nonempty room md s v : loads room md s = Decoded v -> s <> [].
Proof. intros Hl ->. destruct room; discriminate Hl. Qed.

End JsonFacts.

Section Normalizer.
Context `{Externals}.

Lemma format_request_id rid :
  format (py " Request ID: {}") [VStr rid] ∅ = Ok (py " Request ID: " ++ rid).
Proof.
  transitivity (Ok (A:=pystr) (py " Request ID: " ++ rid ++ [])); [reflexivity|].
  now rewrite app_nil_r.
Qed.

Lemma format_span_id span :
  format (py " Span ID: {}") [VStr span] ∅ = Ok (py " Span ID: " ++ span).
Proof.
  transitivity (Ok (A:=pystr) (py " Span ID: " ++ span ++ [])); [reflexivity|].
  now rewrite app_nil_r.
Qed.

Lemma format_error_code code :
  format (dq "Request failed with error code '{}'") [code] ∅
  = Ok (dq "Request failed with error code '" ++ py_str code ++ [DQUOTE]).
Proof. reflexivity. Qed.

Lemma format_error_message message :
  format (py "Error message: {}") [message] ∅
  = Ok (py "Error message: " ++ py_str message).
Proof.
  transitivity (Ok (A:=pystr) (py "Error message: " ++ py_str message ++ []));
    [reflexivity|].
  now rewrite app_nil_r.
Qed.

Lemma handle_and_raise_eq response e request_id :
  _handle_and_raise response e request_id
  = BrainServerError (VDict (error_payload response e request_id)).
Proof.
  unfold _handle_and_raise, error_payload, error_code_text, error_message_text,
    error_dump_value, error_field, headers_getitem.
  rewrite format_request_id.
  change (map lower (py "SpanID")) with (py "spanid").
  change (map lower (py "x-ms-response-time")) with (py "x-ms-response-time").
  destruct (json in_handle_and_raise response) as [j|e']; cbn [of_option rbind or_else];
    [destruct (getitem j (py "error")) as [err|]; cbn [of_option rbind or_else];
     [destruct (getitem err (py "code")) as [code|];
      destruct (getitem err (py "message")) as [message|];
      cbn [of_option rbind or_else];
      rewrite ?format_error_code, ?format_error_message; cbn [or_else] | ] | ].
  all: destruct (headers response !! py "spanid") as [span|];
    cbn [run_block rmap rbind except_KeyError_pass];
    rewrite ?format_span_id; cbn [run_block rmap rbind except_KeyError_pass].
  all: destruct (headers response !! py "x-ms-response-time") as [t|];
    cbn [run_block rmap rbind except_KeyError_pass].
  all: rewrite ?app_nil_r, <- ?app_assoc; reflexivity.
Qed.

Lemma error_payload_lookups response e request_id :
  let d := error_payload response e request_id in
  d !! py "errorDump" = Some (error_dump_value response) /\
  d !! py "errorCode" = Some (VStr (error_code_text response)) /\
  d !! py "errorMessage" = Some (VStr (error_message_text response request_id)) /\
  d !! py "status" = Some (VStr (py "Failed")) /\
  d !! py "statusCode" = Some (VInt (status_code response)) /\
  d !! py "elapsed" = Some (VTimedelta (elapsed response)) /\
  d !! py "exception" = Some e /\
  d !! py "timeTaken" = VStr <$> headers response !! py "x-ms-response-time".
Proof.
  unfold error_payload.
  destruct (headers response !! py "x-ms-response-time") as [t|];
    repeat split;
    repeat first [ apply lookup_insert_eq
                 | rewrite lookup_insert_ne by pyneq
                 | apply lookup_empty ].
Qed.

(** C6 (classifier): every entry of the error payload is taken from its
    own source alone, whatever the other sources are: the dump from the
    body (or the unknown-error marker), the code and the message from
    [error.code] and [error.message] (or their defaults), the request id,
    the span id when the header is there, status code, elapsed time, the
    underlying exception, and the timing header when it is there. *)
Theorem classifier_fields_isolated response e request_id :
  exists d,
    _handle_and_raise response e request_id = BrainServerError (VDict d) /\
    d !! py "errorDump" = Some (error_dump_value response) /\
    d !! py "errorCode" = Some (VStr (error_code_text response)) /\
    d !! py "errorMessage" = Some (VStr (error_message_text response request_id)) /\
    d !! py "status" = Some (VStr (py "Failed")) /\
    d !! py "statusCode" = Some (VInt (status_code response)) /\
    d !! py "elapsed" = Some (VTimedelta (elapsed response)) /\
    d !! py "exception" = Some e /\
    d !! py "timeTaken" = VStr <$> headers response !! py "x-ms-response-time".
Proof.
  exists (error_payload response e request_id).
  split; [apply handle_and_raise_eq | apply error_payload_lookups].
Qed.

Lemma decode_raises p s e :
  decode p s = Raise e ->
  e = JSONDecodeError \/ (exists n, e = ValueError (int_limit_message n)) \/
  e = RecursionError.
Proof.
  unfold decode. destruct (Json.loads _ _ s); intros E; inversion E; eauto.
Qed.

Lemma decode_decoder_error p s e : decode p s = Raise e -> decoder_error e.
Proof.
  intros [-> | [[n ->] | ->]]%decode_raises; cbn; eauto.
Qed.

Lemma dict_eq response request_id :
  _dict response request_id
  = match lets_out response with
    | Some e => Raise e
    | None => Ok (overlay response (body_dict response))
    end.
Proof.
  unfold _dict, lets_out, body_dict, overlay, headers_getitem, reads_body.
  change (map lower (py "x-ms-response-time")) with (py "x-ms-response-time").
  destruct (ok response && truthy (VStr (text response)) && strip_nonempty (text response));
    [destruct (json in_dict response) as [[]|e]; cbn [rmap except_ValueError rbind];
     [..|destruct (is_ValueError e); cbn [rbind]; [|reflexivity]] | cbn [rbind]].
  all: destruct (headers response !! py "x-ms-response-time"); reflexivity.
Qed.

Lemma lets_out_recursion response e :
  lets_out response = Some e -> e = RecursionError.
Proof.
  unfold lets_out, json. destruct (reads_body response); [|discriminate].
  destruct (decode in_dict (json_text response)) as [v|e'] eqn:Ed; [discriminate|].
  destruct (decode_raises _ _ _ Ed) as [-> | [[n ->] | ->]]; cbn; congruence.
Qed.

Lemma reads_body_true response :
  ok response = true -> strip_nonempty (text response) = true ->
  reads_body response = true.
Proof.
  intros Hok Hs. unfold reads_body. rewrite Hok, Hs.
  destruct (text response); [discriminate Hs | reflexivity].
Qed.

Lemma dict_json_ok response request_id v :
  ok response = true -> strip_nonempty (text response) = true ->
  json in_dict response = Ok v ->
  _dict response request_id
  = Ok (overlay response (match v with VDict d => d | _ => {[ py "value" := v ]} end)).
Proof.
  intros Hok Hs Hj. rewrite dict_eq. unfold lets_out, body_dict.
  rewrite (reads_body_true _ Hok Hs), Hj. reflexivity.
Qed.

Lemma dict_json_swallowed response request_id e :
  json in_dict response = Raise e -> is_ValueError e = true ->
  _dict response request_id = Ok (overlay response ∅).
Proof.
  intros Hj He. rewrite dict_eq. unfold lets_out, body_dict.
  rewrite Hj, He. now destruct (reads_body response).
Qed.

Lemma dict_json_let_out response request_id e :
  ok response = true -> strip_nonempty (text response) = true ->
  json in_dict response = Raise e -> is_ValueError e = false ->
  _dict response request_id = Raise e.
Proof.
  intros Hok Hs Hj He. rewrite dict_eq. unfold lets_out.
  now rewrite (reads_body_true _ Hok Hs), Hj, He.
Qed.

Lemma overlay_lookup response d k :
  overlay response d !! k =
  match normalizer_value response k with
  | Some v => Some v
  | None => d !! k
  end.
Proof.
  unfold normalizer_value, overlay, status_fields.
  destruct (headers response !! py "x-ms-response-time") as [t|]; cbn [fmap option_fmap option_map].
  all: repeat (case_bool_decide;
               [ subst k;
                 repeat first [ rewrite lookup_insert_eq; reflexivity
                              | rewrite lookup_insert_ne by pyneq ]; try reflexivity | ]).
  all: rewrite !lookup_insert_ne by congruence; reflexivity.
Qed.

Lemma in_status_keys k :
  k ∈ status_keys <->
  k = py "status" \/ k = py "statusCode" \/ k = py "statusMessage" \/
  k = py "elapsed" \/ k = py "timeTaken".
Proof.
  unfold status_keys. rewrite !elem_of_cons, elem_of_nil. tauto.
Qed.

Lemma normalizer_value_other response k :
  k ∉ status_keys -> normalizer_value response k = None.
Proof.
  rewrite in_status_keys. intros Hk. unfold normalizer_value.
  repeat (case_bool_decide; [tauto|]). reflexivity.
Qed.

Lemma normalizer_value_some response k :
  k ∈ status_keys ->
  (k = py "timeTaken" -> is_Some (headers response !! py "x-ms-response-time")) ->
  is_Some (normalizer_value response k).
Proof.
  rewrite in_status_keys. intros Hk Ht. unfold normalizer_value.
  repeat case_bool_decide; eauto.
  - destruct Ht as [t ->]; [assumption|]. cbn. eauto.
  - tauto.
Qed.

(** C2, amended: for a successful response whose text is not blank and
    whose body [response.json()] decodes to an object, [_dict] returns
    the fields of the body, and under [status], [statusCode],
    [statusMessage] and [elapsed] always, and under [timeTaken] whenever
    the response has the timing header, the normalizer's own value,
    whatever the body has there. *)
Theorem dict_object_status_fields_win response request_id body k :
  ok response = true ->
  strip_nonempty (text response) = true ->
  json in_dict response = Ok (VDict body) ->
  exists d,
    _dict response request_id = Ok d /\
    (k ∉ status_keys -> d !! k = body !! k) /\
    (k ∈ status_keys ->
     (k = py "timeTaken" -> is_Some (headers response !! py "x-ms-response-time")) ->
     is_Some (d !! k) /\ d !! k = normalizer_value response k).
Proof.
  intros Hok Hs Hj. exists (overlay response body). split.
  - apply (dict_json_ok _ _ _ Hok Hs Hj).
  - rewrite overlay_lookup. split.
    + intros Hk. now rewrite normalizer_value_other.
    + intros Hk Ht. destruct (normalizer_value_some response k Hk Ht) as [v ->]. eauto.
Qed.

Lemma overlay_status response d :
  ok response = true -> overlay response d !! py "status" = Some (VStr (py "Succeeded")).
Proof.
  intros Hok. rewrite overlay_lookup. unfold normalizer_value.
  rewrite bool_decide_eq_true_2 by reflexivity. now rewrite Hok.
Qed.

Lemma overlay_keys response d k :
  is_Some (overlay response d !! k) -> is_Some (d !! k) \/ k ∈ status_keys.
Proof.
  rewrite overlay_lookup. destruct (decide (k ∈ status_keys)) as [|Hk]; [auto|].
  rewrite (normalizer_value_other _ _ Hk). auto.
Qed.

Lemma value_not_status_key : py "value" ∉ status_keys.
Proof. rewrite in_status_keys. intros [E|[E|[E|[E|E]]]]; vm_compute in E; discriminate E. Qed.

(** C5, amended: on a successful response whose text is not blank,
    what [_dict] does follows what [response.json()] does. A
    [ValueError] of the decoder (the body is not JSON, or has an integer
    of more digits than the interpreter converts) is swallowed: [_dict]
    returns normally, with status [Succeeded], only status fields and no
    [value] key. A value that is not an object (array, string, number,
    boolean, null) is returned under the [value] key, next to the status
    fields. The [RecursionError] of a body that is nested deeper than
    the interpreter has room for is not caught: [_dict] raises it. *)
Theorem dict_non_object_body response request_id :
  ok response = true ->
  strip_nonempty (text response) = true ->
  (forall e, json in_dict response = Raise e -> is_ValueError e = true ->
   exists d, _dict response request_id = Ok d /\
     d !! py "value" = None /\
     d !! py "status" = Some (VStr (py "Succeeded")) /\
     forall k, is_Some (d !! k) -> k ∈ status_keys) /\
  (forall v, json in_dict response = Ok v -> is_dict v = false ->
   exists d, _dict response request_id = Ok d /\
     d !! py "value" = Some v /\
     d !! py "status" = Some (VStr (py "Succeeded")) /\
     forall k, is_Some (d !! k) -> k = py "value" \/ k ∈ status_keys) /\
  (forall e, json in_dict response = Raise e -> is_ValueError e = false ->
   e = RecursionError /\ _dict response request_id = Raise RecursionError).
Proof.
  intros Hok Hs. split; [|split].
  - intros e Hj He. exists (overlay response ∅). split; [|split; [|split]].
    + apply (dict_json_swallowed _ _ _ Hj He).
    + rewrite overlay_lookup, normalizer_value_other by apply value_not_status_key.
      apply lookup_empty.
    + now apply overlay_status.
    + intros k [Hk|Hk]%overlay_keys; [|assumption].
      rewrite lookup_empty in Hk. now destruct Hk.
  - intros v Hj Hv. exists (overlay response {[ py "value" := v ]}).
    split; [|split; [|split]].
    + rewrite (dict_json_ok _ _ _ Hok Hs Hj). now destruct v.
    + rewrite overlay_lookup, normalizer_value_other by apply value_not_status_key.
      apply lookup_singleton_eq.
    + now apply overlay_status.
    + intros k [Hk|Hk]%overlay_keys; [left|now right].
      destruct (decide (k = py "value")) as [|Hne]; [assumption|].
      rewrite lookup_singleton_ne in Hk by congruence. now destruct Hk.
  - intros e Hj He.
    assert (e = RecursionError) as ->.
    { destruct (decode_raises _ _ _ Hj) as [-> | [[n ->] | ->]];
        [discriminate He | discriminate He | reflexivity]. }
    split; [reflexivity|]. apply (dict_json_let_out _ _ _ Hok Hs Hj He).
Qed.

End Normalizer.

(** C2 as stated fails: without the timing header, the [timeTaken] of the
    body is what [_dict] returns. *)
Lemma dict_timeTaken_from_body :
  ~ (forall (runtime : Externals) response request_id body d k,
        ok response = true ->
        strip_nonempty (text response) = true ->
        json in_dict response = Ok (VDict body) ->
        _dict response request_id = Ok d ->
        k ∈ status_keys -> is_Some (body !! k) ->
        d !! k = normalizer_value response k).
Proof.
  intros Hclaim.
  assert (Hj : @json stub_runtime in_dict forged_time_response
               = Ok (VDict (<[py "name" := VStr (py "b1")]>
                              (<[py "timeTaken" := VStr (py "forged")]> ∅))))
    by (vm_compute; reflexivity).
  assert (Hok : ok forged_time_response = true) by (vm_compute; reflexivity).
  assert (Hs : strip_nonempty (text forged_time_response) = true)
    by (vm_compute; reflexivity).
  specialize (Hclaim stub_runtime forged_time_response [] _ _ (py "timeTaken") Hok Hs Hj
                (dict_json_ok _ _ _ Hok Hs Hj)).
  assert (Hin : py "timeTaken" ∈ status_keys) by (apply in_status_keys; tauto).
  assert (Hbody : is_Some ((<[py "name" := VStr (py "b1")]>
                             (<[py "timeTaken" := VStr (py "forged")]> ∅) : gmap pystr value)
                           !! py "timeTaken"))
    by (exists (VStr (py "forged")); vm_compute; reflexivity).
  specialize (Hclaim Hin Hbody).
  vm_compute in Hclaim. discriminate Hclaim.
Qed.

Lemma dict_object_status_fields_win_witness :
  ok timed_response = true /\
  strip_nonempty (text timed_response) = true /\
  exists d,
    @_dict stub_runtime timed_response [] = Ok d /\
    (py "timeTaken" ∉ status_keys ->
     d !! py "timeTaken"
     = (<[py "name" := VStr (py "b1")]>
        (<[py "status" := VStr (py "Failed")]>
        (<[py "timeTaken" := VStr (py "forged")]> ∅)) : gmap pystr value) !! py "timeTaken") /\
    (py "timeTaken" ∈ status_keys ->
     (py "timeTaken" = py "timeTaken" ->
      is_Some (headers timed_response !! py "x-ms-response-time")) ->
     is_Some (d !! py "timeTaken") /\
     d !! py "timeTaken" = normalizer_value timed_response (py "timeTaken")).
Proof.
  split; [vm_compute; reflexivity|].
  split; [vm_compute; reflexivity|].
  apply (@dict_object_status_fields_win stub_runtime timed_response []
           (<[py "name" := VStr (py "b1")]>
            (<[py "status" := VStr (py "Failed")]>
            (<[py "timeTaken" := VStr (py "forged")]> ∅)))
           (py "timeTaken")); vm_compute; reflexivity.
Defined.

(** C5 as stated fails, in both halves: on a 200, a body of 901 opening
    brackets is not JSON, a body of 901 arrays one inside the other is a
    JSON array, and where the decoder has room for 900 levels [_dict]
    raises [RecursionError] for each of them. *)
Lemma dict_deep_body_raises :
  ~ (forall (runtime : Externals) response request_id,
        ok response = true ->
        strip_nonempty (text response) = true ->
        invalid_json (json_text response) ->
        exists d, _dict response request_id = Ok d) /\
  ~ (forall (runtime : Externals) response request_id v,
        ok response = true ->
        strip_nonempty (text response) = true ->
        valid_json (json_text response) v -> is_dict v = false ->
        exists d, _dict response request_id = Ok d /\ d !! py "value" = Some v).
Proof.
  split; intros Hclaim.
  - destruct (Hclaim stub_runtime open_brackets_response []) as [d Hd];
      try (vm_compute; reflexivity).
    vm_compute in Hd. discriminate Hd.
  - destruct (Hclaim stub_runtime deep_array_response [] (nested 900)) as [d [Hd _]];
      try (vm_compute; reflexivity).
    vm_compute in Hd. discriminate Hd.
Qed.

Lemma dict_non_object_body_witness :
  ok html_response = true /\
  strip_nonempty (text html_response) = true /\
  @json stub_runtime in_dict html_response = Raise JSONDecodeError /\
  @json stub_runtime in_dict array_response = Ok (VList [VInt 1; VInt 2]) /\
  @json stub_runtime in_dict deep_array_response = Raise RecursionError /\
  (exists d, @_dict stub_runtime html_response [] = Ok d /\
     d !! py "value" = None /\
     d !! py "status" = Some (VStr (py "Succeeded")) /\
     forall k, is_Some (d !! k) -> k ∈ status_keys) /\
  (exists d, @_dict stub_runtime array_response [] = Ok d /\
     d !! py "value" = Some (VList [VInt 1; VInt 2]) /\
     d !! py "status" = Some (VStr (py "Succeeded")) /\
     forall k, is_Some (d !! k) -> k = py "value" \/ k ∈ status_keys) /\
  @_dict stub_runtime deep_array_response [] = Raise RecursionError.
Proof.
  split; [vm_compute; reflexivity|].
  split; [vm_compute; reflexivity|].
  split; [vm_compute; reflexivity|].
  split; [vm_compute; reflexivity|].
  split; [vm_compute; reflexivity|].
  split; [|split].
  - apply (@dict_non_object_body stub_runtime html_response []) with (e := JSONDecodeError);
      vm_compute; reflexivity.
  - apply (@dict_non_object_body stub_runtime array_response []); vm_compute; reflexivity.
  - apply (@dict_non_object_body stub_runtime deep_array_response []) with (e := RecursionError);
      vm_compute; reflexivity.
Defined.
(** ** The dispatcher *)

Ltac format_eq :=
  match goal with
  | |- format ?t _ _ = _ => let t' := eval vm_compute in t in change t with t'
  end;
  unfold format; lazy -[app py_repr str_of_int pformat];
  rewrite ?app_nil_r; reflexivity.

Section Dispatcher.
Context `{Externals}.

Lemma format_sending m u :
  format (py "Sending {} request to {}") [VStr m; VStr u] ∅ = Ok (sending_text m u).
Proof. format_eq. Qed.

Lemma format_headers m t :
  format (py "{} request headers:" ++ [10] ++ py "{}") [VStr m; VStr t] ∅
  = Ok (m ++ py " request headers:" ++ [10] ++ t).
Proof. format_eq. Qed.

Lemma format_results m u t :
  format (py "{} {} results:" ++ [10] ++ py "{}") [VStr m; VStr u; VStr t] ∅
  = Ok (results_text m u t).
Proof. format_eq. Qed.

Lemma format_connection_error u r :
  format (py "Connection Error. Unable to connect to domain: {}. Request ID: {}")
    [VStr u; VStr r] ∅ = Ok (connection_error_text u r).
Proof. format_eq. Qed.

Lemma format_timeout u r :
  format (py "Request to {} timed out. Current timeout is {} seconds. Use the --timeout/-t option to adjust the timeout. Request ID: {}")
    [VStr u; VInt TIMEOUT; VStr r] ∅ = Ok (timeout_text u r).
Proof. format_eq. Qed.

Lemma format_redirect a :
  format (py "{} Moved Permanently: Likely misconfigured url: {}") [VInt 301; VStr a] ∅
  = Ok (redirect_text a).
Proof. format_eq. Qed.

Lemma format_fallback t :
  format (py "Received BonsaiAuthDeprecated or InvalidUseOfAccessKey from service, switching to AAD authentication. Full error text: {}") [VStr t] ∅
  = Ok (fallback_text t).
Proof. format_eq. Qed.

Lemma try_http_request_unfold m u d h w :
  _try_http_request m u d h w =
  match request_for m u d (headers_out w h) with
  | Raise e => (Raise e, after_prologue m u w)
  | Ok rq =>
      on_outcome m u (network (wire w) rq) (uuid4 (drawn w))
        (after_send rq (after_prologue m u w))
  end.
Proof.
  unfold _try_http_request, log_debug, uuid4_str, _get_headers,
    get_self, session_call, headers_out, try_except, _raise_on_redirect.
  unfold bind, lift, ret, raise.
  rewrite format_sending. cbn [self drawn wire debug_log stdout].
  rewrite format_headers. cbn [self drawn wire debug_log stdout].
  fold (base_headers w).
  destruct (request_for m u d _) as [rq|e]; [|reflexivity].
  unfold on_outcome, on_response.
  destruct (network (wire w) rq) as [| | e|response].
  - now rewrite format_connection_error.
  - now rewrite format_timeout.
  - reflexivity.
  - destruct (raise_for_status response) as [[]|e].
    + unfold get_self. cbn [self drawn wire debug_log stdout after_send after_prologue].
      destruct (Z.eqb_spec (status_code response) 301) as [E|_].
      * rewrite E, format_redirect. reflexivity.
      * rewrite format_results, dict_eq.
        destruct (lets_out response) as [e|] eqn:E; [|reflexivity].
        apply lets_out_recursion in E. subst e. reflexivity.
    + destruct e; reflexivity.
Qed.

Lemma request_for_inv m u d hs rq :
  request_for m u d hs = Ok rq ->
  url rq = u /\ req_headers rq = hs /\ timeout rq = TIMEOUT /\
  (m <> py "GET" -> allow_redirects rq = false) /\
  (m = py "GET" -> allow_redirects rq = true).
Proof.
  unfold request_for, Json.pystr_eqb.
  repeat (case_bool_decide; [subst m; intros [= <-]; repeat split; try congruence;
                             intros E; vm_compute in E; discriminate E |]).
  discriminate.
Qed.

Lemma request_for_total m u d hs :
  m = py "GET" \/ m ∈ mutating_methods -> exists rq, request_for m u d hs = Ok rq.
Proof.
  unfold mutating_methods. rewrite !elem_of_cons, elem_of_nil.
  intros Hm. unfold request_for, Json.pystr_eqb.
  repeat (case_bool_decide; [eauto|]). tauto.
Qed.

Lemma request_for_same m u d hs hs' rq rq' :
  request_for m u d hs = Ok rq -> request_for m u d hs' = Ok rq' ->
  method rq' = method rq /\ url rq' = url rq /\ req_body rq' = req_body rq /\
  allow_redirects rq' = allow_redirects rq /\ timeout rq' = timeout rq.
Proof.
  unfold request_for, Json.pystr_eqb.
  repeat (case_bool_decide; [intros [= <-] [= <-]; auto |]).
  discriminate.
Qed.

Lemma request_for_headers m u d hs hs' rq :
  request_for m u d hs = Ok rq -> exists rq', request_for m u d hs' = Ok rq'.
Proof.
  unfold request_for, Json.pystr_eqb.
  repeat (case_bool_decide; [eauto |]).
  discriminate.
Qed.

Lemma request_for_raises m u d hs e :
  request_for m u d hs = Raise e -> e = UsageError (py "UNSUPPORTED HTTP REQUEST METHOD").
Proof.
  unfold request_for, Json.pystr_eqb.
  repeat (case_bool_decide; [discriminate |]).
  now intros [= <-].
Qed.

(** An attempt leaves the client, the draws and the wire of its session
    call as they are, whatever the outcome. *)
Lemma on_outcome_world m u o r w :
  let w' := snd (on_outcome m u o r w) in
  self w' = self w /\ drawn w' = drawn w /\ wire w' = wire w /\ stdout w' = stdout w /\
  (debug_log w' = debug_log w \/ exists l, debug_log w' = l :: debug_log w).
Proof.
  unfold on_outcome, on_response.
  destruct o as [| | e|response]; cbn [snd]; auto 10.
  destruct (raise_for_status response) as [[]|[]]; cbn [snd]; auto 10.
  destruct (_ =? _)%Z; cbn [snd after_log self drawn wire stdout debug_log]; eauto 10.
Qed.

Lemma startswith_app (a x : pystr) : startswith a (a ++ x) = true.
Proof.
  induction a as [|c a IH]; [reflexivity|].
  cbn [startswith app]. now rewrite N.eqb_refl, IH.
Qed.

Lemma contains_app (pre a x : pystr) : contains a (pre ++ a ++ x) = true.
Proof.
  induction pre as [|c pre IH].
  - cbn [app]. destruct (a ++ x) eqn:E; cbn [contains]; rewrite <- ?E;
      now rewrite startswith_app.
  - cbn [app contains]. rewrite IH. apply orb_true_r.
Qed.

Lemma contains_suffix (pre a : pystr) : contains a (pre ++ a) = true.
Proof. rewrite <- (app_nil_r a) at 2. apply contains_app. Qed.

Lemma cons_neq_self {A} (x : A) (l : list A) : l <> x :: l.
Proof. intros E. apply (f_equal length) in E. cbn in E. lia. Qed.

Lemma try_http_request_wire m u d h w :
  match request_for m u d (headers_out w h) with
  | Ok rq => wire (snd (_try_http_request m u d h w)) = rq :: wire w
  | Raise _ => wire (snd (_try_http_request m u d h w)) = wire w
  end.
Proof.
  rewrite try_http_request_unfold.
  destruct (request_for m u d _) as [rq|e]; [|reflexivity].
  now destruct (on_outcome_world m u (network (wire w) rq) (uuid4 (drawn w))
                  (after_send rq (after_prologue m u w))) as (_ & _ & -> & _).
Qed.

Lemma on_response_301 m u response r w :
  status_code response = 301%Z ->
  on_response m u response r w
  = (Raise (BrainServerError (VDict
       (error_payload response (VHTTPError (redirect_text (_api_url (self w)))) r))), w).
Proof.
  intros E. unfold on_response, raise_for_status. rewrite E.
  cbn [Z.leb Z.ltb Z.compare Pos.compare Pos.compare_cont andb Z.eqb Pos.eqb].
  now rewrite handle_and_raise_eq.
Qed.

(** C3: every verb other than GET is sent with redirect-following
    disabled, and under every verb a response with status 301 becomes the
    misconfigured-redirect error, whose message ends with the configured
    API URL. *)
Theorem redirect_policy m u d h w res w' :
  _try_http_request m u d h w = (res, w') ->
  (m ∈ mutating_methods -> exists rq, wire w' = rq :: wire w /\ allow_redirects rq = false) /\
  (forall rq, wire w' = rq :: wire w -> m <> py "GET" -> allow_redirects rq = false) /\
  (forall rq response,
      wire w' = rq :: wire w ->
      network (wire w) rq = Returns response ->
      status_code response = 301%Z ->
      exists p,
        res = Raise (BrainServerError (VDict p)) /\
        p !! py "exception" = Some (VHTTPError (redirect_text (_api_url (self w)))) /\
        contains (_api_url (self w)) (redirect_text (_api_url (self w))) = true).
Proof.
  intros Hrun.
  pose proof (try_http_request_wire m u d h w) as Hwire.
  pose proof (try_http_request_unfold m u d h w) as Hunf.
  rewrite Hrun in Hwire, Hunf. cbn [snd] in Hwire.
  destruct (request_for m u d (headers_out w h)) as [rq0|e] eqn:Hrq.
  - destruct (request_for_inv _ _ _ _ _ Hrq) as (_ & _ & _ & Hmut & _).
    split; [|split].
    + intros Hm. exists rq0. split; [assumption|]. apply Hmut.
      intros ->. revert Hm. unfold mutating_methods.
      rewrite !elem_of_cons, elem_of_nil.
      intros [E|[E|[E|[E|[E|[E|[]]]]]]]; vm_compute in E; discriminate E.
    + intros rq Hw Hm. rewrite Hw in Hwire. injection Hwire as ->. auto.
    + intros rq response Hw Hnet Hst. rewrite Hw in Hwire. injection Hwire as ->.
      rewrite Hnet in Hunf. cbn [on_outcome] in Hunf.
      rewrite (on_response_301 _ _ _ _ _ Hst) in Hunf. injection Hunf as -> _.
      eexists. split; [reflexivity|]. split.
      * apply error_payload_lookups.
      * apply contains_suffix.
  - split; [|split].
    + intros Hm. destruct (request_for_total m u d (headers_out w h)) as [rq Hrq'];
        [now right | congruence].
    + intros rq Hw. rewrite Hw in Hwire. symmetry in Hwire.
      now apply cons_neq_self in Hwire.
    + intros rq response Hw. rewrite Hw in Hwire. symmetry in Hwire.
      now apply cons_neq_self in Hwire.
Qed.

End Dispatcher.

Section Credential.
Context `{Externals}.

Lemma base_headers_authorization w :
  base_headers w !! py "Authorization" = Some (VStr (_access_key (self w))).
Proof.
  unfold base_headers.
  rewrite lookup_union_r by (apply lookup_singleton_ne; pyneq).
  rewrite lookup_insert_ne by pyneq. apply lookup_insert_eq.
Qed.

Lemma scrub_base_headers w :
  scrub (base_headers w)
  = <[py "Authorization" := VStr (masked (_access_key (self w)))]> (base_headers w).
Proof.
  unfold scrub. rewrite base_headers_authorization.
  destruct (_access_key (self w)) as [|c key] eqn:E; cbn [truthy masked].
  - symmetry. apply insert_id. now rewrite base_headers_authorization, E.
  - reflexivity.
Qed.

Lemma last_chars_nil n s : (0 < n)%nat -> last_chars n s = [] -> s = [].
Proof.
  unfold last_chars. intros Hn E. apply (f_equal length) in E.
  rewrite length_drop in E. cbn in E. destruct s; [reflexivity|]. cbn in E. lia.
Qed.

Lemma masked_same_suffix k1 k2 :
  last_chars 10 k1 = last_chars 10 k2 -> masked k1 = masked k2.
Proof.
  intros E. destruct k1 as [|c1 k1], k2 as [|c2 k2]; cbn [masked].
  - reflexivity.
  - symmetry in E. apply last_chars_nil in E; [discriminate E | lia].
  - apply last_chars_nil in E; [discriminate E | lia].
  - now rewrite E.
Qed.

Lemma base_headers_other w k i :
  i <> py "Authorization" ->
  base_headers (with_access_key k w) !! i = base_headers w !! i.
Proof.
  intros Hi. unfold base_headers, with_access_key, set_access_key.
  cbn [snd self drawn _user_info _access_key].
  rewrite !lookup_union. f_equal.
  destruct (decide (i = py "User-Agent")) as [->|Hu].
  - now rewrite !lookup_insert_eq.
  - rewrite !(lookup_insert_ne _ (py "User-Agent")) by congruence.
    now rewrite !lookup_insert_ne by congruence.
Qed.

Lemma scrub_same_suffix w k :
  last_chars 10 (_access_key (self w)) = last_chars 10 k ->
  scrub (base_headers (with_access_key k w)) = scrub (base_headers w).
Proof.
  intros E. rewrite !scrub_base_headers.
  change (_access_key (self (with_access_key k w))) with k.
  rewrite (masked_same_suffix _ _ E).
  apply map_eq. intros i. destruct (decide (i = py "Authorization")) as [->|Hi].
  - now rewrite !lookup_insert_eq.
  - rewrite !lookup_insert_ne by congruence. now apply base_headers_other.
Qed.

Lemma try_http_request_log m u d h w :
  exists later,
    debug_log (snd (_try_http_request m u d h w))
    = later ++ headers_text m (scrub (base_headers w)) :: sending_text m u :: debug_log w.
Proof.
  rewrite try_http_request_unfold.
  destruct (request_for m u d _) as [rq|e]; [|now exists []].
  destruct (on_outcome_world m u (network (wire w) rq) (uuid4 (drawn w))
              (after_send rq (after_prologue m u w))) as (_ & _ & _ & _ & [->| [l ->]]).
  - now exists [].
  - now exists [l].
Qed.

(** C7: the header dump that an attempt logs before it sends shows, for
    the credential, three stars and its last 10 characters (nothing for
    an empty one); two credentials with the same last 10 characters give
    the same dump, so the dump tells nothing else about the credential. *)
Theorem header_dump_masks_credential m u d h w k :
  last_chars 10 (_access_key (self w)) = last_chars 10 k ->
  exists dump later later_k,
    debug_log (snd (_try_http_request m u d h w))
    = later ++ dump :: sending_text m u :: debug_log w /\
    debug_log (snd (_try_http_request m u d h (with_access_key k w)))
    = later_k ++ dump :: sending_text m u :: debug_log w /\
    dump = headers_text m (scrub (base_headers w)) /\
    scrub (base_headers w) !! py "Authorization"
    = Some (VStr (masked (_access_key (self w)))).
Proof.
  intros E.
  destruct (try_http_request_log m u d h w) as [later Hl].
  destruct (try_http_request_log m u d h (with_access_key k w)) as [later_k Hk].
  rewrite (scrub_same_suffix _ _ E) in Hk.
  exists (headers_text m (scrub (base_headers w))), later, later_k.
  split; [assumption|]. split; [assumption|]. split; [reflexivity|].
  rewrite scrub_base_headers. apply lookup_insert_eq.
Qed.

End Credential.

Section Fallback.
Context `{Externals}.

Lemma base_headers_request_id w :
  base_headers w !! py "RequestId" = Some (VStr (uuid4 (S (drawn w)))).
Proof.
  unfold base_headers. rewrite lookup_union_l' by (rewrite lookup_singleton_eq; eauto).
  apply lookup_singleton_eq.
Qed.

Lemma on_response_not_ok m u response r w :
  ok response = false ->
  exists e, on_response m u response r w
            = (Raise (BrainServerError (VDict (error_payload response e r))), w).
Proof.
  unfold ok, on_response. destruct (raise_for_status response) as [[]|e] eqn:E;
    [discriminate|intros _].
  unfold raise_for_status in E.
  destruct (_ && _); [injection E as <-|destruct (_ && _); [injection E as <-|discriminate E]].
  all: rewrite handle_and_raise_eq; eauto.
Qed.

(** The header of an attempt carries the second identifier it draws; its
    error texts carry the first. *)
Lemma attempt_identifiers m u d w rq :
  request_for m u d (headers_out w None) = Ok rq ->
  let run := _try_http_request m u d None w in
  wire (snd run) = rq :: wire w /\
  req_headers rq !! py "RequestId" = Some (VStr (uuid4 (S (drawn w)))) /\
  match network (wire w) rq with
  | RaisesConnectionError =>
      fst run = Raise (BrainServerError (VStr (connection_error_text u (uuid4 (drawn w)))))
  | RaisesTimeout =>
      fst run = Raise (BrainServerError (VStr (timeout_text u (uuid4 (drawn w)))))
  | RaisesOther _ => True
  | Returns response =>
      ok response = false ->
      exists p, fst run = Raise (BrainServerError (VDict p)) /\
        p !! py "errorMessage"
        = Some (VStr (error_message_text response (uuid4 (drawn w))))
  end.
Proof.
  intros Hrq run. subst run.
  pose proof (try_http_request_wire m u d None w) as Hw. rewrite Hrq in Hw.
  split; [assumption|]. split.
  - destruct (request_for_inv _ _ _ _ _ Hrq) as (_ & -> & _).
    apply base_headers_request_id.
  - rewrite try_http_request_unfold, Hrq.
    destruct (network (wire w) rq) as [| | e|response];
      [reflexivity | reflexivity | exact I | ].
    intros Hok. cbn [on_outcome].
    destruct (on_response_not_ok m u response (uuid4 (drawn w))
                (after_send rq (after_prologue m u w)) Hok) as [e ->].
    eexists. split; [reflexivity|]. apply error_payload_lookups.
Qed.

End Fallback.

(** C4 fails on the code: on an unreachable network the request carries
    the identifier [uuid-1] in its [RequestId] header, and the error
    raised for the same attempt names [uuid-0]. *)
Theorem correlation_id_mismatch :
  let run := @_try_http_request (stub_externals unreachable)
               (py "GET") brains_url VNone None stub_world in
  fst run = Raise (BrainServerError (VStr
    (py "Connection Error. Unable to connect to domain: https://api.bons.ai/v2/workspaces/acme/brains. Request ID: uuid-0"))) /\
  exists rq, wire (snd run) = [rq] /\
    req_headers rq !! py "RequestId" = Some (VStr (py "uuid-1")).
Proof.
  split; [vm_compute; reflexivity|].
  eexists. split; vm_compute; reflexivity.
Qed.

Section Retry.
Context `{Externals}.

Lemma format_echo_method m :
  format (py "HTTP METHOD : {}") [VStr m] ∅ = Ok (py "HTTP METHOD : " ++ m).
Proof. format_eq. Qed.

Lemma format_echo_url u :
  format (py "URL         : {}") [VStr u] ∅ = Ok (py "URL         : " ++ u).
Proof. format_eq. Qed.

Lemma format_echo_body d :
  format (py "BODY        : {}") [d] ∅ = Ok (py "BODY        : " ++ py_str d).
Proof.
  transitivity (Ok (A:=pystr) (py "BODY        : " ++ py_str d ++ []));
    [reflexivity | now rewrite app_nil_r].
Qed.

Lemma http_request_unfold m u d h debug output w :
  _http_request m u d h debug output w =
  match _try_http_request m u d h (after_echo m u d debug w) with
  | (Ok r, w1) => (Ok r, w1)
  | (Raise (BrainServerError err), w1) =>
      if auth_deprecated (py_str err)
      then _try_http_request m u d h (refreshed err w1)
      else (Raise (BrainServerError err), w1)
  | (Raise e, w1) => (Raise e, w1)
  end.
Proof.
  unfold _http_request.
  set (attempt := try_except _ _).
  assert (Hattempt : forall w0,
    attempt w0 =
    match _try_http_request m u d h w0 with
    | (Ok r, w1) => (Ok r, w1)
    | (Raise (BrainServerError err), w1) =>
        if auth_deprecated (py_str err)
        then _try_http_request m u d h (refreshed err w1)
        else (Raise (BrainServerError err), w1)
    | (Raise e, w1) => (Raise e, w1)
    end).
  { intros w0. subst attempt. unfold try_except.
    destruct (_try_http_request m u d h w0) as [[r|e] w1]; [reflexivity|].
    destruct e; try reflexivity.
    destruct (auth_deprecated _); [|reflexivity].
    unfold log_debug, get_self, set_access_key, bind, lift, ret.
    now rewrite format_fallback. }
  clearbody attempt.
  destruct debug.
  - unfold click_echo, bind, lift, ret.
    rewrite (format_echo_method m). rewrite (format_echo_url u).
    rewrite (format_echo_body d).
    cbn [self drawn wire debug_log stdout]. apply Hattempt.
  - apply Hattempt.
Qed.

Lemma after_echo_wire m u d debug w : wire (after_echo m u d debug w) = wire w.
Proof. now destruct debug. Qed.

Lemma try_http_request_raises m u d h w err w1 :
  _try_http_request m u d h w = (Raise (BrainServerError err), w1) ->
  exists rq, request_for m u d (headers_out w h) = Ok rq /\ wire w1 = rq :: wire w.
Proof.
  intros Hrun. pose proof (try_http_request_wire m u d h w) as Hw.
  pose proof (try_http_request_unfold m u d h w) as Hunf.
  rewrite Hrun in Hw, Hunf. cbn [snd] in Hw.
  destruct (request_for m u d (headers_out w h)) as [rq|e] eqn:Hrq; [eauto|].
  apply request_for_raises in Hrq. subst e. discriminate Hunf.
Qed.

(** C1: when the first attempt raises a [BrainServerError] whose text
    has one of the two markers, the credential of the client becomes the
    token of the fallback scheme and the same request (verb, URL, body,
    redirect policy, caller's headers) is sent exactly once more; what
    that retry returns or raises is what the call returns or raises. An
    error without a marker is raised as it is, nothing more is sent. *)
Theorem auth_fallback_retries_once m u d h debug output w e w1 :
  _try_http_request m u d h (after_echo m u d debug w) = (Raise e, w1) ->
  (forall err,
      e = BrainServerError err -> auth_deprecated (py_str err) = true ->
      exists rq1 rq2 res w2,
        wire w1 = rq1 :: wire w /\
        _try_http_request m u d h (refreshed err w1) = (res, w2) /\
        _http_request m u d h debug output w = (res, w2) /\
        wire w2 = rq2 :: rq1 :: wire w /\
        _access_key (self w2) = get_access_token (tenant_id (self w1)) /\
        method rq2 = method rq1 /\ url rq2 = url rq1 /\
        req_body rq2 = req_body rq1 /\
        allow_redirects rq2 = allow_redirects rq1 /\
        req_headers rq2 = headers_out (refreshed err w1) h) /\
  ((forall err, e = BrainServerError err -> auth_deprecated (py_str err) = false) ->
   _http_request m u d h debug output w = (Raise e, w1) /\
   (wire w1 = wire w \/ exists rq, wire w1 = rq :: wire w)).
Proof.
  intros Hrun. split.
  - intros err -> Hmark.
    destruct (try_http_request_raises _ _ _ _ _ _ _ Hrun) as (rq1 & Hrq1 & Hw1).
    rewrite after_echo_wire in Hw1.
    destruct (request_for_headers _ _ _ _ (headers_out (refreshed err w1) h) _ Hrq1)
      as [rq2 Hrq2].
    destruct (_try_http_request m u d h (refreshed err w1)) as [res w2] eqn:Hretry.
    exists rq1, rq2, res, w2.
    pose proof (try_http_request_wire m u d h (refreshed err w1)) as Hw2.
    rewrite Hrq2, Hretry in Hw2. cbn [snd] in Hw2.
    pose proof (try_http_request_unfold m u d h (refreshed err w1)) as Hunf.
    rewrite Hrq2, Hretry in Hunf.
    destruct (on_outcome_world m u (network (wire (refreshed err w1)) rq2)
                (uuid4 (drawn (refreshed err w1)))
                (after_send rq2 (after_prologue m u (refreshed err w1))))
      as (Hself & _).
    rewrite <- Hunf in Hself. cbn [snd] in Hself.
    destruct (request_for_same _ _ _ _ _ _ _ Hrq1 Hrq2) as (? & ? & ? & ? & ?).
    destruct (request_for_inv _ _ _ _ _ Hrq2) as (_ & ? & _).
    repeat split; try assumption.
    + rewrite http_request_unfold, Hrun, Hmark. assumption.
    + rewrite Hw2. f_equal. exact Hw1.
    + rewrite Hself. reflexivity.
  - intros Hno. split.
    + rewrite http_request_unfold, Hrun. destruct e; try reflexivity.
      now rewrite (Hno _ eq_refl).
    + pose proof (try_http_request_wire m u d h (after_echo m u d debug w)) as Hw.
      rewrite Hrun, after_echo_wire in Hw. cbn [snd] in Hw.
      destruct (request_for m u d _); eauto.
Qed.

End Retry.

Section Resources.
Context `{Externals}.


Lemma format_update_sim_collection_log cid sp ws :
  format (py "Updating details for sim collection {} of sim package {} in workspace {}...")
    [VStr cid; VStr sp; VStr ws] ∅
  = Ok (py "Updating details for sim collection " ++ cid ++ py " of sim package " ++ sp
          ++ py " in workspace " ++ ws ++ py "...").
Proof. format_eq. Qed.

Lemma format_update_sim_collection_url ws sp cid :
  format _UPDATE_SIM_COLLECTION_URL_PATH_TEMPLATE []
    (dict_of [("workspacename", ws); ("simulatorpackageName", VStr sp);
              ("collectionid", VStr cid)])
  = Raise (KeyError (py "simulatorpackagename")).
Proof. vm_compute. reflexivity. Qed.

(** C8: [update_sim_collection] raises [KeyError('simulatorpackagename')]
    on every input, while it formats the URL path: the message for the
    log is the only thing it does, no session call is made and nothing is
    returned. *)
Theorem update_sim_collection_raises sim_package_name collection_id description
    workspace debug output w :
  update_sim_collection sim_package_name collection_id description workspace
    debug output w
  = (Raise (KeyError (py "simulatorpackagename")),
     after_log (py "Updating details for sim collection " ++ collection_id
                ++ py " of sim package " ++ sim_package_name
                ++ py " in workspace " ++ _workspace_id (self w) ++ py "...") w)
  /\ wire (snd (update_sim_collection sim_package_name collection_id description
                  workspace debug output w)) = wire w.
Proof.
  assert (E : update_sim_collection sim_package_name collection_id description workspace
                debug output w
              = (Raise (KeyError (py "simulatorpackagename")),
                 after_log (py "Updating details for sim collection " ++ collection_id
                            ++ py " of sim package " ++ sim_package_name
                            ++ py " in workspace " ++ _workspace_id (self w) ++ py "...") w)).
  { unfold update_sim_collection, log_format, url_for, get_self, log_debug.
    unfold bind, lift, ret.
    rewrite format_update_sim_collection_log. cbn [self].
    rewrite format_update_sim_collection_url. reflexivity. }
  split; [exact E|]. now rewrite E.
Qed.

End Resources.

(** ** The scanner on a text built around arbitrary strings *)

Module ScanFacts.
Import Json.

Lemma dirty_nil : ~ dirty [].
Proof. intros [E|E]; inversion E. Qed.

Lemma dirty_cons c s : dirty (c :: s) <-> c = DQUOTE \/ c = BACKSLASH \/ dirty s.
Proof. unfold dirty. rewrite !elem_of_cons. intuition congruence. Qed.

Lemma dirty_rev s : dirty (rev s) <-> dirty s.
Proof. unfold dirty. rewrite !list_elem_of_In, <- !in_rev. tauto. Qed.

Lemma dirty_app s1 s2 : dirty (s1 ++ s2) <-> dirty s1 \/ dirty s2.
Proof. unfold dirty. rewrite !elem_of_app. tauto. Qed.

Lemma within_mono st n n' : within st n -> (n <= n')%nat -> within st n'.
Proof.
  destruct st; cbn [within]; try tauto; try lia.
  intros [H1 H2] Hn. split; [lia|]. intros Hd. specialize (H2 Hd). lia.
Qed.

Lemma fits_mono n n' t : fits n t -> (n <= n')%nat -> fits n' t.
Proof. unfold fits. intros [H1 H2] Hn. split; [lia|]. intros Hd. specialize (H2 Hd). lia. Qed.

Lemma step_out_cases c :
  step_out c = (Out, []) \/ (exists p, punct c = Some p /\ step_out c = (Out, [p])) \/
  step_out c = (Str [] None, []) \/ step_out c = (Word [c], []).
Proof.
  unfold step_out. destruct (is_ws c); [auto|].
  destruct (punct c) as [p|]; [eauto 6|].
  destruct (_ =? _); auto.
Qed.

Lemma punct_not_string c p t : punct c = Some p -> p <> TString t.
Proof.
  unfold punct. repeat (destruct (_ =? _); [intros [= <-]; discriminate|]). discriminate.
Qed.

Lemma step_out_strings c st toks t :
  step_out c = (st, toks) -> TString t ∈ toks -> False.
Proof.
  destruct (step_out_cases c) as [E|[(p & Hp & E)|[E|E]]]; rewrite E;
    intros E'; inversion E'; subst; clear E'.
  - inversion 1.
  - intros Ht%list_elem_of_singleton. symmetry in Ht.
    now apply (punct_not_string _ _ t) in Hp.
  - inversion 1.
  - inversion 1.
Qed.

Lemma step_out_within c st toks n : step_out c = (st, toks) -> within st n.
Proof.
  destruct (step_out_cases c) as [E|[(p & Hp & E)|[E|E]]]; rewrite E;
    intros E'; inversion E'; subst; clear E'; cbn [within]; auto.
  split; [cbn; lia|]. intros Hd. now apply dirty_nil in Hd.
Qed.

Lemma length_flush_after_uni acc pend x :
  match after_uni acc pend x with
  | Str acc' pend' => (length (flush acc' pend') <= S (length (flush acc pend)))%nat
  | _ => False
  end.
Proof.
  unfold after_uni. destruct pend as [h|]; repeat destruct (_ : bool); cbn; lia.
Qed.

(** One step keeps the account, and a string it completes fits the
    characters read for it. *)
Lemma step_within st c st' toks n :
  within st n -> step st c = Some (st', toks) ->
  (forall t, TString t ∈ toks -> fits n t) /\ within st' (S n).
Proof.
  intros Hin Hstep. destruct st as [|acc|acc pend|acc pend|acc pend k x]; cbn [step] in Hstep.
  - injection Hstep as Hstep. split.
    + intros t Ht. now destruct (step_out_strings _ _ _ _ Hstep Ht).
    + eapply step_out_within, Hstep.
  - destruct (is_delim c).
    + destruct (classify (rev acc)); [|discriminate].
      destruct (step_out c) as [st1 toks1] eqn:Ho. injection Hstep as <- <-. split.
      * intros t [E|Ht]%elem_of_cons; [discriminate|].
        now destruct (step_out_strings _ _ _ _ Ho Ht).
      * eapply step_out_within, Ho.
    + injection Hstep as <- <-. split; [inversion 1|exact I].
  - cbn [within] in Hin. destruct Hin as [Hlen Hd].
    destruct (N.eqb_spec c 34) as [->|Hq].
    { injection Hstep as <- <-. split; [|exact I].
      intros t Ht%list_elem_of_singleton. injection Ht as ->.
      unfold fits. rewrite length_rev, dirty_rev. auto. }
    destruct (N.eqb_spec c 92) as [->|Hb].
    { injection Hstep as <- <-. split; [inversion 1|]. cbn. lia. }
    destruct (c <? 32); [discriminate|].
    injection Hstep as <- <-. split; [inversion 1|].
    cbn [within flush length]. split; [lia|].
    intros [E|[E|Hd']]%dirty_cons; [now destruct Hq | now destruct Hb |].
    specialize (Hd Hd'). lia.
  - cbn [within] in Hin.
    destruct (c =? 117).
    { injection Hstep as <- <-. split; [inversion 1|]. cbn. lia. }
    destruct (unescape c); [|discriminate].
    injection Hstep as <- <-. split; [inversion 1|]. cbn. lia.
  - cbn [within] in Hin.
    destruct (hexval c); [|discriminate].
    assert (Hk : k = 3%nat \/ k <> 3%nat) by lia.
    destruct Hk as [->|Hk].
    + injection Hstep as <- <-. split; [inversion 1|].
      pose proof (length_flush_after_uni acc pend (16 * x + n0)) as Hl.
      destruct (after_uni acc pend (16 * x + n0)); try contradiction.
      cbn [within]. split; [lia|]. intros _. lia.
    + assert (E : Some (Uni acc pend (S k) (16 * x + n0), @nil token) = Some (st', toks)).
      { destruct k as [|[|[|[|k]]]]; try exact Hstep. now destruct Hk. }
      injection E as <- <-. split; [inversion 1|]. cbn. lia.
Qed.

(** The same over a piece of input. *)
Lemma run_within s : forall st st' toks n,
  within st n -> run st s = Some (st', toks) ->
  (forall t, TString t ∈ toks -> fits (n + length s) t) /\ within st' (n + length s).
Proof.
  induction s as [|c s IH]; intros st st' toks n Hin Hrun; cbn [run] in Hrun.
  - injection Hrun as <- <-. rewrite Nat.add_0_r. split; [inversion 1|assumption].
  - destruct (step st c) as [[st1 toks1]|] eqn:Hstep; [|discriminate].
    destruct (run st1 s) as [[st2 toks2]|] eqn:Hrest; [|discriminate].
    injection Hrun as <- <-.
    destruct (step_within _ _ _ _ _ Hin Hstep) as [Ht1 Hin1].
    destruct (IH _ _ _ _ Hin1 Hrest) as [Ht2 Hin2].
    cbn [length]. replace (n + S (length s))%nat with (S n + length s)%nat by lia.
    split; [|assumption].
    intros t [Ht|Ht]%elem_of_app; [|auto].
    eapply fits_mono; [apply Ht1, Ht | lia].
Qed.

Lemma run_app s1 : forall st s2,
  run st (s1 ++ s2) =
  match run st s1 with
  | Some (st1, toks1) =>
      match run st1 s2 with
      | Some (st2, toks2) => Some (st2, toks1 ++ toks2)
      | None => None
      end
  | None => None
  end.
Proof.
  induction s1 as [|c s1 IH]; intros st s2; cbn [run app].
  - now destruct (run st s2) as [[st2 toks2]|].
  - destruct (step st c) as [[st1 toks1]|]; [|reflexivity].
    rewrite IH. destruct (run st1 s1) as [[st2 toks2]|]; [|reflexivity].
    destruct (run st2 s2) as [[st3 toks3]|]; [|reflexivity].
    now rewrite app_assoc.
Qed.

Lemma scan_app s1 : forall st s2,
  scan st (s1 ++ s2) =
  match run st s1 with
  | Some (st1, toks1) =>
      match scan st1 s2 with
      | Some toks2 => Some (toks1 ++ toks2)
      | None => None
      end
  | None => None
  end.
Proof.
  induction s1 as [|c s1 IH]; intros st s2; cbn [run app].
  - now destruct (scan st s2).
  - rewrite JsonFacts.scan_cons.
    destruct (step st c) as [[st1 toks1]|]; [|reflexivity].
    rewrite IH. destruct (run st1 s1) as [[st2 toks2]|]; [|reflexivity].
    destruct (scan st2 s2) as [toks3|]; [|reflexivity].
    now rewrite app_assoc.
Qed.

(** A string without quote and backslash is read as it is. *)
Lemma run_clean f : forall acc st toks,
  ~ dirty f -> run (Str acc None) f = Some (st, toks) ->
  st = Str (rev f ++ acc) None /\ toks = [].
Proof.
  induction f as [|c f IH]; intros acc st toks Hf Hrun; cbn [run] in Hrun.
  - now injection Hrun as <- <-.
  - rewrite dirty_cons in Hf. cbn [step flush] in Hrun.
    destruct (N.eqb_spec c 34) as [->|_]; [now destruct Hf; left|].
    destruct (N.eqb_spec c 92) as [->|_]; [now destruct Hf; right; left|].
    destruct (c <? 32); [discriminate|].
    destruct (run (Str (c :: acc) None) f) as [[st2 toks2]|] eqn:Hrest; [|discriminate].
    injection Hrun as <- <-.
    destruct (IH _ _ _ ltac:(tauto) Hrest) as [-> ->].
    cbn [rev]. now rewrite <- app_assoc.
Qed.

(** The quote that the template puts after a string. *)
Lemma run_quote st rest :
  run st (34 :: rest) =
  match st with
  | Out => run (Str [] None) rest
  | Word acc =>
      match classify (rev acc) with
      | Some v =>
          match run (Str [] None) rest with
          | Some (st', toks) => Some (st', TAtom v :: toks)
          | None => None
          end
      | None => None
      end
  | Str acc pend =>
      match run Out rest with
      | Some (st', toks) => Some (st', TString (rev (flush acc pend)) :: toks)
      | None => None
      end
  | Esc acc pend => run (Str (34 :: flush acc pend) None) rest
  | Uni _ _ _ _ => None
  end.
Proof.
  destruct st as [|acc|acc pend|acc pend|acc pend k x]; cbn [run].
  - change (step Out 34) with (Some (Str [] None, @nil token)).
    cbv beta iota. destruct (run (Str [] None) rest) as [[]|]; reflexivity.
  - change (step (Word acc) 34) with
      (match classify (rev acc) with
       | Some v => Some (Str [] None, [TAtom v])
       | None => None
       end).
    destruct (classify (rev acc)); [|reflexivity].
    cbv beta iota. destruct (run (Str [] None) rest) as [[]|]; reflexivity.
  - change (step (Str acc pend) 34) with (Some (Out, [TString (rev (flush acc pend))])).
    cbv beta iota. destruct (run Out rest) as [[]|]; reflexivity.
  - change (step (Esc acc pend) 34) with (Some (Str (34 :: flush acc pend) None, @nil token)).
    cbv beta iota. destruct (run _ rest) as [[]|]; reflexivity.
  - reflexivity.
Qed.

Lemma scan_quote st rest :
  scan st (34 :: rest) =
  match st with
  | Out => scan (Str [] None) rest
  | Word acc =>
      match classify (rev acc) with
      | Some v =>
          match scan (Str [] None) rest with
          | Some toks => Some (TAtom v :: toks)
          | None => None
          end
      | None => None
      end
  | Str acc pend =>
      match scan Out rest with
      | Some toks => Some (TString (rev (flush acc pend)) :: toks)
      | None => None
      end
  | Esc acc pend => scan (Str (34 :: flush acc pend) None) rest
  | Uni _ _ _ _ => None
  end.
Proof.
  rewrite JsonFacts.scan_cons.
  destruct st as [|acc|acc pend|acc pend|acc pend k x].
  - change (step Out 34) with (Some (Str [] None, @nil token)).
    cbv beta iota. destruct (scan (Str [] None) rest); reflexivity.
  - change (step (Word acc) 34) with
      (match classify (rev acc) with
       | Some v => Some (Str [] None, [TAtom v])
       | None => None
       end).
    destruct (classify (rev acc)); [|reflexivity].
    cbv beta iota. destruct (scan (Str [] None) rest); reflexivity.
  - change (step (Str acc pend) 34) with (Some (Out, [TString (rev (flush acc pend))])).
    cbv beta iota. destruct (scan Out rest); reflexivity.
  - change (step (Esc acc pend) 34) with (Some (Str (34 :: flush acc pend) None, @nil token)).
    cbv beta iota. destruct (scan _ rest); reflexivity.
  - reflexivity.
Qed.

(** After a string [f], the template's quote and a piece that reopens:
    the scanner must have been in that string, whose token comes first. *)
Lemma run_template st rest toks st' ts :
  reopens rest toks ->
  run st (34 :: rest) = Some (st', ts) ->
  exists acc pend, st = Str acc pend /\ st' = Str [] None /\
    ts = TString (rev (flush acc pend)) :: toks.
Proof.
  intros (Hout & Hstr & _). rewrite run_quote.
  destruct st as [|acc|acc pend|acc pend|acc pend k x]; rewrite ?Hstr, ?Hout.
  - discriminate.
  - destruct (classify _); discriminate.
  - intros [= <- <-]. eauto.
  - discriminate.
  - discriminate.
Qed.

Lemma scan_template st rest toks ts :
  finishes rest toks ->
  scan st (34 :: rest) = Some ts ->
  exists acc pend, st = Str acc pend /\ ts = TString (rev (flush acc pend)) :: toks.
Proof.
  intros (Hout & Hstr & _). rewrite scan_quote.
  destruct st as [|acc|acc pend|acc pend|acc pend k x]; rewrite ?Hstr, ?Hout.
  - discriminate.
  - destruct (classify _); discriminate.
  - intros [= <-]. eauto.
  - discriminate.
  - discriminate.
Qed.

Lemma within_start : within (Str [] None) 0.
Proof. cbn. split; [lia|]. intros Hd. now apply dirty_nil in Hd. Qed.

(** The string token that closes at the quote after [f]. *)
Lemma closing_token_tame f st ts acc pend :
  run (Str [] None) f = Some (st, ts) -> st = Str acc pend ->
  tame [f] (rev (flush acc pend)).
Proof.
  intros Hrun -> Hd.
  destruct (decide (dirty f)) as [Hf|Hf].
  - exists f. split; [apply list_elem_of_singleton; reflexivity|]. split; [assumption|].
    destruct (run_within f _ _ _ 0%nat within_start Hrun) as [_ [_ Hin]].
    rewrite length_rev. rewrite dirty_rev in Hd. apply Hin, Hd.
  - destruct (run_clean f _ _ _ Hf Hrun) as [E _]. injection E as -> ->.
    cbn [flush] in Hd. rewrite app_nil_r, rev_involutive in Hd. contradiction.
Qed.

Lemma inner_tokens_tame f st ts t :
  run (Str [] None) f = Some (st, ts) -> TString t ∈ ts -> tame [f] t.
Proof.
  intros Hrun Ht Hd.
  destruct (decide (dirty f)) as [Hf|Hf].
  - exists f. split; [apply list_elem_of_singleton; reflexivity|]. split; [assumption|].
    destruct (run_within f _ _ _ 0%nat within_start Hrun) as [Hts _].
    apply (Hts t Ht), Hd.
  - destruct (run_clean f _ _ _ Hf Hrun) as [_ ->]. inversion Ht.
Qed.

(** A string of the text with the piece of template after it. *)
Lemma run_segment f rest toks st' ts :
  reopens rest toks ->
  run (Str [] None) (f ++ 34 :: rest) = Some (st', ts) ->
  st' = Str [] None /\ forall t, TString t ∈ ts -> tame [f] t.
Proof.
  intros Hre. rewrite run_app.
  destruct (run (Str [] None) f) as [[st1 ts1]|] eqn:Hf; [|discriminate].
  destruct (run st1 (34 :: rest)) as [[st2 ts2]|] eqn:Ht; [|discriminate].
  intros [= <- <-].
  destruct (run_template _ _ _ _ _ Hre Ht) as (acc & pend & -> & -> & ->).
  split; [reflexivity|].
  intros t [Hin|Hin]%elem_of_app.
  - eapply inner_tokens_tame; eassumption.
  - apply elem_of_cons in Hin as [E|Hin].
    + injection E as ->. eapply closing_token_tame; [eassumption|reflexivity].
    + intros Hd. destruct Hre as (_ & _ & Hclean). now destruct (Hclean t Hin).
Qed.

Lemma scan_segment f rest toks ts :
  finishes rest toks ->
  scan (Str [] None) (f ++ 34 :: rest) = Some ts ->
  forall t, TString t ∈ ts -> tame [f] t.
Proof.
  intros Hfin. rewrite scan_app.
  destruct (run (Str [] None) f) as [[st1 ts1]|] eqn:Hf; [|discriminate].
  destruct (scan st1 (34 :: rest)) as [ts2|] eqn:Ht; [|discriminate].
  intros [= <-].
  destruct (scan_template _ _ _ _ Hfin Ht) as (acc & pend & -> & ->).
  intros t [Hin|Hin]%elem_of_app.
  - eapply inner_tokens_tame; eassumption.
  - apply elem_of_cons in Hin as [E|Hin].
    + injection E as ->. eapply closing_token_tame; [eassumption|reflexivity].
    + intros Hd. destruct Hfin as (_ & _ & Hclean). now destruct (Hclean t Hin).
Qed.

Lemma tame_among f F t : tame [f] t -> f ∈ F -> tame F t.
Proof.
  intros Ht Hin Hd. destruct (Ht Hd) as (f' & ->%list_elem_of_singleton & ?).
  exists f. split; auto.
Qed.

End ScanFacts.

(** ** The strings of a decoded value are string tokens *)

Module ParseFacts.
Import Json.

Lemma sources_suffix toks toks' s : sources toks s -> toks `suffix_of` toks' -> sources toks' s.
Proof.
  intros [Hs|(v & Hv & Hl)] [pre ->]; [left|right; exists v; split; [|assumption]];
    apply elem_of_app; now right.
Qed.

Lemma sources_cons t toks s : sources toks s -> sources (t :: toks) s.
Proof. intros Hs. apply (sources_suffix toks); [assumption|]. now exists [t]. Qed.

Lemma suffix_cons_l {A} (x : A) l l' : (x :: l) `suffix_of` l' -> l `suffix_of` l'.
Proof. intros [pre ->]. exists (pre ++ [x]). now rewrite <- app_assoc. Qed.

Lemma leaf_empty s : ~ leaf s (VDict ∅).
Proof. inversion 1 as [| |d k v Hk]. now rewrite lookup_empty in Hk. Qed.

Lemma leaf_nil s : ~ leaf s (VList []).
Proof. inversion 1 as [|l v Hv|]. inversion Hv. Qed.

Lemma leaf_insert (s k : pystr) (v : value) (d : gmap pystr value) :
  leaf s (VDict (<[k:=v]> d)) ->
  leaf s v \/ exists k' x, d !! k' = Some x /\ leaf s x.
Proof.
  inversion 1 as [| |d' k' x Hk Hx]; subst.
  destruct (decide (k = k')) as [->|Hne].
  - rewrite lookup_insert_eq in Hk. injection Hk as ->. now left.
  - rewrite lookup_insert_ne in Hk by assumption. right. eauto.
Qed.

Lemma leaf_rev_cons (s : pystr) (v : value) (acc : list value) :
  leaf s (VList (rev (v :: acc))) -> leaf s v \/ exists x, x ∈ acc /\ leaf s x.
Proof.
  inversion 1 as [|l x Hx Hl|]; subst.
  change (rev (v :: acc)) with (rev acc ++ [v]) in Hx.
  apply elem_of_app in Hx as [Hx|Hx].
  - rewrite list_elem_of_In, <- in_rev, <- list_elem_of_In in Hx. eauto.
  - apply list_elem_of_singleton in Hx as ->. now left.
Qed.

(** The three functions of the recursive descent, at once. *)
Lemma parse_sources fuel :
  (forall md room toks v rest, parse_value fuel md room toks = Decoded (v, rest) ->
     rest `suffix_of` toks /\ forall s, leaf s v -> sources toks s) /\
  (forall md room toks acc v rest, parse_elems fuel md room toks acc = Decoded (v, rest) ->
     rest `suffix_of` toks /\
     forall s, leaf s v -> sources toks s \/ exists x, x ∈ acc /\ leaf s x) /\
  (forall md room toks d v rest, parse_members fuel md room toks d = Decoded (v, rest) ->
     rest `suffix_of` toks /\
     forall s, leaf s v -> sources toks s \/ exists k x, d !! k = Some x /\ leaf s x).
Proof.
  induction fuel as [|f (IHv & IHe & IHm)]; [repeat split; discriminate|].
  assert (Helems : forall md room r v rest,
    parse_elems f md room r [] = Decoded (v, rest) ->
    rest `suffix_of` (TLBrack :: r) /\ forall s, leaf s v -> sources (TLBrack :: r) s).
  { intros md room r v rest Hp. destruct (IHe _ _ _ _ _ _ Hp) as [Hsuf Hl]. split.
    - now apply suffix_cons_r.
    - intros s Hs. destruct (Hl s Hs) as [Hsrc|(x & Hx & _)]; [|inversion Hx].
      now apply sources_cons. }
  assert (Hmembers : forall md room r v rest,
    parse_members f md room r ∅ = Decoded (v, rest) ->
    rest `suffix_of` (TLBrace :: r) /\ forall s, leaf s v -> sources (TLBrace :: r) s).
  { intros md room r v rest Hp. destruct (IHm _ _ _ _ _ _ Hp) as [Hsuf Hl]. split.
    - now apply suffix_cons_r.
    - intros s Hs. destruct (Hl s Hs) as [Hsrc|(k & x & Hx & _)].
      + now apply sources_cons.
      + now rewrite lookup_empty in Hx. }
  split; [|split].
  - intros md room toks v rest Hp. cbn [parse_value] in Hp.
    destruct toks as [|t r]; [discriminate|].
    destruct t; try discriminate.
    + destruct room as [|room']; [discriminate|].
      destruct r as [|t' r']; [now apply (Hmembers md room')|].
      destruct t'; try (now apply (Hmembers md room')).
      injection Hp as <- <-. split.
      * exists [TLBrace; TRBrace]. reflexivity.
      * intros s Hs. now apply leaf_empty in Hs.
    + destruct room as [|room']; [discriminate|].
      destruct r as [|t' r']; [now apply (Helems md room')|].
      destruct t'; try (now apply (Helems md room')).
      injection Hp as <- <-. split.
      * exists [TLBrack; TRBrack]. reflexivity.
      * intros s Hs. now apply leaf_nil in Hs.
    + injection Hp as <- <-. split; [now exists [TString s]|].
      intros s' Hs. inversion Hs; subst. left. apply elem_of_cons. now left.
    + assert (Hv0 : Decoded (v0, r) = Decoded (v, rest)).
      { destruct v0; try exact Hp. destruct (too_long md _); [discriminate Hp | exact Hp]. }
      clear Hp. injection Hv0 as <- <-. split; [now exists [TAtom v0]|].
      intros s' Hs. right. exists v0. split; [apply elem_of_cons; now left|assumption].
  - intros md room toks acc v rest Hp. cbn [parse_elems] in Hp.
    destruct (parse_value f md room toks) as [[x r]| | |] eqn:Hx; try discriminate.
    destruct (IHv _ _ _ _ _ Hx) as [Hsuf Hl].
    destruct r as [|t r]; [discriminate|]. destruct t; try discriminate.
    + injection Hp as <- <-. split; [now apply suffix_cons_l in Hsuf|].
      intros s [Hs|Hs]%leaf_rev_cons; [left; now apply Hl | now right].
    + destruct (IHe _ _ _ _ _ _ Hp) as [Hsuf' Hl']. split.
      * etransitivity; [exact Hsuf'|]. now apply suffix_cons_l in Hsuf.
      * intros s Hs. destruct (Hl' s Hs) as [Hsrc|(y & Hy & Hly)].
        -- left. apply (sources_suffix r); [assumption|]. now apply suffix_cons_l in Hsuf.
        -- apply elem_of_cons in Hy as [->|Hy]; [left; now apply Hl | right; eauto].
  - intros md room toks d v rest Hp. cbn [parse_members] in Hp.
    destruct toks as [|t r]; [discriminate|]. destruct t; try discriminate.
    destruct r as [|t r]; [discriminate|]. destruct t; try discriminate.
    destruct (parse_value f md room r) as [[x r']| | |] eqn:Hx; try discriminate.
    destruct (IHv _ _ _ _ _ Hx) as [Hsuf Hl].
    assert (Hsuf2 : r `suffix_of` (TString s :: TColon :: r)) by now exists [TString s; TColon].
    destruct r' as [|t r']; [discriminate|]. destruct t; try discriminate.
    + injection Hp as <- <-. split.
      * etransitivity; [|exact Hsuf2]. now apply suffix_cons_l in Hsuf.
      * intros s' [Hs|Hs]%leaf_insert; [left|now right].
        apply (sources_suffix r); [now apply Hl | exact Hsuf2].
    + destruct (IHm _ _ _ _ _ _ Hp) as [Hsuf' Hl']. split.
      * etransitivity; [exact Hsuf'|]. etransitivity; [|exact Hsuf2].
        now apply suffix_cons_l in Hsuf.
      * intros s' Hs. destruct (Hl' s' Hs) as [Hsrc|(k & y & Hy & Hly)].
        -- left. apply (sources_suffix r'); [assumption|].
           etransitivity; [|exact Hsuf2]. now apply suffix_cons_l in Hsuf.
        -- destruct (decide (s = k)) as [->|Hne].
           ++ rewrite lookup_insert_eq in Hy. injection Hy as ->. left.
              apply (sources_suffix r); [now apply Hl | exact Hsuf2].
           ++ rewrite lookup_insert_ne in Hy by assumption. right. eauto.
Qed.

Lemma number_no_leaf w v s : number w = Some v -> ~ leaf s v.
Proof.
  unfold number. destruct (match w with [] => _ | _ => _ end) as [neg body].
  destruct (int_part body); [|discriminate].
  destruct (tail_part _) as [[]|]; [| |discriminate]; intros [= <-]; inversion 1.
Qed.

Lemma classify_no_leaf w v s : classify w = Some v -> ~ leaf s v.
Proof.
  unfold classify.
  repeat (destruct (_ : bool); [intros [= <-]; inversion 1|]).
  apply number_no_leaf.
Qed.

Lemma step_atoms st c st' toks v s :
  step st c = Some (st', toks) -> TAtom v ∈ toks -> ~ leaf s v.
Proof.
  assert (Hout : forall st1 toks1, step_out c = (st1, toks1) -> TAtom v ∈ toks1 -> False).
  { intros st1 toks1.
    destruct (ScanFacts.step_out_cases c) as [E|[(p & Hp & E)|[E|E]]]; rewrite E;
      intros E'; inversion E'; subst; clear E'; try (inversion 1; fail).
    intros Ht%list_elem_of_singleton. revert Hp. unfold punct.
    repeat (destruct (_ =? _); [intros [= <-]; discriminate|]). discriminate. }
  destruct st as [|acc|acc pend|acc pend|acc pend k x]; cbn [step].
  - intros [= E]. intros Hv. now destruct (Hout _ _ E Hv).
  - destruct (is_delim c).
    + destruct (classify (rev acc)) as [v0|] eqn:Hc; [|discriminate].
      destruct (step_out c) as [st1 toks1] eqn:Ho. intros [= <- <-].
      intros [E|Hv]%elem_of_cons.
      * injection E as ->. eapply classify_no_leaf, Hc.
      * now destruct (Hout _ _ eq_refl Hv).
    + intros [= <- <-]. inversion 1.
  - repeat (destruct (_ : bool); try discriminate); intros [= <- <-];
      try (inversion 1; fail).
    intros Ht%list_elem_of_singleton. discriminate.
  - destruct (_ =? _); [intros [= <- <-]; inversion 1|].
    destruct (unescape c); [|discriminate]. intros [= <- <-]. inversion 1.
  - destruct (hexval c); [|discriminate].
    destruct k as [|[|[|[|k]]]]; intros [= <- <-]; inversion 1.
Qed.

Lemma scan_atoms s : forall st toks v x,
  scan st s = Some toks -> TAtom v ∈ toks -> ~ leaf x v.
Proof.
  induction s as [|c s IH]; intros st toks v x Hscan Hv.
  - cbn [scan] in Hscan. destruct st; cbn [finish] in Hscan; try discriminate.
    + injection Hscan as <-. inversion Hv.
    + destruct (classify (rev acc)) as [v0|] eqn:Hc; [|discriminate].
      injection Hscan as <-. apply list_elem_of_singleton in Hv. injection Hv as ->.
      eapply classify_no_leaf, Hc.
  - rewrite JsonFacts.scan_cons in Hscan.
    destruct (step st c) as [[st1 toks1]|] eqn:Hstep; [|discriminate].
    destruct (scan st1 s) as [toks2|] eqn:Hrest; [|discriminate].
    injection Hscan as <-. apply elem_of_app in Hv as [Hv|Hv].
    + eapply step_atoms; eassumption.
    + eapply IH; eassumption.
Qed.

(** Every string in a decoded value is a string token of the text. *)
Lemma loads_strings room md text v s :
  loads room md text = Decoded v -> leaf s v ->
  exists toks, scan Out text = Some toks /\ TString s ∈ toks.
Proof.
  intros (toks & Hscan & Hp)%JsonFacts.loads_scan Hs.
  exists toks. split; [assumption|].
  destruct (parse_sources (S (2 * length toks))) as (Hv & _ & _).
  destruct (Hv _ _ _ _ _ Hp) as [_ Hl].
  destruct (Hl s Hs) as [Ht|(a & Ha & Hla)]; [assumption|].
  now destruct (scan_atoms _ _ _ _ s Hscan Ha).
Qed.

End ParseFacts.

(** ** The purpose text never decodes to the purpose object *)

Module PurposeFacts.
Import Json ScanFacts.

Ltac clean_tokens :=
  let t := fresh "t" in let Ht := fresh "Ht" in let Hd := fresh "Hd" in
  intros t Ht Hd; vm_compute in Ht;
  repeat (apply elem_of_cons in Ht as [Ht|Ht];
          [ try discriminate Ht; injection Ht as ->; unfold dirty in Hd;
            rewrite !list_elem_of_In in Hd; vm_compute in Hd;
            intuition discriminate | ]);
  inversion Ht.

Lemma reopens_target :
  reopens (dq ", 'target': {'workspaceName': '")
    [TComma; TString (py "target"); TColon; TLBrace; TString (py "workspaceName"); TColon].
Proof.
  split; [vm_compute; reflexivity|]. split; [intros acc; vm_compute; reflexivity|].
  clean_tokens.
Qed.

Lemma reopens_brainName :
  reopens (dq ", 'brainName': '") [TComma; TString (py "brainName"); TColon].
Proof.
  split; [vm_compute; reflexivity|]. split; [intros acc; vm_compute; reflexivity|].
  clean_tokens.
Qed.

Lemma reopens_brainVersion :
  reopens (dq ", 'brainVersion': '") [TComma; TString (py "brainVersion"); TColon].
Proof.
  split; [vm_compute; reflexivity|]. split; [intros acc; vm_compute; reflexivity|].
  clean_tokens.
Qed.

Lemma reopens_conceptName :
  reopens (dq ", 'conceptName': '") [TComma; TString (py "conceptName"); TColon].
Proof.
  split; [vm_compute; reflexivity|]. split; [intros acc; vm_compute; reflexivity|].
  clean_tokens.
Qed.

Lemma finishes_braces : finishes (py "  } }") [TRBrace; TRBrace].
Proof.
  split; [vm_compute; reflexivity|]. split; [intros acc; vm_compute; reflexivity|].
  clean_tokens.
Qed.

Lemma purpose_text_segments a w b v c :
  purpose_text a w b v c
  = dq "{'action': '"
    ++ (a ++ 34 :: dq ", 'target': {'workspaceName': '")
    ++ (w ++ 34 :: dq ", 'brainName': '")
    ++ (b ++ 34 :: dq ", 'brainVersion': '")
    ++ (v ++ 34 :: dq ", 'conceptName': '")
    ++ (c ++ 34 :: py "  } }").
Proof.
  unfold purpose_text. rewrite <- !app_assoc.
  repeat (f_equal; []). reflexivity.
Qed.

(** The string tokens of the purpose text are tame. *)
Lemma scan_purpose a w b v c toks t :
  scan Out (purpose_text a w b v c) = Some toks -> TString t ∈ toks ->
  tame [a; w; b; v; c] t.
Proof.
  rewrite purpose_text_segments, scan_app.
  change (run Out (dq "{'action': '"))
    with (Some (Str [] None, [TLBrace; TString (py "action"); TColon])).
  cbv beta iota.
  rewrite scan_app.
  destruct (run (Str [] None) (a ++ _)) as [[st1 ts1]|] eqn:H1; [|discriminate].
  destruct (run_segment _ _ _ _ _ reopens_target H1) as [-> Ha].
  rewrite scan_app.
  destruct (run (Str [] None) (w ++ _)) as [[st2 ts2]|] eqn:H2; [|discriminate].
  destruct (run_segment _ _ _ _ _ reopens_brainName H2) as [-> Hw].
  rewrite scan_app.
  destruct (run (Str [] None) (b ++ _)) as [[st3 ts3]|] eqn:H3; [|discriminate].
  destruct (run_segment _ _ _ _ _ reopens_brainVersion H3) as [-> Hb].
  rewrite scan_app.
  destruct (run (Str [] None) (v ++ _)) as [[st4 ts4]|] eqn:H4; [|discriminate].
  destruct (run_segment _ _ _ _ _ reopens_conceptName H4) as [-> Hv].
  destruct (scan (Str [] None) (c ++ _)) as [ts5|] eqn:H5; [|discriminate].
  pose proof (scan_segment _ _ _ _ finishes_braces H5) as Hc.
  intros [= <-] Ht.
  change (TString t ∈ [TLBrace; TString (py "action"); TColon]
                       ++ ts1 ++ ts2 ++ ts3 ++ ts4 ++ ts5) in Ht.
  apply elem_of_app in Ht as [Ht|Ht];
    [|apply elem_of_app in Ht as [Ht|Ht];
      [|apply elem_of_app in Ht as [Ht|Ht];
        [|apply elem_of_app in Ht as [Ht|Ht];
          [|apply elem_of_app in Ht as [Ht|Ht]]]]].
  - intros Hd. exfalso. revert t Ht Hd. clean_tokens.
  - eapply tame_among; [apply Ha, Ht|]. rewrite !elem_of_cons. tauto.
  - eapply tame_among; [apply Hw, Ht|]. rewrite !elem_of_cons. tauto.
  - eapply tame_among; [apply Hb, Ht|]. rewrite !elem_of_cons. tauto.
  - eapply tame_among; [apply Hv, Ht|]. rewrite !elem_of_cons. tauto.
  - eapply tame_among; [apply Hc, Ht|]. rewrite !elem_of_cons. tauto.
Qed.

Lemma purpose_object_leaves a w b v c f :
  f ∈ [a; w; b; v; c] -> leaf f (purpose_object a w b v c).
Proof.
  unfold purpose_object. rewrite !elem_of_cons, elem_of_nil.
  intros [->|[->|[->|[->|[->|[]]]]]].
  - eapply (leaf_dict _ _ (py "action")); [|apply leaf_str].
    rewrite lookup_insert_ne by pyneq. apply lookup_insert_eq.
  - eapply (leaf_dict _ _ (py "target")); [apply lookup_insert_eq|].
    eapply (leaf_dict _ _ (py "workspaceName")); [|apply leaf_str].
    rewrite !lookup_insert_ne by pyneq. apply lookup_insert_eq.
  - eapply (leaf_dict _ _ (py "target")); [apply lookup_insert_eq|].
    eapply (leaf_dict _ _ (py "brainName")); [|apply leaf_str].
    rewrite !lookup_insert_ne by pyneq. apply lookup_insert_eq.
  - eapply (leaf_dict _ _ (py "target")); [apply lookup_insert_eq|].
    eapply (leaf_dict _ _ (py "brainVersion")); [|apply leaf_str].
    rewrite !lookup_insert_ne by pyneq. apply lookup_insert_eq.
  - eapply (leaf_dict _ _ (py "target")); [apply lookup_insert_eq|].
    eapply (leaf_dict _ _ (py "conceptName")); [|apply leaf_str].
    apply lookup_insert_eq.
Qed.

(** No string with a quote or a backslash can be tame among the strings
    themselves: a longest one has none longer. *)
Lemma no_dirty_tame (F : list pystr) :
  (forall f, f ∈ F -> tame F f) -> forall f, f ∈ F -> ~ dirty f.
Proof.
  intros Htame.
  assert (Hdesc : forall n f, f ∈ F -> dirty f -> (length (concat F) - length f < n)%nat ->
                              False).
  { induction n as [|n IH]; intros f Hf Hd Hn; [lia|].
    destruct (Htame f Hf Hd) as (f' & Hf' & Hd' & Hlt).
    apply (IH f' Hf' Hd').
    assert (Hle : forall g, g ∈ F -> (length g <= length (concat F))%nat).
    { clear. induction F as [|h F IHF]; intros g Hg; [inversion Hg|].
      cbn [concat]. rewrite length_app.
      apply elem_of_cons in Hg as [->|Hg]; [lia|]. specialize (IHF g Hg). lia. }
    pose proof (Hle f' Hf'). pose proof (Hle f Hf). lia. }
  intros f Hf Hd. exact (Hdesc _ f Hf Hd (Nat.lt_succ_diag_r _)).
Qed.

(** The text never decodes to the object it is written for, once one of
    the strings has a quote or a backslash. *)
Lemma purpose_never_intended room md a w b v c :
  dirty a \/ dirty w \/ dirty b \/ dirty v \/ dirty c ->
  loads room md (purpose_text a w b v c) <> Decoded (purpose_object a w b v c).
Proof.
  intros Hd Hl.
  assert (Htame : forall f, f ∈ [a; w; b; v; c] -> tame [a; w; b; v; c] f).
  { intros f Hf.
    destruct (ParseFacts.loads_strings _ _ _ _ f Hl (purpose_object_leaves _ _ _ _ _ _ Hf))
      as (toks & Hscan & Ht).
    eapply scan_purpose; eassumption. }
  pose proof (no_dirty_tame _ Htame) as Hclean.
  destruct Hd as [Hd|[Hd|[Hd|[Hd|Hd]]]]; revert Hd; apply Hclean;
    rewrite !elem_of_cons; tauto.
Qed.

Lemma digits_clean d c : c ∈ digits d -> 48 <= c <= 57.
Proof.
  induction d; cbn [digits]; rewrite ?elem_of_cons; try (inversion 1; fail);
    intros [->|Hc]; auto; lia.
Qed.

(** [str(int)] has neither quote nor backslash. *)
Lemma str_of_int_clean z : ~ dirty (str_of_int z).
Proof.
  assert (Hd : forall d, ~ dirty (digits d)).
  { intros d [Hc|Hc]; apply digits_clean in Hc; unfold DQUOTE, BACKSLASH in Hc; lia. }
  destruct z as [|p|p]; cbn [str_of_int].
  - intros [Hc|Hc]; apply list_elem_of_singleton in Hc; discriminate Hc.
  - apply Hd.
  - rewrite dirty_cons. intros [E|[E|Hc]]; [discriminate E|discriminate E|].
    now apply Hd in Hc.
Qed.

End PurposeFacts.

(** ** The purpose object of [create_sim_collection] and [patch_sim_session] *)

Section Purpose.
Context `{Externals}.

Lemma format_create_log :
  format (py "Creating a new sim collection") [] ∅ = Ok (py "Creating a new sim collection").
Proof. format_eq. Qed.

Lemma format_patch_log sid ws :
  format (py "Patching details about simulator session {} in workspace {}...")
    [VStr sid; VStr ws] ∅
  = Ok (py "Patching details about simulator session " ++ sid ++ py " in workspace "
          ++ ws ++ py "...").
Proof. format_eq. Qed.

Lemma format_create_url ws pkg :
  format _CREATE_SIM_COLLECTION_URL_PATH_TEMPLATE []
    (dict_of [("workspacename", ws); ("simulatorpackagename", VStr pkg)])
  = Ok (py "/v2/workspaces/" ++ py_str ws ++ py "/simulatorpackages/" ++ pkg
          ++ py "/simulatorcollections").
Proof. reflexivity. Qed.

Lemma format_patch_url ws sid :
  format _PATCH_SIM_SESSIONS_URL_PATH_TEMPLATE []
    (dict_of [("workspacename", ws); ("sessionid", VStr sid)])
  = Ok (py "/v2/workspaces/" ++ py_str ws ++ py "/simulatorSessions/" ++ sid).
Proof.
  transitivity (Ok (A:=pystr) (py "/v2/workspaces/" ++ py_str ws
                                 ++ py "/simulatorSessions/" ++ sid ++ []));
    [reflexivity | now rewrite app_nil_r].
Qed.

Lemma format_purpose a w b v c :
  format PURPOSE_TEMPLATE [VStr a; VStr w; VStr b; VInt v; VStr c] ∅
  = Ok (purpose_text a w b (str_of_int v) c).
Proof. format_eq. Qed.

Lemma create_sim_collection_decodes
    packagename brain_name (version : Z) concept_name purpose_action
    description cores_per_instance memory_in_gb_per_instance start_instance_count
    min_instance_count max_instance_count auto_scaling auto_termination
    workspace debug output w :
  create_sim_collection packagename brain_name version concept_name purpose_action
    description cores_per_instance memory_in_gb_per_instance start_instance_count
    min_instance_count max_instance_count auto_scaling auto_termination
    workspace debug output w
  = match decode in_create_sim_collection
            (purpose_text purpose_action (_workspace_id (self w)) brain_name
               (str_of_int version) concept_name) with
    | Raise e => (Raise e, after_log (py "Creating a new sim collection") w)
    | Ok purpose =>
        _post (urljoin (_api_url (self w))
                 (py "/v2/workspaces/" ++ py_str (select_workspace workspace (self w))
                  ++ py "/simulatorpackages/" ++ packagename
                  ++ py "/simulatorcollections"))
          (VDict (dict_of
             [("purpose", purpose); ("description", opt description);
              ("resourceGroupName", VStr []); ("Subscription", VStr []);
              ("coresPerInstance", opt cores_per_instance);
              ("memInGBPerInstance", opt memory_in_gb_per_instance);
              ("startInstanceCount", opt start_instance_count);
              ("minInstanceCount", opt min_instance_count);
              ("maxInstanceCount", opt max_instance_count);
              ("autoScaling", opt auto_scaling);
              ("autoTermination", opt auto_termination)]))
          debug output (after_log (py "Creating a new sim collection") w)
    end.
Proof.
  unfold create_sim_collection, log_format, url_for, get_self, log_debug, json_loads.
  unfold bind, lift, ret.
  rewrite format_create_log. cbn [self].
  rewrite (format_create_url (select_workspace workspace (self w)) packagename).
  rewrite (format_purpose purpose_action (_workspace_id (self w)) brain_name version
             concept_name).
  destruct (decode _ _); reflexivity.
Qed.

Lemma patch_sim_session_decodes
    session_id brain_name (version : Z) purpose_action concept_name
    workspace debug output w :
  patch_sim_session session_id brain_name version purpose_action concept_name
    workspace debug output w
  = match decode in_patch_sim_session
            (purpose_text purpose_action (_workspace_id (self w)) brain_name
               (str_of_int version) concept_name) with
    | Raise e =>
        (Raise e,
         after_log (py "Patching details about simulator session " ++ session_id
                    ++ py " in workspace " ++ _workspace_id (self w) ++ py "...") w)
    | Ok purpose =>
        _patch (urljoin (_gateway_url (self w))
                  (py "/v2/workspaces/" ++ py_str (select_workspace workspace (self w))
                   ++ py "/simulatorSessions/" ++ session_id))
          (VDict (dict_of [("purposeOperation", VStr (py "SetValue"));
                           ("purpose", purpose)]))
          debug output
          (after_log (py "Patching details about simulator session " ++ session_id
                      ++ py " in workspace " ++ _workspace_id (self w) ++ py "...") w)
    end.
Proof.
  unfold patch_sim_session, log_format, url_for, get_self, log_debug, json_loads.
  unfold bind, lift, ret.
  rewrite (format_patch_log session_id (_workspace_id (self w))). cbn [self].
  rewrite (format_patch_url (select_workspace workspace (self w)) session_id).
  rewrite (format_purpose purpose_action (_workspace_id (self w)) brain_name version
             concept_name).
  destruct (decode _ _); reflexivity.
Qed.

Lemma decode_never_intended p a w b v c :
  dirty a \/ dirty w \/ dirty b \/ dirty c ->
  decode p (purpose_text a w b (str_of_int v) c)
  <> Ok (purpose_object a w b (str_of_int v) c).
Proof.
  intros Hd. unfold decode.
  pose proof (PurposeFacts.purpose_never_intended (recursion_room p) int_max_str_digits
                a w b (str_of_int v) c) as Hne.
  destruct (Json.loads _ _ _); try discriminate.
  intros [= ->]. apply Hne; [tauto | reflexivity].
Qed.

(** C9, amended: both methods build the purpose object by decoding a
    text into which the action, the client's workspace id, the brain
    name, the version and the concept name are pasted. When one of the
    strings has a double quote or a backslash, the decoder either raises
    one of its exceptions, and the method raises it with nothing sent, or
    it returns an object that is not the one with these strings under
    their keys, and that object is the payload's purpose in the request
    that the method goes on to make. *)
Theorem purpose_text_injection
    packagename session_id brain_name (version : Z) concept_name purpose_action
    description cores_per_instance memory_in_gb_per_instance start_instance_count
    min_instance_count max_instance_count auto_scaling auto_termination
    workspace debug output w :
  dirty purpose_action \/ dirty (_workspace_id (self w)) \/ dirty brain_name \/
  dirty concept_name ->
  let s := self w in
  let t := purpose_text purpose_action (_workspace_id s) brain_name (str_of_int version)
             concept_name in
  let create :=
    create_sim_collection packagename brain_name version concept_name purpose_action
      description cores_per_instance memory_in_gb_per_instance start_instance_count
      min_instance_count max_instance_count auto_scaling auto_termination
      workspace debug output w in
  let patch :=
    patch_sim_session session_id brain_name version purpose_action concept_name
      workspace debug output w in
  let w_create := after_log (py "Creating a new sim collection") w in
  let w_patch :=
    after_log (py "Patching details about simulator session " ++ session_id
               ++ py " in workspace " ++ _workspace_id s ++ py "...") w in
  match decode in_create_sim_collection t with
  | Raise e =>
      decoder_error e /\ create = (Raise e, w_create) /\ wire (snd create) = wire w
  | Ok purpose =>
      purpose <> purpose_object purpose_action (_workspace_id s) brain_name
                   (str_of_int version) concept_name /\
      create =
        _post (urljoin (_api_url s)
                 (py "/v2/workspaces/" ++ py_str (select_workspace workspace s)
                  ++ py "/simulatorpackages/" ++ packagename
                  ++ py "/simulatorcollections"))
          (VDict (dict_of
             [("purpose", purpose); ("description", opt description);
              ("resourceGroupName", VStr []); ("Subscription", VStr []);
              ("coresPerInstance", opt cores_per_instance);
              ("memInGBPerInstance", opt memory_in_gb_per_instance);
              ("startInstanceCount", opt start_instance_count);
              ("minInstanceCount", opt min_instance_count);
              ("maxInstanceCount", opt max_instance_count);
              ("autoScaling", opt auto_scaling);
              ("autoTermination", opt auto_termination)]))
          debug output w_create
  end /\
  match decode in_patch_sim_session t with
  | Raise e =>
      decoder_error e /\ patch = (Raise e, w_patch) /\ wire (snd patch) = wire w
  | Ok purpose =>
      purpose <> purpose_object purpose_action (_workspace_id s) brain_name
                   (str_of_int version) concept_name /\
      patch =
        _patch (urljoin (_gateway_url s)
                  (py "/v2/workspaces/" ++ py_str (select_workspace workspace s)
                   ++ py "/simulatorSessions/" ++ session_id))
          (VDict (dict_of [("purposeOperation", VStr (py "SetValue"));
                           ("purpose", purpose)]))
          debug output w_patch
  end.
Proof.
  intros Hd s t create patch w_create w_patch.
  pose proof (create_sim_collection_decodes packagename brain_name version concept_name
                purpose_action description cores_per_instance memory_in_gb_per_instance
                start_instance_count min_instance_count max_instance_count auto_scaling
                auto_termination workspace debug output w) as Hcreate.
  pose proof (patch_sim_session_decodes session_id brain_name version purpose_action
                concept_name workspace debug output w) as Hpatch.
  fold s t create w_create in Hcreate. fold s t patch w_patch in Hpatch.
  pose proof (decode_never_intended in_create_sim_collection purpose_action
                (_workspace_id s) brain_name version concept_name Hd) as Hc.
  pose proof (decode_never_intended in_patch_sim_session purpose_action
                (_workspace_id s) brain_name version concept_name Hd) as Hp.
  fold t in Hc, Hp.
  split.
  - destruct (decode in_create_sim_collection t) as [purpose|e] eqn:E.
    + split; [congruence | exact Hcreate].
    + split; [exact (decode_decoder_error _ _ _ E)|]. rewrite Hcreate. split; reflexivity.
  - destruct (decode in_patch_sim_session t) as [purpose|e] eqn:E.
    + split; [congruence | exact Hpatch].
    + split; [exact (decode_decoder_error _ _ _ E)|]. rewrite Hpatch. split; reflexivity.
Qed.

End Purpose.
(** ** Concrete runs *)

Lemma auth_fallback_retries_once_witness :
  first_attempt = (Raise (BrainServerError deprecated_error), snd first_attempt) /\
  @auth_deprecated (@py_str (stub_externals aad_only) deprecated_error) = true /\
  exists rq1 rq2 res w2,
    wire (snd first_attempt) = rq1 :: wire stub_world /\
    @_try_http_request (stub_externals aad_only) (py "GET") brains_url VNone None
      (@refreshed (stub_externals aad_only) deprecated_error (snd first_attempt))
    = (res, w2) /\
    @_http_request (stub_externals aad_only) (py "GET") brains_url VNone None false None
      stub_world = (res, w2) /\
    wire w2 = rq2 :: rq1 :: wire stub_world /\
    _access_key (self w2) = py "aad-token" /\
    method rq2 = method rq1 /\ url rq2 = url rq1 /\
    req_body rq2 = req_body rq1 /\
    allow_redirects rq2 = allow_redirects rq1 /\
    req_headers rq2
    = @headers_out (stub_externals aad_only)
        (@refreshed (stub_externals aad_only) deprecated_error (snd first_attempt)) None.
Proof.
  assert (Hrun : first_attempt = (Raise (BrainServerError deprecated_error), snd first_attempt))
    by (vm_compute; reflexivity).
  split; [exact Hrun|]. split; [vm_compute; reflexivity|].
  apply (proj1 (@auth_fallback_retries_once (stub_externals aad_only)
                  (py "GET") brains_url VNone None false None stub_world
                  (BrainServerError deprecated_error) (snd first_attempt) Hrun)
           deprecated_error eq_refl).
  vm_compute. reflexivity.
Defined.

Lemma redirect_policy_witness :
  moved_attempt = (fst moved_attempt, snd moved_attempt) /\
  py "DELETE" ∈ mutating_methods /\
  exists rq p,
    wire (snd moved_attempt) = [rq] /\ allow_redirects rq = false /\
    fst moved_attempt = Raise (BrainServerError (VDict p)) /\
    p !! py "exception"
    = Some (VHTTPError
              (py "301 Moved Permanently: Likely misconfigured url: https://api.bons.ai")).
Proof.
  assert (Hrun : moved_attempt = (fst moved_attempt, snd moved_attempt))
    by (vm_compute; reflexivity).
  assert (Hm : py "DELETE" ∈ mutating_methods) by (vm_compute; left).
  split; [exact Hrun|]. split; [exact Hm|].
  destruct (@redirect_policy (stub_externals always_moved) (py "DELETE") brains_url VNone
              None stub_world (fst moved_attempt) (snd moved_attempt) Hrun)
    as (Hsent & _ & Hmoved).
  destruct (Hsent Hm) as (rq & Hwire & Hredirect).
  destruct (Hmoved rq moved_response Hwire) as (p & Hres & Hexc & _);
    [vm_compute; reflexivity | reflexivity |].
  exists rq, p. repeat split; assumption.
Defined.

Lemma header_dump_masks_credential_witness :
  last_chars 10 (_access_key (self stub_world)) = last_chars 10 other_key /\
  exists dump later later_k,
    debug_log (snd (@_try_http_request (stub_externals unreachable) (py "GET") brains_url
                      VNone None stub_world))
    = later ++ dump :: @sending_text (py "GET") brains_url :: debug_log stub_world /\
    debug_log (snd (@_try_http_request (stub_externals unreachable) (py "GET") brains_url
                      VNone None (with_access_key other_key stub_world)))
    = later_k ++ dump :: @sending_text (py "GET") brains_url :: debug_log stub_world /\
    dump = @headers_text (stub_externals unreachable) (py "GET")
             (scrub (@base_headers (stub_externals unreachable) stub_world)) /\
    scrub (@base_headers (stub_externals unreachable) stub_world) !! py "Authorization"
    = Some (VStr (masked (_access_key (self stub_world)))).
Proof.
  split; [vm_compute; reflexivity|].
  apply (@header_dump_masks_credential (stub_externals unreachable)).
  vm_compute. reflexivity.
Defined.

Lemma purpose_text_injection_witness :
  dirty (dq "Train'") /\
  let create :=
    @create_sim_collection stub_runtime (py "cartpole") (py "b1") 2
      (py "balance") (dq "Train'") None None None None None None None None None false None
      stub_world in
  let patch :=
    @patch_sim_session stub_runtime (py "session-1") (py "b1") 2
      (dq "Train'") (py "balance") None false None stub_world in
  (@decoder_error stub_runtime JSONDecodeError /\
   create = (Raise JSONDecodeError,
             after_log (py "Creating a new sim collection") stub_world) /\
   wire (snd create) = wire stub_world) /\
  (@decoder_error stub_runtime JSONDecodeError /\
   patch = (Raise JSONDecodeError,
            after_log (py "Patching details about simulator session " ++ py "session-1"
                       ++ py " in workspace " ++ py "acme" ++ py "...") stub_world) /\
   wire (snd patch) = wire stub_world).
Proof.
  assert (Hd : dirty (dq "Train'")).
  { left. apply (bool_decide_unpack _). vm_compute. exact I. }
  split; [exact Hd|].
  exact (@purpose_text_injection stub_runtime
           (py "cartpole") (py "session-1") (py "b1") 2 (py "balance") (dq "Train'")
           None None None None None None None None None false None stub_world
           (or_introl Hd)).
Defined.

(** Strings without quote and backslash give the purpose object. *)
Example purpose_of_plain_strings :
  @decode stub_runtime in_create_sim_collection
    (purpose_text (py "Train") (py "acme") (py "b1") (py "2") (py "balance"))
  = Ok (purpose_object (py "Train") (py "acme") (py "b1") (py "2") (py "balance")).
Proof. vm_compute. reflexivity. Qed.

(** A backslash that the decoder accepts: the text decodes, to an object
    whose brain name is not the one given. *)
Example purpose_decodes_to_other_object :
  @decode stub_runtime in_create_sim_collection
    (purpose_text (py "Train") (py "acme") escaped_name (py "2") (py "balance"))
  = Ok (purpose_object (py "Train") (py "acme") (py "b1") (py "2") (py "balance")).
Proof. vm_compute. reflexivity. Qed.

(** C9 as stated fails: a brain name with an escape that the decoder
    accepts has a backslash, and the method neither raises nor builds an
    object of another structure: the purpose has the keys and the
    nesting of the intended one, with another brain name, and the
    request is made. *)
Lemma escaped_name_keeps_structure :
  ~ (forall (runtime : Externals) packagename brain_name version concept_name
       purpose_action w,
       dirty purpose_action \/ dirty (_workspace_id (self w)) \/ dirty brain_name \/
       dirty concept_name ->
       let create :=
         create_sim_collection packagename brain_name version concept_name
           purpose_action None None None None None None None None None false None w in
       (exists e, fst create = Raise e /\ wire (snd create) = wire w) \/
       (forall purpose,
          decode in_create_sim_collection
            (purpose_text purpose_action (_workspace_id (self w)) brain_name
               (str_of_int version) concept_name) = Ok purpose ->
          ~ purpose_shaped purpose)).
Proof.
  intros Hclaim.
  assert (Hd : dirty escaped_name).
  { right. apply (bool_decide_unpack _). vm_compute. exact I. }
  destruct (Hclaim (stub_externals always_ok) (py "cartpole") escaped_name 2%Z
              (py "balance") (py "Train") stub_world (or_intror (or_intror (or_introl Hd))))
    as [(e & He & _) | Hshape].
  - vm_compute in He. discriminate He.
  - apply (Hshape (purpose_object (py "Train") (py "acme") (py "b1") (py "2")
                     (py "balance"))).
    + vm_compute. reflexivity.
    + now exists (py "Train"), (py "acme"), (py "b1"), (py "2"), (py "balance").
Qed.

(** In an interpreter with the limit of 4300 digits, an integer of 4301
    digits in the body makes the decoder raise a [ValueError] that is no
    [JSONDecodeError]; [_dict] swallows it, and the fields of the body
    are not in what it returns. Without the limit they are. *)
Example dict_swallows_long_integer :
  @json stub_runtime in_dict long_integer_response
  = Raise (ValueError (@int_limit_message stub_runtime 4301)) /\
  (exists d, @_dict stub_runtime long_integer_response [] = Ok d /\
             d !! py "name" = None /\
             d !! py "status" = Some (VStr (py "Succeeded"))) /\
  exists body, valid_json (json_text long_integer_response) (VDict body) /\
               body !! py "name" = Some (VStr (py "b1")).
Proof.
  split; [vm_compute; reflexivity|]. split.
  - eexists. split; [vm_compute; reflexivity|]. split; vm_compute; reflexivity.
  - eexists. split; vm_compute; reflexivity.
Qed.


(** With the empty string as [workspace], the listing of brains goes to
    the URL of the configured workspace. *)
Example list_brains_empty_workspace :
  exists rq,
    wire (snd (@invoke (stub_externals always_ok) ListBrains (Some []) false None
                 stub_world)) = [rq] /\
    url rq = py "https://api.bons.ai/v2/workspaces/acme/brains".
Proof. eexists. split; vm_compute; reflexivity. Qed.
(** ** The normalizer and the classifier on every response *)

Section NormalizerMore.
Context `{Externals}.

Lemma ok_by_code response :
  ok response
  = negb ((400 <=? status_code response)%Z && (status_code response <? 600)%Z).
Proof.
  unfold ok, raise_for_status.
  destruct (Z.leb_spec 400 (status_code response)), (Z.ltb_spec (status_code response) 500),
    (Z.leb_spec 500 (status_code response)), (Z.ltb_spec (status_code response) 600);
    try reflexivity; lia.
Qed.

Lemma ok_false_iff response :
  ok response = false <-> (400 <= status_code response < 600)%Z.
Proof.
  rewrite ok_by_code, negb_false_iff, andb_true_iff, Z.leb_le, Z.ltb_lt. tauto.
Qed.

Lemma ok_true_iff response :
  ok response = true <-> ~ (400 <= status_code response < 600)%Z.
Proof.
  rewrite <- ok_false_iff. destruct (ok response); split; congruence.
Qed.

Lemma reads_body_iff response :
  reads_body response = true
  <-> ok response = true /\ strip_nonempty (text response) = true.
Proof.
  split; [|intros [Hok Hs]; now apply reads_body_true].
  unfold reads_body. rewrite !andb_true_iff. tauto.
Qed.

Lemma lets_out_iff response :
  lets_out response = Some RecursionError
  <-> ok response = true /\ strip_nonempty (text response) = true /\
      json in_dict response = Raise RecursionError.
Proof.
  unfold lets_out. split.
  - destruct (reads_body response) eqn:Hr; [|discriminate].
    apply reads_body_iff in Hr as [Hok Hs].
    destruct (json in_dict response) as [v|e]; [discriminate|].
    destruct (is_ValueError e) eqn:He; [discriminate|].
    intros [= ->]. auto.
  - intros (Hok & Hs & ->). now rewrite (reads_body_true _ Hok Hs).
Qed.

(** X1: what [_dict] does on every response, whatever its status and
    body. When the status is no error, the text is not blank and the
    decoder raises [RecursionError] (the body is nested deeper than the
    interpreter has room for), [_dict] raises it. In every other case it
    returns normally; the [status] entry is [Failed] exactly for the
    status codes from 400 to 599 and [Succeeded] for every other code, and
    the entries [statusCode], [statusMessage] (always empty) and
    [elapsed] are those of the response. *)
Theorem dict_status_by_code response request_id :
  let too_deep :=
    ok response = true /\ strip_nonempty (text response) = true /\
    json in_dict response = Raise RecursionError in
  (too_deep -> _dict response request_id = Raise RecursionError) /\
  (~ too_deep ->
   exists d,
     _dict response request_id = Ok d /\
     d !! py "status"
     = Some (VStr (if (400 <=? status_code response)%Z && (status_code response <? 600)%Z
                   then py "Failed" else py "Succeeded")) /\
     d !! py "statusCode" = Some (VInt (status_code response)) /\
     d !! py "statusMessage" = Some (VStr []) /\
     d !! py "elapsed" = Some (VTimedelta (elapsed response))).
Proof.
  cbv zeta. rewrite <- lets_out_iff, dict_eq. split.
  - now intros ->.
  - intros Hno. destruct (lets_out response) as [e|] eqn:E.
    + apply lets_out_recursion in E as E'. subst e. now destruct Hno.
    + exists (overlay response (body_dict response)). split; [reflexivity|].
      rewrite !overlay_lookup. unfold normalizer_value.
      split; [|repeat split].
      rewrite bool_decide_eq_true_2 by reflexivity. rewrite ok_by_code.
      now destruct (_ && _).
Qed.

Lemma lets_out_not_ok response : ok response = false -> lets_out response = None.
Proof. intros Hok. unfold lets_out, reads_body. now rewrite Hok. Qed.

Lemma body_dict_not_ok response : ok response = false -> body_dict response = ∅.
Proof. intros Hok. unfold body_dict, reads_body. now rewrite Hok. Qed.

Lemma ok_with_text body response : ok (with_text body response) = ok response.
Proof. reflexivity. Qed.

(** X2: for a response with an error status (400 to 599), [_dict] does
    not look at the body: the result has status [Failed] and only status
    fields, and it is the same for every other body, a JSON object
    included. *)
Theorem dict_error_status_drops_body response request_id :
  (400 <= status_code response < 600)%Z ->
  exists d,
    _dict response request_id = Ok d /\
    d !! py "status" = Some (VStr (py "Failed")) /\
    (forall k, is_Some (d !! k) -> k ∈ status_keys) /\
    (forall body, _dict (with_text body response) request_id = Ok d).
Proof.
  intros Hcode%ok_false_iff. exists (overlay response ∅).
  split; [|split; [|split]].
  - now rewrite dict_eq, lets_out_not_ok, body_dict_not_ok.
  - rewrite overlay_lookup. unfold normalizer_value.
    rewrite bool_decide_eq_true_2 by reflexivity. now rewrite Hcode.
  - intros k [Hk|Hk]%overlay_keys; [|assumption].
    rewrite lookup_empty in Hk. now destruct Hk.
  - intros body.
    rewrite dict_eq, lets_out_not_ok, body_dict_not_ok by (now rewrite ok_with_text).
    reflexivity.
Qed.

(** X3: when the body of the response has no JSON object under ["error"]
    (it is not JSON, not an object, has no such field, or the field is
    not an object), [_handle_and_raise] raises a [BrainServerError] whose
    [errorCode] is empty and whose [errorMessage] is ["Request failed."]
    followed by the request identifier and, when the response has a
    [SpanID] header, the span identifier. *)
Theorem handle_and_raise_without_envelope response e request_id :
  (forall j err, json in_handle_and_raise response = Ok j ->
                 getitem j (py "error") = Some err -> is_dict err = false) ->
  exists d,
    _handle_and_raise response e request_id = BrainServerError (VDict d) /\
    d !! py "errorCode" = Some (VStr []) /\
    d !! py "errorMessage"
    = Some (VStr (py "Request failed." ++ py " Request ID: " ++ request_id
                  ++ match headers response !! py "spanid" with
                     | Some span => py " Span ID: " ++ span
                     | None => []
                     end)) /\
    d !! py "status" = Some (VStr (py "Failed")) /\
    d !! py "exception" = Some e.
Proof.
  intros Hno. exists (error_payload response e request_id).
  split; [apply handle_and_raise_eq|].
  destruct (error_payload_lookups response e request_id)
    as (_ & Hc & Hm & Hs & _ & _ & He & _).
  assert (Hfield : forall f, error_field response f = None).
  { intros f. unfold error_field.
    destruct (json in_handle_and_raise response) as [j|e'] eqn:Hj; [|reflexivity].
    destruct (getitem j (py "error")) as [err|] eqn:Herr; [|reflexivity].
    specialize (Hno j err eq_refl Herr). now destruct err. }
  rewrite Hc, Hm. unfold error_code_text, error_message_text. rewrite !Hfield.
  auto.
Qed.

End NormalizerMore.

Lemma dict_error_status_drops_body_witness :
  (400 <= status_code deprecated_response < 600)%Z /\
  exists d,
    @_dict stub_runtime deprecated_response [] = Ok d /\
    d !! py "status" = Some (VStr (py "Failed")) /\
    (forall k, is_Some (d !! k) -> k ∈ status_keys) /\
    (forall body,
        @_dict stub_runtime (with_text body deprecated_response) [] = Ok d).
Proof.
  assert (Hcode : (400 <= status_code deprecated_response < 600)%Z)
    by (vm_compute; split; [intros E; discriminate E | reflexivity]).
  split; [exact Hcode|].
  exact (@dict_error_status_drops_body stub_runtime deprecated_response [] Hcode).
Defined.

Lemma handle_and_raise_without_envelope_witness :
  exists d,
    @_handle_and_raise (stub_externals unreachable) bad_gateway_response VNone (py "uuid-0")
    = BrainServerError (VDict d) /\
    d !! py "errorCode" = Some (VStr []) /\
    d !! py "errorMessage"
    = Some (VStr (py "Request failed." ++ py " Request ID: " ++ py "uuid-0"
                  ++ match headers bad_gateway_response !! py "spanid" with
                     | Some span => py " Span ID: " ++ span
                     | None => []
                     end)) /\
    d !! py "status" = Some (VStr (py "Failed")) /\
    d !! py "exception" = Some VNone.
Proof.
  apply (@handle_and_raise_without_envelope (stub_externals unreachable)
           bad_gateway_response VNone (py "uuid-0")).
  intros j err Hj. vm_compute in Hj. discriminate Hj.
Defined.

(** ** The dispatcher on every verb and outcome *)

Ltac py_in := refine (bool_decide_unpack _ _); vm_compute; reflexivity.
Ltac py_notin :=
  let E := fresh in
  intros E; apply list_elem_of_In in E; vm_compute in E; intuition discriminate.

Section DispatcherMore.
Context `{Externals}.

Lemma request_for_unsupported m u d hs :
  m ∉ supported_methods ->
  request_for m u d hs = Raise (UsageError (py "UNSUPPORTED HTTP REQUEST METHOD")).
Proof.
  intros Hm. unfold request_for, Json.pystr_eqb.
  repeat (case_bool_decide; [subst m; exfalso; apply Hm; py_in |]).
  reflexivity.
Qed.

Lemma request_for_cases m u d hs rq :
  request_for m u d hs = Ok rq ->
  m = py "GET" /\ rq = mkRequest GET u hs NoBody true TIMEOUT \/
  m = py "DELETE" /\ rq = mkRequest DELETE u hs NoBody false TIMEOUT \/
  m = py "PUT" /\ rq = mkRequest PUT u hs (JsonBody d) false TIMEOUT \/
  m = py "POST" /\ rq = mkRequest POST u hs (JsonBody d) false TIMEOUT \/
  m = py "PATCH" /\ rq = mkRequest PATCH u hs (JsonBody d) false TIMEOUT \/
  m = py "POST_RAW" /\ rq = mkRequest POST u hs (DataBody d) false TIMEOUT \/
  m = py "PUT_RAW" /\ rq = mkRequest PUT u hs (DataBody d) false TIMEOUT.
Proof.
  unfold request_for, Json.pystr_eqb.
  repeat (case_bool_decide; [intros [= <-]; tauto |]).
  discriminate.
Qed.

Lemma headers_out_after_echo m u d debug w h :
  headers_out (after_echo m u d debug w) h = headers_out w h.
Proof. now destruct debug. Qed.

(** An attempt leaves the client and the standard output as they are,
    draws two identifiers, makes at most one session call and logs two or
    three messages. *)
Lemma try_http_request_frame m u d h w :
  let w' := snd (_try_http_request m u d h w) in
  self w' = self w /\ drawn w' = S (S (drawn w)) /\ stdout w' = stdout w /\
  (wire w' = wire w \/ exists rq, wire w' = rq :: wire w) /\
  exists later,
    debug_log w' = later ++ debug_log (after_prologue m u w) /\ (length later <= 1)%nat.
Proof.
  rewrite try_http_request_unfold. cbv zeta.
  destruct (request_for m u d _) as [rq|e].
  - destruct (on_outcome_world m u (network (wire w) rq) (uuid4 (drawn w))
                (after_send rq (after_prologue m u w))) as (Hs & Hd & Hw & Ho & Hl).
    rewrite Hs, Hd, Hw, Ho.
    split; [reflexivity|]. split; [reflexivity|]. split; [reflexivity|].
    split; [right; now exists rq|].
    destruct Hl as [->|[l ->]]; [exists []|exists [l]]; (split; [reflexivity|cbn; lia]).
  - cbn [snd]. repeat split; [now left|]. exists []. split; [reflexivity|cbn; lia].
Qed.

(** X4: a verb that is not one of GET, DELETE, PUT, POST, PATCH, POST_RAW
    and PUT_RAW (the comparison is exact, so also ["get"]) makes
    [_http_request] raise the [UsageError] "UNSUPPORTED HTTP REQUEST
    METHOD"; no session call is made and the credential stays, but the
    attempt has already logged its two messages and drawn its two
    identifiers. *)
Theorem unsupported_method_sends_nothing m u d h debug output w :
  m ∉ supported_methods ->
  let run := _http_request m u d h debug output w in
  fst run = Raise (UsageError (py "UNSUPPORTED HTTP REQUEST METHOD")) /\
  wire (snd run) = wire w /\
  self (snd run) = self w /\
  drawn (snd run) = S (S (drawn w)) /\
  debug_log (snd run)
  = headers_text m (scrub (base_headers w)) :: sending_text m u :: debug_log w.
Proof.
  intros Hm run. subst run.
  rewrite http_request_unfold, try_http_request_unfold.
  rewrite request_for_unsupported by assumption.
  destruct debug; repeat split.
Qed.

(** X5: the session call of an attempt goes to the URL it was given, with
    the timeout of 300 seconds and the headers built for it; GET and
    DELETE send no body, whatever [data] is; PUT, POST and PATCH send
    [data] as the JSON body; POST_RAW and PUT_RAW call the POST and PUT
    methods of the session with [data] as the raw body. *)
Theorem session_call_shape m u d h w rq :
  wire (snd (_try_http_request m u d h w)) = rq :: wire w ->
  url rq = u /\ timeout rq = 300%Z /\ req_headers rq = headers_out w h /\
  (m ∈ [py "GET"; py "DELETE"] -> req_body rq = NoBody) /\
  (m ∈ [py "PUT"; py "POST"; py "PATCH"] -> req_body rq = JsonBody d) /\
  (m ∈ [py "POST_RAW"; py "PUT_RAW"] -> req_body rq = DataBody d) /\
  (m = py "POST_RAW" -> method rq = POST) /\
  (m = py "PUT_RAW" -> method rq = PUT).
Proof.
  intros Hw. pose proof (try_http_request_wire m u d h w) as Hw'.
  destruct (request_for m u d (headers_out w h)) as [rq'|e] eqn:Hrq.
  - rewrite Hw in Hw'. injection Hw' as ->.
    destruct (request_for_cases _ _ _ _ _ Hrq)
      as [[-> ->]|[[-> ->]|[[-> ->]|[[-> ->]|[[-> ->]|[[-> ->]|[-> ->]]]]]]].
    all: cbn [url timeout req_headers req_body method].
    all: repeat split; try reflexivity; try (intros _; reflexivity); try py_notin; pyneq.
  - rewrite Hw in Hw'. symmetry in Hw'. now apply cons_neq_self in Hw'.
Qed.

(** X6: what an attempt raises when its session call fails: a
    [ConnectionError] and a [Timeout] become a [BrainServerError] whose
    text names the URL and the first identifier drawn (the timeout text
    also the 300 seconds); any other exception of the session call goes
    through as it is. The call has been made, and nothing is logged after
    the header dump. *)
Theorem transport_failures m u d h w rq :
  request_for m u d (headers_out w h) = Ok rq ->
  let run := _try_http_request m u d h w in
  wire (snd run) = rq :: wire w /\
  match network (wire w) rq with
  | RaisesConnectionError =>
      fst run = Raise (BrainServerError (VStr (connection_error_text u (uuid4 (drawn w))))) /\
      contains u (connection_error_text u (uuid4 (drawn w))) = true /\
      debug_log (snd run) = debug_log (after_prologue m u w)
  | RaisesTimeout =>
      fst run = Raise (BrainServerError (VStr (timeout_text u (uuid4 (drawn w))))) /\
      contains u (timeout_text u (uuid4 (drawn w))) = true /\
      contains (py "300 seconds") (timeout_text u (uuid4 (drawn w))) = true /\
      debug_log (snd run) = debug_log (after_prologue m u w)
  | RaisesOther e =>
      fst run = Raise (TransportError e) /\
      debug_log (snd run) = debug_log (after_prologue m u w)
  | Returns _ => True
  end.
Proof.
  intros Hrq run. subst run.
  pose proof (try_http_request_wire m u d h w) as Hw. rewrite Hrq in Hw.
  split; [assumption|].
  rewrite try_http_request_unfold, Hrq.
  destruct (network (wire w) rq) as [| | e|response]; cbn [on_outcome fst snd].
  - repeat split. apply contains_app.
  - repeat split; [apply contains_app|].
    assert (E : timeout_text u (uuid4 (drawn w))
                = (py "Request to " ++ u ++ py " timed out. Current timeout is ")
                  ++ py "300 seconds"
                  ++ (py ". Use the --timeout/-t option to adjust the timeout. Request ID: "
                      ++ uuid4 (drawn w))).
    { unfold timeout_text.
      change (py " timed out. Current timeout is 300 seconds. Use the --timeout/-t option to adjust the timeout. Request ID: ")
        with (py " timed out. Current timeout is " ++ py "300 seconds"
              ++ py ". Use the --timeout/-t option to adjust the timeout. Request ID: ").
      now rewrite <- !app_assoc. }
    rewrite E. apply contains_app.
  - repeat split.
  - exact I.
Qed.

End DispatcherMore.

Section DispatcherOutcomes.
Context `{Externals}.

Lemma startswith_split a : forall s, startswith a s = true -> exists q, s = a ++ q.
Proof.
  induction a as [|c a IH]; intros s Hs.
  - now exists s.
  - destruct s as [|b s]; [discriminate|]. cbn [startswith] in Hs.
    apply andb_true_iff in Hs as [E Hs]. apply N.eqb_eq in E as ->.
    destruct (IH _ Hs) as [q ->]. now exists q.
Qed.

Lemma contains_split a : forall s, contains a s = true -> exists p q, s = p ++ a ++ q.
Proof.
  induction s as [|b s IH]; cbn [contains]; intros Hs.
  - rewrite orb_false_r in Hs. destruct (startswith_split _ _ Hs) as [q ->].
    now exists [], q.
  - apply orb_true_iff in Hs as [Hs|Hs].
    + destruct (startswith_split _ _ Hs) as [q E]. now exists [], q.
    + destruct (IH Hs) as (p & q & ->). now exists (b :: p), q.
Qed.

Lemma contains_mid a u p q : contains a u = true -> contains a (p ++ u ++ q) = true.
Proof.
  intros (p' & q' & ->)%contains_split.
  replace (p ++ (p' ++ a ++ q') ++ q) with ((p ++ p') ++ a ++ (q' ++ q))
    by (now rewrite <- !app_assoc).
  apply contains_app.
Qed.

Lemma auth_deprecated_mid u p q :
  auth_deprecated u = true -> auth_deprecated (p ++ u ++ q) = true.
Proof.
  unfold auth_deprecated. rewrite !orb_true_iff.
  intros [Hu|Hu]; [left|right]; now apply contains_mid.
Qed.

Lemma self_after_echo m u d debug w : self (after_echo m u d debug w) = self w.
Proof. now destruct debug. Qed.

Lemma drawn_after_echo m u d debug w : drawn (after_echo m u d debug w) = drawn w.
Proof. now destruct debug. Qed.

(** X7: the markers of the legacy authentication are looked for in the
    whole text of the error, so also in the URL that the text of a
    connection error quotes: when the URL has a marker in it and the
    session call fails with a [ConnectionError], [_http_request] replaces
    the credential by the token of the fallback scheme and calls the
    session a second time. *)
Theorem marker_in_url_triggers_fallback m u d h debug output w rq :
  request_for m u d (headers_out w h) = Ok rq ->
  network (wire w) rq = RaisesConnectionError ->
  auth_deprecated u = true ->
  let run := _http_request m u d h debug output w in
  _access_key (self (snd run)) = get_access_token (tenant_id (self w)) /\
  exists rq2, wire (snd run) = rq2 :: rq :: wire w /\ url rq2 = u.
Proof.
  intros Hrq Hnet Hu run. subst run.
  rewrite http_request_unfold, try_http_request_unfold, headers_out_after_echo, Hrq.
  rewrite after_echo_wire, Hnet. cbn [on_outcome]. cbv beta iota. cbn [py_str].
  assert (Hmark : forall r, auth_deprecated (connection_error_text u r) = true)
    by (intros r; unfold connection_error_text; now apply auth_deprecated_mid).
  rewrite Hmark.
  set (err := VStr _).
  set (w1 := after_send rq _).
  assert (Hself : self w1 = self w) by apply self_after_echo.
  assert (Hwire : wire w1 = rq :: wire w)
    by (unfold w1; cbn [wire after_send after_prologue]; now rewrite after_echo_wire).
  destruct (try_http_request_frame m u d h (refreshed err w1)) as (Hs & _).
  split.
  - rewrite Hs. cbn [refreshed with_access_key set_access_key snd self _access_key after_log].
    now rewrite Hself.
  - destruct (request_for_headers m u d _ (headers_out (refreshed err w1) h) _ Hrq)
      as [rq2 Hrq2].
    pose proof (try_http_request_wire m u d h (refreshed err w1)) as Hw2.
    rewrite Hrq2 in Hw2. exists rq2. split.
    + rewrite Hw2. cbn [refreshed with_access_key set_access_key snd wire after_log].
      now rewrite Hwire.
    + now destruct (request_for_inv _ _ _ _ _ Hrq2) as (-> & _).
Qed.

Lemma try_http_request_success m u d h w rq response :
  request_for m u d (headers_out w h) = Ok rq ->
  network (wire w) rq = Returns response ->
  ~ (400 <= status_code response < 600)%Z ->
  status_code response <> 301%Z ->
  _try_http_request m u d h w
  = (_dict response (uuid4 (drawn w)),
     after_log (results_text m u (text response)) (after_send rq (after_prologue m u w))).
Proof.
  intros Hrq Hnet Hcode%ok_true_iff H301.
  rewrite try_http_request_unfold, Hrq, Hnet. cbn [on_outcome]. unfold on_response.
  pose proof Hcode as Hok. unfold ok in Hok.
  destruct (raise_for_status response) as [[]|e]; [|discriminate Hok].
  destruct (Z.eqb_spec (status_code response) 301) as [E|_]; [contradiction|].
  reflexivity.
Qed.

(** What [_dict] makes of a response whose status is no error. *)
Lemma dict_of_success response request_id :
  ok response = true ->
  let too_deep :=
    strip_nonempty (text response) = true /\
    json in_dict response = Raise RecursionError in
  (too_deep -> _dict response request_id = Raise RecursionError) /\
  (~ too_deep ->
   exists r,
     _dict response request_id = Ok r /\
     r !! py "status" = Some (VStr (py "Succeeded")) /\
     r !! py "statusCode" = Some (VInt (status_code response))).
Proof.
  intros Hok. cbv zeta. rewrite dict_eq. split.
  - intros [Hs Hj].
    now rewrite (proj2 (lets_out_iff response) (conj Hok (conj Hs Hj))).
  - intros Hno. destruct (lets_out response) as [e|] eqn:E.
    + apply lets_out_recursion in E as E'. subst e.
      apply lets_out_iff in E. tauto.
    + eexists. split; [reflexivity|]. split; [now apply overlay_status|].
      now rewrite overlay_lookup.
Qed.

(** X8: a response whose status is neither an error status (400 to 599)
    nor 301 is not an error for the attempt (so also 204, 302 or 304): it
    logs the verb, the URL and the whole body and ends as [_dict] does on
    the response. When the text is not blank and the decoder raises
    [RecursionError], the attempt raises it; in every other case it
    returns the dictionary of [_dict], with status [Succeeded] and the
    status code of the response. *)
Theorem non_error_status_succeeds m u d h w rq response :
  request_for m u d (headers_out w h) = Ok rq ->
  network (wire w) rq = Returns response ->
  ~ (400 <= status_code response < 600)%Z ->
  status_code response <> 301%Z ->
  let run := _try_http_request m u d h w in
  let too_deep :=
    strip_nonempty (text response) = true /\
    json in_dict response = Raise RecursionError in
  fst run = _dict response (uuid4 (drawn w)) /\
  debug_log (snd run)
  = results_text m u (text response) :: debug_log (after_prologue m u w) /\
  (too_deep -> fst run = Raise RecursionError) /\
  (~ too_deep ->
   exists r,
     fst run = Ok r /\
     r !! py "status" = Some (VStr (py "Succeeded")) /\
     r !! py "statusCode" = Some (VInt (status_code response))).
Proof.
  intros Hrq Hnet Hcode H301 run. subst run.
  rewrite (try_http_request_success _ _ _ _ _ _ _ Hrq Hnet Hcode H301). cbn [fst snd].
  split; [reflexivity|]. split; [reflexivity|].
  apply dict_of_success. now apply ok_true_iff.
Qed.

Lemma raise_for_status_error response :
  (400 <= status_code response < 600)%Z ->
  raise_for_status response = Raise (HTTPError (status_error_text response)).
Proof.
  intros Hc. unfold raise_for_status, status_error_text.
  destruct (Z.leb_spec 400 (status_code response)), (Z.ltb_spec (status_code response) 500),
    (Z.leb_spec 500 (status_code response)), (Z.ltb_spec (status_code response) 600);
    try lia; reflexivity.
Qed.

(** X9: a response with an error status (400 to 599) whose body is the
    error envelope of the service, [{"error": {"code": c, "message":
    msg}}], makes the attempt raise a [BrainServerError] with status
    [Failed], the status code of the response, the code and the message
    of the envelope in [errorCode] and [errorMessage] (the message
    followed by the first identifier drawn), the decoded body in
    [errorDump] and the [HTTPError] of [raise_for_status] in [exception];
    the body is not logged. *)
Theorem error_envelope_reported m u d h w rq response b e c msg :
  request_for m u d (headers_out w h) = Ok rq ->
  network (wire w) rq = Returns response ->
  (400 <= status_code response < 600)%Z ->
  json in_handle_and_raise response = Ok (VDict b) ->
  b !! py "error" = Some (VDict e) ->
  e !! py "code" = Some (VStr c) ->
  e !! py "message" = Some (VStr msg) ->
  let run := _try_http_request m u d h w in
  exists p,
    fst run = Raise (BrainServerError (VDict p)) /\
    p !! py "status" = Some (VStr (py "Failed")) /\
    p !! py "statusCode" = Some (VInt (status_code response)) /\
    p !! py "errorCode"
    = Some (VStr (dq "Request failed with error code '" ++ c ++ [DQUOTE])) /\
    p !! py "errorMessage"
    = Some (VStr (py "Error message: " ++ msg ++ py " Request ID: " ++ uuid4 (drawn w)
                  ++ match headers response !! py "spanid" with
                     | Some span => py " Span ID: " ++ span
                     | None => []
                     end)) /\
    p !! py "errorDump" = Some (VDict b) /\
    p !! py "exception" = Some (VHTTPError (status_error_text response)) /\
    debug_log (snd run) = debug_log (after_prologue m u w).
Proof.
  intros Hrq Hnet Hcode Hj Hb Hc Hm run. subst run.
  rewrite try_http_request_unfold, Hrq, Hnet. cbn [on_outcome]. unfold on_response.
  rewrite (raise_for_status_error _ Hcode), handle_and_raise_eq. cbn [fst snd].
  eexists. split; [reflexivity|].
  destruct (error_payload_lookups response (VHTTPError (status_error_text response))
              (uuid4 (drawn w))) as (Hdump & Hcd & Hmsg & Hs & Hsc & _ & He & _).
  assert (Hfc : error_field response (py "code") = Some (VStr c))
    by (unfold error_field; rewrite Hj; cbn [getitem]; rewrite Hb; exact Hc).
  assert (Hfm : error_field response (py "message") = Some (VStr msg))
    by (unfold error_field; rewrite Hj; cbn [getitem]; rewrite Hb; exact Hm).
  split; [exact Hs|]. split; [exact Hsc|].
  split; [rewrite Hcd; unfold error_code_text; now rewrite Hfc|].
  split; [rewrite Hmsg; unfold error_message_text; rewrite Hfm; cbn [py_str];
          now rewrite <- !app_assoc|].
  split; [rewrite Hdump; unfold error_dump_value; now rewrite Hj|].
  split; [exact He|reflexivity].
Qed.

(** X10: the headers that the caller gives are laid over the ones the
    attempt builds, after the dump is logged: the session call carries the
    caller's value for every name the caller gives ([Authorization] and
    [RequestId] included) and the built value for the others, while the
    dump that is logged is the one of the built headers. *)
Theorem caller_headers_override m u d hs w rq :
  request_for m u d (headers_out w (Some hs)) = Ok rq ->
  let run := _try_http_request m u d (Some hs) w in
  wire (snd run) = rq :: wire w /\
  (forall k, req_headers rq !! k
             = match hs !! k with Some v => Some v | None => base_headers w !! k end) /\
  exists later,
    debug_log (snd run)
    = later ++ headers_text m (scrub (base_headers w)) :: sending_text m u :: debug_log w.
Proof.
  intros Hrq run. subst run.
  pose proof (try_http_request_wire m u d (Some hs) w) as Hw. rewrite Hrq in Hw.
  split; [assumption|]. split; [|apply try_http_request_log].
  intros k. destruct (request_for_inv _ _ _ _ _ Hrq) as (_ & -> & _).
  unfold headers_out, truthy. case_bool_decide as Hempty; cbn [negb].
  - subst hs. now rewrite lookup_empty.
  - rewrite lookup_union. destruct (hs !! k), (base_headers w !! k); reflexivity.
Qed.

End DispatcherOutcomes.

(** ** A request as a whole *)

Section RequestMore.
Context `{Externals}.

Lemma same_config_refl s : same_config s s.
Proof. repeat split. Qed.

(** What one attempt does to the world, with the call it makes. *)
Lemma attempt_cases m u d h w :
  let w' := snd (_try_http_request m u d h w) in
  self w' = self w /\ drawn w' = (2 + drawn w)%nat /\ stdout w' = stdout w /\
  (wire w' = wire w \/
   exists rq, wire w' = rq :: wire w /\ request_for m u d (headers_out w h) = Ok rq).
Proof.
  destruct (try_http_request_frame m u d h w) as (Hs & Hd & Ho & _).
  pose proof (try_http_request_wire m u d h w) as Hw.
  cbv zeta. split; [assumption|]. split; [assumption|]. split; [assumption|].
  destruct (request_for m u d (headers_out w h)) as [rq|e] eqn:Hrq; [right|now left].
  now exists rq.
Qed.

(** X11: whatever the verb, the headers and the outcome, an attempt
    leaves the client and the standard output as they are, draws exactly
    two identifiers, makes at most one session call (the one the verb
    stands for, with the headers built for it) and logs its two messages
    before it, and at most one after. *)
Theorem attempt_frame m u d h w :
  let w' := snd (_try_http_request m u d h w) in
  self w' = self w /\ drawn w' = S (S (drawn w)) /\ stdout w' = stdout w /\
  (wire w' = wire w \/
   exists rq, wire w' = rq :: wire w /\ request_for m u d (headers_out w h) = Ok rq) /\
  exists later,
    debug_log w'
    = later ++ headers_text m (scrub (base_headers w)) :: sending_text m u :: debug_log w /\
    (length later <= 1)%nat.
Proof.
  destruct (try_http_request_frame m u d h w) as (Hs & Hd & Ho & _ & Hlog).
  destruct (attempt_cases m u d h w) as (_ & _ & _ & Hw).
  cbv zeta. split; [exact Hs|]. split; [exact Hd|]. split; [exact Ho|].
  split; [exact Hw | exact Hlog].
Qed.

(** What [_http_request] does to the world: either the credential stays
    and at most one session call is made, or the credential becomes the
    token of the fallback scheme and two calls are made, the second one
    with the headers built after the switch. *)
Lemma http_request_cases m u d h debug output w :
  let w' := snd (_http_request m u d h debug output w) in
  same_config (self w) (self w') /\
  stdout w' = stdout (after_echo m u d debug w) /\
  (_access_key (self w') = _access_key (self w) /\ drawn w' = (2 + drawn w)%nat /\
   (wire w' = wire w \/
    exists rq, wire w' = rq :: wire w /\ request_for m u d (headers_out w h) = Ok rq)
   \/
   _access_key (self w') = get_access_token (tenant_id (self w)) /\
   drawn w' = (4 + drawn w)%nat /\
   exists rq1 rq2 w1,
     wire w' = rq2 :: rq1 :: wire w /\
     request_for m u d (headers_out w h) = Ok rq1 /\
     request_for m u d (headers_out w1 h) = Ok rq2 /\
     _access_key (self w1) = get_access_token (tenant_id (self w)) /\
     same_config (self w) (self w1) /\
     drawn w1 = (2 + drawn w)%nat).
Proof.
  cbv zeta. rewrite http_request_unfold.
  set (w0 := after_echo m u d debug w).
  assert (Hs0 : self w0 = self w) by apply self_after_echo.
  assert (Hd0 : drawn w0 = drawn w) by apply drawn_after_echo.
  assert (Hw0 : wire w0 = wire w) by apply after_echo_wire.
  assert (Hh0 : headers_out w0 h = headers_out w h) by apply headers_out_after_echo.
  destruct (attempt_cases m u d h w0) as (Hs & Hd & Ho & Hw).
  rewrite Hs0, Hd0, Hw0, Hh0 in *.
  destruct (_try_http_request m u d h w0) as [[r|e] w1] eqn:E1; cbn [snd] in *.
  - rewrite Hs. split; [apply same_config_refl|]. split; [assumption|]. left. auto.
  - assert (Hplain : same_config (self w) (self w1) /\ stdout w1 = stdout w0 /\
              (_access_key (self w1) = _access_key (self w) /\
               drawn w1 = (2 + drawn w)%nat /\
               (wire w1 = wire w \/
                exists rq, wire w1 = rq :: wire w /\
                           request_for m u d (headers_out w h) = Ok rq)
               \/
               _access_key (self w1) = get_access_token (tenant_id (self w)) /\
               drawn w1 = (4 + drawn w)%nat /\
               exists rq1 rq2 w2,
                 wire w1 = rq2 :: rq1 :: wire w /\
                 request_for m u d (headers_out w h) = Ok rq1 /\
                 request_for m u d (headers_out w2 h) = Ok rq2 /\
                 _access_key (self w2) = get_access_token (tenant_id (self w)) /\
                 same_config (self w) (self w2) /\
                 drawn w2 = (2 + drawn w)%nat)).
    { rewrite Hs. split; [apply same_config_refl|]. split; [assumption|]. left. auto. }
    destruct e as [err| | | | | | | |]; try exact Hplain.
    destruct (auth_deprecated (py_str err)); [|exact Hplain].
    clear Hplain.
    destruct (try_http_request_raises _ _ _ _ _ _ _ E1) as (rq1 & Hrq1 & Hw1).
    rewrite Hw0, Hh0 in *.
    destruct (attempt_cases m u d h (refreshed err w1)) as (Hs2 & Hd2 & Ho2 & _).
    pose proof (try_http_request_wire m u d h (refreshed err w1)) as Hw2.
    destruct (request_for_headers m u d _ (headers_out (refreshed err w1) h) _ Hrq1)
      as [rq2 Hrq2].
    rewrite Hrq2 in Hw2.
    rewrite Hs2, Hd2, Ho2, Hw2.
    assert (Hcfg : same_config (self w) (self (refreshed err w1))).
    { unfold same_config.
      cbn [refreshed with_access_key set_access_key snd self after_log
           _workspace_id tenant_id _api_url _gateway_url _user_info].
      rewrite Hs. auto. }
    assert (Hkey : _access_key (self (refreshed err w1))
                   = get_access_token (tenant_id (self w))).
    { cbn [refreshed with_access_key set_access_key snd self after_log _access_key].
      now rewrite Hs. }
    assert (Hdr : drawn (refreshed err w1) = (2 + drawn w)%nat) by exact Hd.
    assert (Hwr : wire (refreshed err w1) = rq1 :: wire w) by exact Hw1.
    assert (Hso : stdout (refreshed err w1) = stdout w0) by exact Ho.
    rewrite Hkey, Hdr, Hwr, Hso.
    split; [assumption|]. split; [reflexivity|]. right.
    split; [reflexivity|]. split; [reflexivity|].
    exists rq1, rq2, (refreshed err w1). auto 10.
Qed.

(** X12: what [_http_request] does to the client and the wire, whatever
    the verb, the URL and the outcomes: the workspace, the tenant, the
    two base URLs and the user-agent text are never changed; either the
    credential stays, two identifiers are drawn and at most one session
    call is made, or the credential becomes the token of the fallback
    scheme, four identifiers are drawn and exactly two session calls are
    made; the first call is the one the verb stands for with the headers
    built before, the second the same call with the headers built after
    the switch. *)
Theorem http_request_frame m u d h debug output w :
  let w' := snd (_http_request m u d h debug output w) in
  same_config (self w) (self w') /\
  (_access_key (self w') = _access_key (self w) /\ drawn w' = (2 + drawn w)%nat /\
   (wire w' = wire w \/
    exists rq, wire w' = rq :: wire w /\ request_for m u d (headers_out w h) = Ok rq)
   \/
   _access_key (self w') = get_access_token (tenant_id (self w)) /\
   drawn w' = (4 + drawn w)%nat /\
   exists rq1 rq2 w1,
     wire w' = rq2 :: rq1 :: wire w /\
     request_for m u d (headers_out w h) = Ok rq1 /\
     request_for m u d (headers_out w1 h) = Ok rq2 /\
     _access_key (self w1) = get_access_token (tenant_id (self w)) /\
     same_config (self w) (self w1) /\
     drawn w1 = (2 + drawn w)%nat).
Proof.
  destruct (http_request_cases m u d h debug output w) as (Hc & _ & Hrest).
  split; assumption.
Qed.

Lemma on_outcome_stdout m u o r l w :
  on_outcome m u o r (with_stdout l w)
  = (fst (on_outcome m u o r w), with_stdout l (snd (on_outcome m u o r w))).
Proof.
  unfold on_outcome, on_response. destruct o as [| | e|response]; try reflexivity.
  destruct (raise_for_status response) as [[]|[]]; try reflexivity.
  destruct (_ =? _)%Z; reflexivity.
Qed.

Lemma try_http_request_stdout m u d h l w :
  _try_http_request m u d h (with_stdout l w)
  = (fst (_try_http_request m u d h w),
     with_stdout l (snd (_try_http_request m u d h w))).
Proof.
  rewrite !try_http_request_unfold.
  change (headers_out (with_stdout l w) h) with (headers_out w h).
  destruct (request_for m u d (headers_out w h)) as [rq|e]; [|reflexivity].
  apply (on_outcome_stdout m u (network (wire w) rq) (uuid4 (drawn w)) l
           (after_send rq (after_prologue m u w))).
Qed.

(** X13: the [debug] flag changes nothing but the standard output: with
    it [_http_request] returns or raises the same, makes the same session
    calls, draws the same identifiers, logs the same messages and leaves
    the same client, and echoes seven lines (a rule, the verb, the URL and
    [str(data)] among blank lines) before the first attempt; without it
    nothing is written. *)
Theorem debug_only_echoes m u d h output w :
  let quiet := _http_request m u d h false output w in
  let loud := _http_request m u d h true output w in
  fst loud = fst quiet /\
  self (snd loud) = self (snd quiet) /\
  drawn (snd loud) = drawn (snd quiet) /\
  wire (snd loud) = wire (snd quiet) /\
  debug_log (snd loud) = debug_log (snd quiet) /\
  stdout (snd quiet) = stdout w /\
  stdout (snd loud) = echo_lines m u d ++ stdout w.
Proof.
  cbv zeta.
  destruct (http_request_cases m u d h false output w) as (_ & Hquiet & _).
  assert (E : _http_request m u d h true output w
              = (fst (_http_request m u d h false output w),
                 with_stdout (echo_lines m u d ++ stdout w)
                   (snd (_http_request m u d h false output w)))).
  { rewrite !http_request_unfold.
    change (after_echo m u d true w) with (with_stdout (echo_lines m u d ++ stdout w) w).
    change (after_echo m u d false w) with w.
    rewrite try_http_request_stdout.
    destruct (_try_http_request m u d h w) as [[r|e] w1]; cbn [fst snd]; [reflexivity|].
    destruct e as [err| | | | | | | |]; try reflexivity.
    destruct (auth_deprecated (py_str err)); [|reflexivity].
    apply (try_http_request_stdout m u d h _ (refreshed err w1)). }
  rewrite E. cbn [fst snd with_stdout self drawn wire debug_log stdout].
  repeat split. exact Hquiet.
Qed.

Lemma last_chars_short n s : (length s <= n)%nat -> last_chars n s = s.
Proof.
  intros Hl. unfold last_chars. now replace (length s - n)%nat with 0%nat by lia.
Qed.

(** X14: the header dump keeps the last 10 characters of the credential,
    so a credential of at most 10 characters is logged in full, after the
    three stars. *)
Theorem short_credential_logged_in_full m u d h w :
  _access_key (self w) <> [] ->
  (length (_access_key (self w)) <= 10)%nat ->
  exists later,
    debug_log (snd (_try_http_request m u d h w))
    = later
      ++ headers_text m (<[py "Authorization" := VStr (py "***" ++ _access_key (self w))]>
                           (base_headers w))
      :: sending_text m u :: debug_log w.
Proof.
  intros Hne Hlen. destruct (try_http_request_log m u d h w) as [later ->].
  exists later. rewrite scrub_base_headers. unfold masked.
  rewrite (last_chars_short _ _ Hlen). now destruct (_access_key (self w)).
Qed.

(** X15: [__init__] builds a client exactly when the access key, the
    workspace, the API URL and the gateway URL are all given (an empty
    string is given; the tenant is optional); the client it builds holds
    them as they are. The first one that is missing, in this order, is
    named by the [ValueError]. In every case one message is logged before
    the checks, with [str(workspace_id)]. *)
Theorem init_requires_four access_key workspace_id tenant api_url gateway_url log :
  let run := __init__ access_key workspace_id tenant api_url gateway_url log in
  snd run
  = (py "Bootstrapping the Bonsai API for user: " ++ py_str (opt workspace_id)) :: log /\
  ((exists c, fst run = Ok c) <->
   is_Some access_key /\ is_Some workspace_id /\ is_Some api_url /\ is_Some gateway_url) /\
  (forall c, fst run = Ok c ->
     access_key = Some (_access_key c) /\ workspace_id = Some (_workspace_id c) /\
     tenant_id c = tenant /\ api_url = Some (_api_url c) /\
     gateway_url = Some (_gateway_url c) /\ _user_info c = user_info) /\
  (access_key = None -> fst run = Raise (ValueError (py "Access key is missing"))) /\
  (is_Some access_key -> workspace_id = None ->
   fst run = Raise (ValueError (py "Workspace name is missing"))) /\
  (is_Some access_key -> is_Some workspace_id -> api_url = None ->
   fst run = Raise (ValueError (py "API url is missing"))) /\
  (is_Some access_key -> is_Some workspace_id -> is_Some api_url -> gateway_url = None ->
   fst run = Raise (ValueError (py "Gateway url is missing"))).
Proof.
  cbv zeta. unfold __init__.
  assert (E : format (py "Bootstrapping the Bonsai API for user: {}") [opt workspace_id] ∅
              = Ok (py "Bootstrapping the Bonsai API for user: " ++ py_str (opt workspace_id))).
  { transitivity (Ok (A:=pystr) (py "Bootstrapping the Bonsai API for user: "
                                 ++ py_str (opt workspace_id) ++ []));
      [reflexivity | now rewrite app_nil_r]. }
  rewrite E. cbn [fst snd]. split; [reflexivity|].
  destruct access_key as [a|], workspace_id as [ws|], api_url as [au|], gateway_url as [gu|].
  all: repeat match goal with
       | |- _ /\ _ => split
       | |- _ <-> _ => split
       | |- forall _, _ => intro
       | E : exists _, _ |- _ => destruct E
       | E : _ /\ _ |- _ => destruct E
       | E : is_Some None |- _ => destruct E as [? [=]]
       | E : Raise _ = Ok _ |- _ => discriminate E
       | E : Ok _ = Ok _ |- _ => injection E as <-
       | E : None = Some _ |- _ => discriminate E
       | E : Some _ = None |- _ => discriminate E
       | |- is_Some (Some _) => eexists; reflexivity
       | |- exists _, Ok _ = Ok _ => eexists; reflexivity
       | |- _ = _ => reflexivity
       end.
Qed.

End RequestMore.

(** ** The purpose text of strings without quotes and backslashes *)

Module PlainFacts.
Import Json ScanFacts PurposeFacts.

(** The scanner over a piece that it reads, and then the rest. *)
Lemma lex_run s1 : forall st s2 st1 toks1,
  run st s1 = Some (st1, toks1) ->
  lex st (s1 ++ s2) = let '(rest, complete) := lex st1 s2 in (toks1 ++ rest, complete).
Proof.
  induction s1 as [|c s1 IH]; intros st s2 st1 toks1; cbn [run app].
  - intros [= <- <-]. now destruct (lex st s2).
  - cbn [lex]. destruct (step st c) as [[st' ts]|]; [|discriminate].
    destruct (run st' s1) as [[st2 ts2]|] eqn:Hr; [|discriminate].
    intros [= <- <-]. rewrite (IH _ s2 _ _ Hr).
    destruct (lex st2 s2). now rewrite app_assoc.
Qed.

(** Inside a string, the scanner stops at a control character. *)
Lemma lex_clean f : forall acc rest,
  ~ dirty f ->
  lex (Str acc None) (f ++ rest)
  = if has_control f then ([], false) else lex (Str (rev f ++ acc) None) rest.
Proof.
  induction f as [|c f IH]; intros acc rest Hd; [reflexivity|].
  rewrite dirty_cons in Hd.
  change (lex (Str acc None) ((c :: f) ++ rest))
    with (match step (Str acc None) c with
          | Some (st', toks) =>
              let '(r, complete) := lex st' (f ++ rest) in (toks ++ r, complete)
          | None => (stub (Str acc None), false)
          end).
  change (has_control (c :: f)) with ((c <? 32) || has_control f).
  unfold step.
  destruct (N.eqb_spec c 34) as [->|_]; [exfalso; apply Hd; now left|].
  destruct (N.eqb_spec c 92) as [->|_]; [exfalso; apply Hd; right; now left|].
  destruct (c <? 32); [reflexivity|]. cbn [orb flush].
  rewrite IH by tauto. destruct (has_control f); [reflexivity|].
  cbn [rev]. rewrite <- app_assoc. cbn [app].
  now destruct (lex _ rest).
Qed.

Lemma lex_field f rest :
  ~ dirty f ->
  lex (Str [] None) (f ++ 34 :: rest)
  = if has_control f then ([], false)
    else let '(r, complete) := lex Out rest in (TString f :: r, complete).
Proof.
  intros Hd. rewrite lex_clean by assumption.
  destruct (has_control f); [reflexivity|].
  cbn [lex]. unfold step. cbn [N.eqb Pos.eqb flush].
  now rewrite app_nil_r, rev_involutive.
Qed.

Lemma lex_segment f rest toks more :
  ~ dirty f -> reopens rest toks ->
  lex (Str [] None) ((f ++ 34 :: rest) ++ more)
  = if has_control f then ([], false)
    else let '(r, complete) := lex (Str [] None) more in (TString f :: toks ++ r, complete).
Proof.
  intros Hd (Hrest & _). rewrite <- app_assoc.
  change ((34 :: rest) ++ more) with (34 :: (rest ++ more)).
  rewrite lex_field by assumption.
  destruct (has_control f); [reflexivity|].
  rewrite (lex_run _ _ _ _ _ Hrest). now destruct (lex _ more).
Qed.

(** The scanner reads the purpose text of five strings without quotes
    and backslashes up to the first control character. *)
Lemma lex_purpose_clean a w b v c :
  ~ dirty a -> ~ dirty w -> ~ dirty b -> ~ dirty v -> ~ dirty c ->
  lex Out (purpose_text a w b v c)
  = if has_control a then (upto_action, false)
    else if has_control w then (upto_workspace a, false)
    else if has_control b then (upto_brain a w, false)
    else if has_control v then (upto_version a w b, false)
    else if has_control c then (upto_concept a w b v, false)
    else (upto_concept a w b v ++ [TString c; TRBrace; TRBrace], true).
Proof.
  intros Ha Hw Hb Hv Hc.
  assert (H0 : run Out (dq "{'action': '") = Some (Str [] None, upto_action))
    by (vm_compute; reflexivity).
  assert (H5 : lex Out (py "  } }") = ([TRBrace; TRBrace], true))
    by (vm_compute; reflexivity).
  rewrite purpose_text_segments, (lex_run _ _ _ _ _ H0).
  rewrite (lex_segment a _ _ _ Ha reopens_target).
  destruct (has_control a); [reflexivity|].
  rewrite (lex_segment w _ _ _ Hw reopens_brainName).
  destruct (has_control w); [reflexivity|].
  rewrite (lex_segment b _ _ _ Hb reopens_brainVersion).
  destruct (has_control b); [reflexivity|].
  rewrite (lex_segment v _ _ _ Hv reopens_conceptName).
  destruct (has_control v); [reflexivity|].
  rewrite (lex_field c _ Hc), H5.
  destruct (has_control c); reflexivity.
Qed.

(** What the decoder makes of the purpose text of five strings without
    quotes and backslashes: with room for the two levels of the text,
    the purpose object, or the refusal of a control character; with less
    room, it stops at the brace that it has no room for, unless a control
    character comes before. *)
Lemma loads_purpose_clean room md a w b v c :
  ~ dirty a -> ~ dirty w -> ~ dirty b -> ~ dirty v -> ~ dirty c ->
  loads room md (purpose_text a w b v c)
  = match room with
    | 0%nat => TooDeep
    | 1%nat => if has_control a then Malformed else TooDeep
    | _ =>
        if has_control a || has_control w || has_control b || has_control v
           || has_control c
        then Malformed else Decoded (purpose_object a w b v c)
    end.
Proof.
  intros Ha Hw Hb Hv Hc. unfold loads.
  rewrite lex_purpose_clean by assumption.
  destruct (has_control a); [now destruct room as [|[|room]]|].
  destruct (has_control w); [now destruct room as [|[|room]]|].
  destruct (has_control b); [now destruct room as [|[|room]]|].
  destruct (has_control v); [now destruct room as [|[|room]]|].
  destruct (has_control c); [now destruct room as [|[|room]]|].
  destruct room as [|[|room]]; reflexivity.
Qed.

End PlainFacts.
(** ** [str.format] on a literal and on a named field *)

Section FormatFacts.
Context `{Externals}.

Lemma Ok_inj {A} (a b : A) : Ok a = Ok b -> a = b.
Proof. now intros [= ->]. Qed.

Lemma format_from_literal lit :
  Forall (fun c => c <> LBRACE /\ c <> RBRACE) lit ->
  forall t args kw,
    format_from (lit ++ t) None args kw = rmap (app lit) (format_from t None args kw).
Proof.
  induction 1 as [|c lit [Hl Hr] _ IH]; intros t args kw.
  - cbn [app]. destruct (format_from t None args kw); reflexivity.
  - cbn [app format_from].
    destruct (N.eqb_spec c LBRACE) as [|_]; [contradiction|].
    destruct (N.eqb_spec c RBRACE) as [|_]; [contradiction|].
    rewrite IH. destruct (format_from t None args kw); reflexivity.
Qed.

Lemma format_from_name name : forall acc t args kw,
  Forall (fun c => c <> RBRACE) name -> rev acc ++ name <> [] ->
  format_from (name ++ RBRACE :: t) (Some acc) args kw
  = match kw !! (rev acc ++ name) with
    | Some v => rmap (app (py_str v)) (format_from t None args kw)
    | None => Raise (KeyError (rev acc ++ name))
    end.
Proof.
  induction name as [|c name IH]; intros acc t args kw Hname Hne.
  - rewrite app_nil_r in *. cbn [app format_from]. rewrite N.eqb_refl.
    destruct acc as [|a acc]; [now contradiction Hne|]. reflexivity.
  - apply Forall_cons in Hname as [Hc Hname]. cbn [app format_from].
    destruct (N.eqb_spec c RBRACE) as [|_]; [contradiction|].
    rewrite IH by (try assumption; cbn [rev]; rewrite <- app_assoc; exact Hne).
    cbn [rev]. now rewrite <- !app_assoc.
Qed.

Lemma format_from_field c name t args kw :
  c <> LBRACE -> Forall (fun c => c <> RBRACE) (c :: name) ->
  format_from (LBRACE :: (c :: name) ++ RBRACE :: t) None args kw
  = match kw !! (c :: name) with
    | Some v => rmap (app (py_str v)) (format_from t None args kw)
    | None => Raise (KeyError (c :: name))
    end.
Proof.
  intros Hc Hname.
  change (format_from (LBRACE :: (c :: name) ++ RBRACE :: t) None args kw)
    with (if c =? LBRACE
          then rmap (cons LBRACE) (format_from (name ++ RBRACE :: t) None args kw)
          else format_from ((c :: name) ++ RBRACE :: t) (Some []) args kw).
  destruct (N.eqb_spec c LBRACE) as [|_]; [contradiction|].
  now rewrite format_from_name.
Qed.

(** Every URL template starts with the path of the workspace. *)
Lemma url_under_workspace T kw v path :
  take 31 T = py "/v2/workspaces/{workspacename}/" ->
  kw !! py "workspacename" = Some v ->
  format T [] kw = Ok path ->
  startswith (py "/v2/workspaces/" ++ py_str v ++ py "/") path = true.
Proof.
  intros HT Hkw. rewrite <- (take_drop 31 T), HT.
  change (py "/v2/workspaces/{workspacename}/" ++ drop 31 T)
    with (py "/v2/workspaces/"
          ++ LBRACE :: py "workspacename" ++ RBRACE :: [47] ++ drop 31 T).
  unfold format.
  rewrite format_from_literal by py_in.
  change (py "workspacename") with (119 :: py "orkspacename") at 1.
  rewrite format_from_field by (pyneq || py_in).
  change (119 :: py "orkspacename") with (py "workspacename").
  rewrite Hkw, (format_from_literal [47]) by py_in.
  destruct (format_from (drop 31 T) None [] kw) as [x|e]; cbn [rmap]; [|discriminate].
  intros E. apply Ok_inj in E. subst path.
  replace (py "/v2/workspaces/" ++ py_str v ++ [47] ++ x)
    with ((py "/v2/workspaces/" ++ py_str v ++ py "/") ++ x)
    by (now rewrite <- !app_assoc).
  apply startswith_app.
Qed.

End FormatFacts.

(** ** The resource methods as a whole *)

Section RoutingFacts.
Context `{Externals}.

Lemma session_method_sent m u d hs rq :
  request_for m u d hs = Ok rq -> session_method m = Some (method rq).
Proof.
  intros Hrq.
  destruct (request_for_cases _ _ _ _ _ Hrq)
    as [[-> ->]|[[-> ->]|[[-> ->]|[[-> ->]|[[-> ->]|[[-> ->]|[-> ->]]]]]]];
    reflexivity.
Qed.

Lemma session_method_total m v u d hs :
  session_method m = Some v -> exists rq, request_for m u d hs = Ok rq.
Proof.
  unfold session_method, request_for, Json.pystr_eqb.
  repeat (case_bool_decide; [eauto|]). discriminate.
Qed.

Lemma on_outcome_raises m u o r w e :
  fst (on_outcome m u o r w) = Raise e ->
  (exists x, e = BrainServerError x) \/ (exists x, e = TransportError x) \/
  e = RecursionError.
Proof.
  unfold on_outcome, on_response.
  destruct o as [| |msg|response]; cbn [fst]; try (intros [= <-]; eauto).
  unfold raise_for_status.
  destruct (_ && _); [rewrite handle_and_raise_eq; intros [= <-]; eauto|].
  destruct (_ && _); [rewrite handle_and_raise_eq; intros [= <-]; eauto|].
  destruct (_ =? _)%Z; cbn [fst].
  - rewrite handle_and_raise_eq. intros [= <-]. eauto.
  - rewrite dict_eq. destruct (lets_out response) as [e'|] eqn:E; [|discriminate].
    apply lets_out_recursion in E. subst e'. intros [= <-]. auto.
Qed.

Lemma try_http_request_lets_out m v u d h w e :
  session_method m = Some v ->
  fst (_try_http_request m u d h w) = Raise e ->
  (exists x, e = BrainServerError x) \/ (exists x, e = TransportError x) \/
  e = RecursionError.
Proof.
  intros Hm. rewrite try_http_request_unfold.
  destruct (session_method_total m v u d (headers_out w h) Hm) as [rq ->].
  apply on_outcome_raises.
Qed.

Lemma http_request_lets_out m v u d h debug output w e :
  session_method m = Some v ->
  fst (_http_request m u d h debug output w) = Raise e ->
  (exists x, e = BrainServerError x) \/ (exists x, e = TransportError x) \/
  e = RecursionError.
Proof.
  intros Hm. rewrite http_request_unfold.
  pose proof (try_http_request_lets_out m v u d h (after_echo m u d debug w)) as H1.
  destruct (_try_http_request m u d h (after_echo m u d debug w)) as [[r|e1] w1];
    cbn [fst] in *; [discriminate|].
  destruct e1 as [err| | | | | | | |];
    try (intros [= <-]; now apply H1).
  destruct (auth_deprecated (py_str err)).
  - apply (try_http_request_lets_out m v u d h _ e Hm).
  - intros [= <-]. eauto.
Qed.

Lemma routed_refl v U s0 wire0 w :
  self w = s0 -> wire w = wire0 -> routed v U s0 wire0 w.
Proof.
  intros <- <-. split; [apply same_config_refl|].
  exists []. split; [reflexivity|]. split; [cbn; lia|]. split; [reflexivity|].
  split; [constructor|]. split; [intros rq [=]|intros rq1 rq2 [=]].
Qed.

Lemma request_authorization m u d w rq :
  request_for m u d (headers_out w None) = Ok rq ->
  req_headers rq !! py "Authorization" = Some (VStr (_access_key (self w))).
Proof.
  intros Hrq. destruct (request_for_inv _ _ _ _ _ Hrq) as (_ & -> & _).
  apply base_headers_authorization.
Qed.

Lemma http_request_behaves m v u d debug output (U : pystr -> Prop) (P : exn -> Prop)
    s0 wire0 :
  session_method m = Some v -> U u ->
  (forall x, P (BrainServerError x)) -> (forall x, P (TransportError x)) ->
  P RecursionError ->
  behaves v U P s0 wire0 (_http_request m u d None debug output).
Proof.
  intros Hm Hu Hb Ht Hdeep w <- <-. split.
  - destruct (http_request_cases m u d None debug output w) as (Hc & _ & Hcases).
    split; [assumption|].
    assert (Hrq : forall hs rq, request_for m u d hs = Ok rq ->
                    method rq = v /\ timeout rq = TIMEOUT /\ U (url rq)).
    { intros hs rq Hrq. pose proof (session_method_sent _ _ _ _ _ Hrq) as Hv.
      destruct (request_for_inv _ _ _ _ _ Hrq) as (-> & _ & -> & _).
      split; [congruence|]. split; [reflexivity|assumption]. }
    destruct Hcases
      as [(Hk & _ & [Hw|(rq & Hw & Hr)])
         |(Hk & _ & rq1 & rq2 & w1 & Hw & Hr1 & Hr2 & Hk1 & _)].
    + exists []. rewrite Hw, Hk. split; [reflexivity|]. split; [cbn; lia|].
      split; [reflexivity|]. split; [constructor|].
      split; [intros rq [=]|intros rq1 rq2 [=]].
    + exists [rq]. rewrite Hw, Hk. split; [reflexivity|]. split; [cbn; lia|].
      split; [reflexivity|].
      split; [constructor; [now apply (Hrq _ _ Hr)|constructor]|].
      split; [|intros rq1 rq2 [=]].
      intros rq' [= <-]. now apply (request_authorization m u d).
    + exists [rq2; rq1]. rewrite Hw, Hk. split; [reflexivity|]. split; [cbn; lia|].
      split; [reflexivity|].
      split; [constructor; [now apply (Hrq _ _ Hr2)|];
              constructor; [now apply (Hrq _ _ Hr1)|constructor]|].
      split.
      * intros rq' [= <-]. now apply (request_authorization m u d).
      * intros rq1' rq2' [= <- <-]. rewrite <- Hk1.
        now apply (request_authorization m u d).
  - intros e He. destruct (http_request_lets_out m v u d None debug output w e Hm He)
      as [[x ->]|[[x ->]| ->]]; auto.
Qed.

Lemma behaves_get_self {A} v U P s0 wire0 (k : BonsaiAPI -> M A) :
  behaves v U P s0 wire0 (k s0) -> behaves v U P s0 wire0 (bind get_self k).
Proof. intros Hk w Hs Hw. unfold bind, get_self. rewrite Hs. now apply Hk. Qed.

(** A step that only logs or computes, before the request. *)
Lemma behaves_step {A B} v U P s0 wire0 (R : A -> Prop) (c : M A) (k : A -> M B) :
  (forall w, self (snd (c w)) = self w /\ wire (snd (c w)) = wire w /\
             match fst (c w) with Ok a => R a | Raise e => P e end) ->
  (forall a, R a -> behaves v U P s0 wire0 (k a)) ->
  behaves v U P s0 wire0 (bind c k).
Proof.
  intros Hc Hk w Hs Hw. unfold bind. destruct (Hc w) as (Hs' & Hw' & Hr).
  destruct (c w) as [[a|e] w1]; cbn [fst snd] in *.
  - apply (Hk a Hr); congruence.
  - split; [apply routed_refl; congruence|]. now intros e' [= <-].
Qed.

Lemma behaves_log_format {B} v U (P : exn -> Prop) s0 wire0 T args (k : unit -> M B) :
  match format T args ∅ with Ok _ => True | Raise e => P e end ->
  behaves v U P s0 wire0 (k tt) ->
  behaves v U P s0 wire0 (bind (log_format T args) k).
Proof.
  intros Hf Hk. apply (behaves_step v U P s0 wire0 (fun _ => True)).
  - intros w. unfold log_format, bind, lift, log_debug.
    destruct (format T args ∅); cbn [fst snd self wire]; auto.
  - now intros [] _.
Qed.

Lemma behaves_url_for {B} v (P : exn -> Prop) s0 wire0 base T items ws
    (k : pystr -> M B) :
  take 31 T = py "/v2/workspaces/{workspacename}/" ->
  dict_of items !! py "workspacename" = Some ws ->
  match format T [] (dict_of items) with Ok _ => True | Raise e => P e end ->
  (forall u, under_workspace base ws u ->
             behaves v (under_workspace base ws) P s0 wire0 (k u)) ->
  behaves v (under_workspace base ws) P s0 wire0 (bind (url_for base T items) k).
Proof.
  intros HT Hws Hf Hk.
  apply (behaves_step v (under_workspace base ws) P s0 wire0 (under_workspace base ws)).
  - intros w. unfold url_for, bind, lift, ret.
    pose proof (url_under_workspace T (dict_of items) ws) as Hpath.
    destruct (format T [] (dict_of items)) as [path|e]; cbn [fst snd self wire].
    + repeat split. exists path. split; [reflexivity|]. now apply Hpath.
    + auto.
  - assumption.
Qed.

Lemma behaves_lift_format {B} v U (P : exn -> Prop) s0 wire0 T args kw
    (k : pystr -> M B) :
  match format T args kw with Ok _ => True | Raise e => P e end ->
  (forall t, behaves v U P s0 wire0 (k t)) ->
  behaves v U P s0 wire0 (bind (lift (format T args kw)) k).
Proof.
  intros Hf Hk. apply (behaves_step v U P s0 wire0 (fun _ => True)).
  - intros w. unfold lift. destruct (format T args kw); cbn [fst snd]; auto.
  - intros t _. apply Hk.
Qed.

Lemma behaves_json_loads {B} v U (P : exn -> Prop) s0 wire0 p t (k : value -> M B) :
  (forall e, decoder_error e -> P e) ->
  (forall x, behaves v U P s0 wire0 (k x)) ->
  behaves v U P s0 wire0 (bind (json_loads p t) k).
Proof.
  intros Hp Hk. apply (behaves_step v U P s0 wire0 (fun _ => True)).
  - intros w. unfold json_loads, lift. cbn [fst snd].
    destruct (decode p t) as [x|e] eqn:E; [auto|].
    repeat split. now apply Hp, (decode_decoder_error p t).
  - intros x _. apply Hk.
Qed.

(** ** A resource method makes a session call, or stops before *)










End RoutingFacts.

Ltac closed_side := vm_compute; first [exact I | reflexivity | split; reflexivity].

Ltac decoder_side :=
  let e := fresh "e" in
  let He := fresh "He" in
  intros e He; destruct e;
  first [ exact I | reflexivity | exact (False_ind _ He)
        | split; [reflexivity | exact He] ].

Ltac route_step :=
  lazymatch goal with
  | |- behaves _ _ _ _ _ (bind get_self _) =>
      apply behaves_get_self; cbv beta
  | |- behaves _ _ _ _ _ (bind (log_format _ _) _) =>
      apply behaves_log_format; [closed_side | cbv beta]
  | |- behaves _ _ _ _ _ (bind (url_for _ _ _) _) =>
      apply behaves_url_for; [closed_side | closed_side | closed_side | intros ? ?]
  | |- behaves _ _ _ _ _ (bind (lift (format _ _ _)) _) =>
      apply behaves_lift_format; [closed_side | intros ?]
  | |- behaves _ _ _ _ _ (bind (json_loads _ _) _) =>
      apply behaves_json_loads; [decoder_side | intros ?]
  | |- behaves _ _ _ _ _ (_http_request _ _ _ None _ _) =>
      apply http_request_behaves;
      [closed_side | assumption | intros ?; exact I | intros ?; exact I | exact I]
  end.

Ltac route := repeat route_step.



Section RoutingAll.
Context `{Externals}.

Lemma invoke_behaves c workspace debug output s0 wire0 :
  behaves (verb_of c) (under_workspace (base_of c s0) (select_workspace workspace s0))
    (may_raise c) s0 wire0 (invoke c workspace debug output).
Proof.
  destruct c;
    cbv beta iota zeta delta
      [invoke verb_of base_of _get _post _put _patch _delete
       list_brains create_brain update_brain get_brain delete_brain create_brain_version
       list_brain_versions get_brain_version update_brain_version_details
       update_brain_version_inkling delete_brain_version create_sim_package
       list_sim_package get_sim_package update_sim_package delete_sim_package
       create_sim_collection list_sim_collection list_sim_base_images get_sim_collection
       get_sim_base_image update_sim_collection delete_sim_collection start_training
       stop_training reset_training start_assessment stop_assessment
       create_exported_brain list_exported_brain get_exported_brain
       update_exported_brain delete_exported_brain list_unmanaged_sim_session
       get_sim_session patch_sim_session];
    route.
Qed.


End RoutingAll.

Section RoutingTheorems.
Context `{Externals}.



(** X16: every resource method leaves the workspace, the tenant, the two
    base URLs and the user-agent text of the client as they are and makes
    at most two session calls; after two calls the credential is the
    token of the fallback scheme, otherwise it is unchanged. Every call is
    made with the session method of the resource method and the timeout of
    300 seconds, to [urljoin] of the base URL (the gateway URL for the
    three simulator session methods, the API URL for the others) and a
    path that starts with ["/v2/workspaces/"], the selected workspace as it
    is, and ["/"]. The first call carries the credential the client had,
    the second the token. *)
Theorem resource_calls_routed c workspace debug output w :
  let w' := snd (invoke c workspace debug output w) in
  same_config (self w) (self w') /\
  exists sent,
    wire w' = sent ++ wire w /\ (length sent <= 2)%nat /\
    _access_key (self w')
    = (if bool_decide (length sent = 2%nat) then get_access_token (tenant_id (self w))
       else _access_key (self w)) /\
    (forall rq, rq ∈ sent ->
       method rq = verb_of c /\ timeout rq = 300%Z /\
       exists path,
         url rq = urljoin (base_of c (self w)) path /\
         startswith (py "/v2/workspaces/" ++ py_str (select_workspace workspace (self w))
                     ++ py "/") path = true) /\
    (forall rq, last sent = Some rq ->
       req_headers rq !! py "Authorization" = Some (VStr (_access_key (self w)))) /\
    (forall rq1 rq2, sent = [rq2; rq1] ->
       req_headers rq2 !! py "Authorization"
       = Some (VStr (get_access_token (tenant_id (self w))))).
Proof.
  destruct (invoke_behaves c workspace debug output (self w) (wire w) w eq_refl eq_refl)
    as [(Hc & sent & Hw & Hl & Hk & Hall & Hfirst & Hsecond) _].
  cbv zeta. split; [assumption|]. exists sent.
  split; [assumption|]. split; [assumption|]. split; [assumption|].
  split; [|split; assumption].
  intros rq Hrq. rewrite Forall_forall in Hall.
  destruct (Hall rq Hrq) as (Hm & Ht & Hu). auto.
Qed.

(** X17: the exceptions that a resource method lets out: a
    [BrainServerError], an exception of the session call other than a
    connection error and a timeout, or the [RecursionError] of the
    decoder (which [_dict] does not catch); a [JSONDecodeError] or
    another [ValueError] only from [create_sim_collection] and
    [patch_sim_session], which decode the purpose text; a [KeyError] only
    from [update_sim_collection], for ["simulatorpackagename"]. No
    resource method raises a [UsageError], an [IndexError] or an
    [HTTPError]. *)
Theorem resource_exceptions c workspace debug output w e :
  fst (invoke c workspace debug output w) = Raise e -> may_raise c e.
Proof.
  intros He.
  now apply (invoke_behaves c workspace debug output (self w) (wire w) w eq_refl eq_refl).
Qed.

(** ** The purpose object of plain strings *)

Lemma has_control_false s : (forall c, c ∈ s -> 32 <= c) -> has_control s = false.
Proof.
  intros Hs. unfold has_control. apply not_true_is_false. intros He.
  apply existsb_exists in He as (c & Hc%list_elem_of_In & Hlt%N.ltb_lt).
  specialize (Hs c Hc). lia.
Qed.

Lemma str_of_int_plain z : plain (str_of_int z).
Proof.
  split; [apply PurposeFacts.str_of_int_clean|].
  apply has_control_false. intros c Hc.
  destruct z as [|p|p]; cbn [str_of_int] in Hc.
  - apply list_elem_of_singleton in Hc as ->. lia.
  - apply PurposeFacts.digits_clean in Hc. lia.
  - apply elem_of_cons in Hc as [->|Hc]; [lia|].
    apply PurposeFacts.digits_clean in Hc. lia.
Qed.

(** What the decoder makes of the purpose text when the four strings
    have no quote and no backslash. *)
Lemma decode_purpose_clean p a w b (v : Z) c :
  ~ dirty a -> ~ dirty w -> ~ dirty b -> ~ dirty c ->
  decode p (purpose_text a w b (str_of_int v) c)
  = match recursion_room p with
    | 0%nat => Raise RecursionError
    | 1%nat => if has_control a then Raise JSONDecodeError else Raise RecursionError
    | _ =>
        if has_control a || has_control w || has_control b || has_control c
        then Raise JSONDecodeError
        else Ok (purpose_object a w b (str_of_int v) c)
    end.
Proof.
  intros Ha Hw Hb Hc. unfold decode.
  rewrite PlainFacts.loads_purpose_clean
    by (try assumption; apply PurposeFacts.str_of_int_clean).
  destruct (str_of_int_plain v) as [_ ->]. rewrite orb_false_r.
  destruct (recursion_room p) as [|[|room]]; [reflexivity| |].
  - now destruct (has_control a).
  - now destruct (_ || _).
Qed.

Lemma decode_purpose_plain p a w b (v : Z) c :
  plain a -> plain w -> plain b -> plain c ->
  decode p (purpose_text a w b (str_of_int v) c)
  = if (2 <=? recursion_room p)%nat
    then Ok (purpose_object a w b (str_of_int v) c)
    else Raise RecursionError.
Proof.
  intros [Ha Ha'] [Hw Hw'] [Hb Hb'] [Hc Hc'].
  rewrite decode_purpose_clean by assumption.
  rewrite Ha', Hw', Hb', Hc'. now destruct (recursion_room p) as [|[|room]].
Qed.


(** X18: when the purpose action, the workspace of the client, the brain
    name and the concept name have no double quote, no backslash and no
    control character, the purpose text decodes to the purpose object:
    the five strings under their keys, the brain version as the decimal
    string of the integer. [create_sim_collection] then posts that object
    under ["purpose"], and [patch_sim_session] patches it in. This is so
    wherever the decoder has room for the two levels of the text; where
    it has not, the method raises the [RecursionError] of the decoder
    after its first log message. *)
Theorem plain_purpose_round_trip
    packagename session_id brain_name (version : Z) concept_name purpose_action
    description cores_per_instance memory_in_gb_per_instance start_instance_count
    min_instance_count max_instance_count auto_scaling auto_termination
    workspace debug output w :
  plain purpose_action -> plain (_workspace_id (self w)) -> plain brain_name ->
  plain concept_name ->
  let s := self w in
  let purpose :=
    purpose_object purpose_action (_workspace_id s) brain_name (str_of_int version)
      concept_name in
  let text :=
    purpose_text purpose_action (_workspace_id s) brain_name (str_of_int version)
      concept_name in
  let w_create := after_log (py "Creating a new sim collection") w in
  let w_patch :=
    after_log (py "Patching details about simulator session " ++ session_id
               ++ py " in workspace " ++ _workspace_id s ++ py "...") w in
  (forall p, (2 <= recursion_room p)%nat -> decode p text = Ok purpose) /\
  create_sim_collection packagename brain_name version concept_name purpose_action
    description cores_per_instance memory_in_gb_per_instance start_instance_count
    min_instance_count max_instance_count auto_scaling auto_termination
    workspace debug output w
  = (if (2 <=? recursion_room in_create_sim_collection)%nat
     then
       _post (urljoin (_api_url s)
                (py "/v2/workspaces/" ++ py_str (select_workspace workspace s)
                 ++ py "/simulatorpackages/" ++ packagename ++ py "/simulatorcollections"))
         (VDict (dict_of
            [("purpose", purpose); ("description", opt description);
             ("resourceGroupName", VStr []); ("Subscription", VStr []);
             ("coresPerInstance", opt cores_per_instance);
             ("memInGBPerInstance", opt memory_in_gb_per_instance);
             ("startInstanceCount", opt start_instance_count);
             ("minInstanceCount", opt min_instance_count);
             ("maxInstanceCount", opt max_instance_count);
             ("autoScaling", opt auto_scaling);
             ("autoTermination", opt auto_termination)]))
         debug output w_create
     else (Raise RecursionError, w_create)) /\
  patch_sim_session session_id brain_name version purpose_action concept_name
    workspace debug output w
  = (if (2 <=? recursion_room in_patch_sim_session)%nat
     then
       _patch (urljoin (_gateway_url s)
                 (py "/v2/workspaces/" ++ py_str (select_workspace workspace s)
                  ++ py "/simulatorSessions/" ++ session_id))
         (VDict (dict_of [("purposeOperation", VStr (py "SetValue"));
                          ("purpose", purpose)]))
         debug output w_patch
     else (Raise RecursionError, w_patch)).
Proof.
  intros Ha Hw Hb Hc s purpose text w_create w_patch.
  assert (Hl : forall p, decode p text
                = if (2 <=? recursion_room p)%nat then Ok purpose else Raise RecursionError)
    by (intros p; now apply decode_purpose_plain).
  split; [|split].
  - intros p Hp. rewrite Hl. now apply Nat.leb_le in Hp as ->.
  - rewrite create_sim_collection_decodes. fold s text. rewrite Hl.
    now destruct (2 <=? _)%nat.
  - rewrite patch_sim_session_decodes. fold s text. rewrite Hl.
    now destruct (2 <=? _)%nat.
Qed.


End RoutingTheorems.

Section UserAgent.
Context `{Externals}.

Lemma get_user_info_text bonsai_cli_version major minor micro platform :
  _get_user_info bonsai_cli_version major minor micro platform
  = Ok (py "bonsai-cli/" ++ bonsai_cli_version ++ py " (python "
        ++ str_of_int major ++ py "." ++ str_of_int minor ++ py "." ++ str_of_int micro
        ++ py "; " ++ platform ++ py ")").
Proof.
  unfold _get_user_info.
  assert (E : format (py "{}.{}.{}") [VInt major; VInt minor; VInt micro] ∅
              = Ok (str_of_int major ++ py "." ++ str_of_int minor ++ py "."
                    ++ str_of_int micro)).
  { transitivity (Ok (A:=pystr) (str_of_int major ++ py "." ++ str_of_int minor ++ py "."
                                 ++ str_of_int micro ++ []));
      [reflexivity | now rewrite app_nil_r]. }
  rewrite E. cbn [rbind].
  transitivity (Ok (A:=pystr)
                  (py "bonsai-cli/" ++ bonsai_cli_version ++ py " (python "
                   ++ (str_of_int major ++ py "." ++ str_of_int minor ++ py "."
                       ++ str_of_int micro) ++ py "; " ++ platform ++ py ")"));
    [reflexivity | now rewrite <- !app_assoc].
Qed.

Lemma init_ok access_key workspace_id tenant api_url gateway_url log c :
  fst (__init__ access_key workspace_id tenant api_url gateway_url log) = Ok c ->
  access_key = Some (_access_key c) /\ _user_info c = user_info.
Proof.
  unfold __init__. destruct (format _ _ _); [|discriminate].
  destruct access_key, workspace_id, api_url, gateway_url; cbn [fst]; try discriminate.
  intros E. apply Ok_inj in E. now subst c.
Qed.

Lemma base_headers_user_agent w :
  base_headers w !! py "User-Agent" = Some (VStr (_user_info (self w))).
Proof.
  unfold base_headers.
  rewrite lookup_union_r by (apply lookup_singleton_ne; pyneq).
  apply lookup_insert_eq.
Qed.

(** X20: [_get_user_info] always returns, with the text ["bonsai-cli/"],
    the version of the package and, in brackets, ["python "], the three
    numbers of the interpreter version separated by dots, a semicolon and
    the platform. A client that [__init__] has built with it sends that
    text as the [User-Agent] header of an attempt, and the access key it
    was built with as the [Authorization] header. *)
Theorem user_agent_sent version major minor micro platform
    access_key workspace_id tenant api_url gateway_url log c m u d w rq :
  _get_user_info version major minor micro platform = Ok user_info ->
  fst (__init__ access_key workspace_id tenant api_url gateway_url log) = Ok c ->
  self w = c ->
  request_for m u d (headers_out w None) = Ok rq ->
  wire (snd (_try_http_request m u d None w)) = rq :: wire w /\
  req_headers rq !! py "User-Agent"
  = Some (VStr (py "bonsai-cli/" ++ version ++ py " (python "
                ++ str_of_int major ++ py "." ++ str_of_int minor ++ py "."
                ++ str_of_int micro ++ py "; " ++ platform ++ py ")")) /\
  req_headers rq !! py "Authorization" = VStr <$> access_key.
Proof.
  intros Hinfo Hinit Hself Hrq.
  rewrite get_user_info_text in Hinfo. apply Ok_inj in Hinfo.
  destruct (init_ok _ _ _ _ _ _ _ Hinit) as (-> & Hu).
  pose proof (try_http_request_wire m u d None w) as Hw. rewrite Hrq in Hw.
  split; [assumption|].
  destruct (request_for_inv _ _ _ _ _ Hrq) as (_ & -> & _). cbn [headers_out].
  rewrite base_headers_user_agent, base_headers_authorization, Hself, Hu, <- Hinfo.
  split; reflexivity.
Qed.

End UserAgent.

(** ** More concrete runs *)

Lemma unsupported_method_sends_nothing_witness :
  (py "get" ∉ supported_methods) /\
  fst (@_http_request (stub_externals always_ok) (py "get") brains_url VNone None false
         None stub_world)
  = Raise (UsageError (py "UNSUPPORTED HTTP REQUEST METHOD")) /\
  wire (snd (@_http_request (stub_externals always_ok) (py "get") brains_url VNone None
               false None stub_world)) = [].
Proof.
  assert (Hm : py "get" ∉ supported_methods) by py_notin.
  split; [exact Hm|].
  destruct (@unsupported_method_sends_nothing (stub_externals always_ok) (py "get")
              brains_url VNone None false None stub_world Hm) as (Hres & Hw & _).
  split; assumption.
Defined.

Lemma session_call_shape_witness :
  wire (snd (@_try_http_request (stub_externals unreachable) (py "POST_RAW") brains_url
               (VStr (py "raw")) None stub_world)) = raw_post :: wire stub_world /\
  url raw_post = brains_url /\ timeout raw_post = 300%Z /\
  req_body raw_post = DataBody (VStr (py "raw")) /\ method raw_post = POST.
Proof.
  assert (Hw : wire (snd (@_try_http_request (stub_externals unreachable) (py "POST_RAW")
                            brains_url (VStr (py "raw")) None stub_world))
               = raw_post :: wire stub_world) by (vm_compute; reflexivity).
  split; [exact Hw|].
  destruct (@session_call_shape (stub_externals unreachable) (py "POST_RAW") brains_url
              (VStr (py "raw")) None stub_world raw_post Hw)
    as (Hu & Ht & _ & _ & _ & Hb & Hm & _).
  split; [exact Hu|]. split; [exact Ht|].
  split; [apply Hb; py_in | apply Hm; reflexivity].
Defined.

Lemma transport_failures_witness :
  request_for (py "GET") brains_url VNone
    (@headers_out (stub_externals unreachable) stub_world None)
  = Ok (brains_get unreachable None) /\
  wire (snd (@_try_http_request (stub_externals unreachable) (py "GET") brains_url VNone
               None stub_world)) = [brains_get unreachable None] /\
  fst (@_try_http_request (stub_externals unreachable) (py "GET") brains_url VNone None
         stub_world)
  = Raise (BrainServerError (VStr (connection_error_text brains_url
                                     (@uuid4 (stub_externals unreachable) 0)))).
Proof.
  assert (Hrq : request_for (py "GET") brains_url VNone
                  (@headers_out (stub_externals unreachable) stub_world None)
                = Ok (brains_get unreachable None)) by (vm_compute; reflexivity).
  split; [exact Hrq|].
  destruct (@transport_failures (stub_externals unreachable) (py "GET") brains_url VNone
              None stub_world (brains_get unreachable None) Hrq) as (Hw & Hres & _).
  split; [exact Hw | exact Hres].
Defined.

Lemma marker_in_url_triggers_fallback_witness :
  @auth_deprecated marked_url = true /\
  _access_key (self (snd (@_http_request (stub_externals unreachable) (py "GET")
                            marked_url VNone None false None stub_world)))
  = py "aad-token" /\
  exists rq rq2,
    wire (snd (@_http_request (stub_externals unreachable) (py "GET") marked_url VNone
                 None false None stub_world)) = [rq2; rq] /\
    url rq2 = marked_url.
Proof.
  assert (Hu : @auth_deprecated marked_url = true) by (vm_compute; reflexivity).
  split; [exact Hu|].
  assert (Hrq : request_for (py "GET") marked_url VNone
                  (@headers_out (stub_externals unreachable) stub_world None)
                = Ok (mkRequest GET marked_url
                        (@headers_out (stub_externals unreachable) stub_world None)
                        NoBody true TIMEOUT)) by (vm_compute; reflexivity).
  destruct (@marker_in_url_triggers_fallback (stub_externals unreachable) (py "GET")
              marked_url VNone None false None stub_world _ Hrq eq_refl Hu)
    as (Hk & rq2 & Hw & Hu2).
  split; [exact Hk|]. eexists _, rq2. split; [exact Hw | exact Hu2].
Defined.

Lemma non_error_status_succeeds_witness :
  ~ (400 <= status_code brains_response < 600)%Z /\
  status_code brains_response <> 301%Z /\
  exists r,
    fst (@_try_http_request (stub_externals always_ok) (py "GET") brains_url VNone None
           stub_world) = Ok r /\
    r !! py "status" = Some (VStr (py "Succeeded")) /\
    r !! py "statusCode" = Some (VInt 200).
Proof.
  assert (Hcode : ~ (400 <= status_code brains_response < 600)%Z)
    by (change (~ (400 <= 200 < 600)%Z); lia).
  assert (H301 : status_code brains_response <> 301%Z) by (vm_compute; discriminate).
  split; [exact Hcode|]. split; [exact H301|].
  assert (Hrq : request_for (py "GET") brains_url VNone
                  (@headers_out (stub_externals always_ok) stub_world None)
                = Ok (brains_get always_ok None)) by (vm_compute; reflexivity).
  destruct (@non_error_status_succeeds (stub_externals always_ok) (py "GET") brains_url
              VNone None stub_world _ brains_response Hrq eq_refl Hcode H301)
    as (_ & _ & _ & Hshallow).
  destruct Hshallow as (r & Hres & Hs & Hc);
    [intros [_ E]; vm_compute in E; discriminate E|].
  exists r. split; [exact Hres|]. split; [exact Hs | exact Hc].
Defined.

Lemma error_envelope_reported_witness :
  (400 <= status_code deprecated_response < 600)%Z /\
  @json (stub_externals always_deprecated) in_handle_and_raise deprecated_response
  = Ok (VDict (<[py "error" := VDict deprecated_envelope]> ∅)) /\
  exists p,
    fst (@_try_http_request (stub_externals always_deprecated) (py "GET") brains_url VNone
           None stub_world) = Raise (BrainServerError (VDict p)) /\
    p !! py "statusCode" = Some (VInt 401) /\
    p !! py "errorCode"
    = Some (VStr (dq "Request failed with error code '" ++ py "BonsaiAuthDeprecated"
                  ++ [DQUOTE])).
Proof.
  assert (Hcode : (400 <= status_code deprecated_response < 600)%Z)
    by (change (400 <= 401 < 600)%Z; lia).
  assert (Hj : @json (stub_externals always_deprecated) in_handle_and_raise
                 deprecated_response
               = Ok (VDict (<[py "error" := VDict deprecated_envelope]> ∅)))
    by (vm_compute; reflexivity).
  split; [exact Hcode|]. split; [exact Hj|].
  assert (Hrq : request_for (py "GET") brains_url VNone
                  (@headers_out (stub_externals always_deprecated) stub_world None)
                = Ok (brains_get always_deprecated None)) by (vm_compute; reflexivity).
  destruct (@error_envelope_reported (stub_externals always_deprecated) (py "GET")
              brains_url VNone None stub_world _ deprecated_response _ deprecated_envelope
              (py "BonsaiAuthDeprecated") (py "use AAD") Hrq eq_refl Hcode Hj)
    as (p & Hres & _ & Hsc & Hec & _);
    [vm_compute; reflexivity | vm_compute; reflexivity | vm_compute; reflexivity |].
  exists p. split; [exact Hres|]. split; [exact Hsc | exact Hec].
Defined.

Lemma caller_headers_override_witness :
  request_for (py "GET") brains_url VNone
    (@headers_out (stub_externals unreachable) stub_world (Some caller_headers))
  = Ok (brains_get unreachable (Some caller_headers)) /\
  wire (snd (@_try_http_request (stub_externals unreachable) (py "GET") brains_url VNone
               (Some caller_headers) stub_world))
  = [brains_get unreachable (Some caller_headers)] /\
  req_headers (brains_get unreachable (Some caller_headers)) !! py "RequestId"
  = Some (VStr (py "mine")).
Proof.
  assert (Hrq : request_for (py "GET") brains_url VNone
                  (@headers_out (stub_externals unreachable) stub_world
                     (Some caller_headers))
                = Ok (brains_get unreachable (Some caller_headers)))
    by (vm_compute; reflexivity).
  split; [exact Hrq|].
  destruct (@caller_headers_override (stub_externals unreachable) (py "GET") brains_url
              VNone caller_headers stub_world _ Hrq) as (Hw & Hk & _).
  split; [exact Hw|]. rewrite Hk. vm_compute. reflexivity.
Defined.

Lemma short_credential_logged_in_full_witness :
  _access_key (self short_key_world) <> [] /\
  (length (_access_key (self short_key_world)) <= 10)%nat /\
  exists later,
    debug_log (snd (@_try_http_request (stub_externals unreachable) (py "GET") brains_url
                      VNone None short_key_world))
    = later
      ++ @headers_text (stub_externals unreachable) (py "GET")
           (<[py "Authorization" := VStr (py "***" ++ py "s3cret")]>
              (@base_headers (stub_externals unreachable) short_key_world))
      :: sending_text (py "GET") brains_url :: [].
Proof.
  assert (Hne : _access_key (self short_key_world) <> []) by (vm_compute; discriminate).
  assert (Hlen : (length (_access_key (self short_key_world)) <= 10)%nat)
    by (vm_compute; lia).
  split; [exact Hne|]. split; [exact Hlen|].
  exact (@short_credential_logged_in_full (stub_externals unreachable) (py "GET")
           brains_url VNone None short_key_world Hne Hlen).
Defined.

Lemma resource_exceptions_witness :
  fst (@invoke (stub_externals always_ok)
         (UpdateSimCollection (py "cartpole") (py "c1") None) None false None stub_world)
  = Raise (KeyError (py "simulatorpackagename")) /\
  may_raise (UpdateSimCollection (py "cartpole") (py "c1") None)
    (KeyError (py "simulatorpackagename")).
Proof.
  assert (He : fst (@invoke (stub_externals always_ok)
                      (UpdateSimCollection (py "cartpole") (py "c1") None) None false None
                      stub_world)
               = Raise (KeyError (py "simulatorpackagename"))) by (vm_compute; reflexivity).
  split; [exact He|].
  exact (@resource_exceptions (stub_externals always_ok) _ None false None stub_world _ He).
Defined.

Lemma plain_purpose_round_trip_witness :
  plain (py "Train") /\ plain (_workspace_id (self stub_world)) /\ plain (py "b1") /\
  plain (py "balance") /\
  (2 <= @recursion_room stub_runtime in_create_sim_collection)%nat /\
  @decode stub_runtime in_create_sim_collection
    (purpose_text (py "Train") (py "acme") (py "b1") (str_of_int 2) (py "balance"))
  = Ok (purpose_object (py "Train") (py "acme") (py "b1") (str_of_int 2) (py "balance")).
Proof.
  assert (Ha : plain (py "Train")) by (split; [py_in | vm_compute; reflexivity]).
  assert (Hw : plain (_workspace_id (self stub_world)))
    by (split; [py_in | vm_compute; reflexivity]).
  assert (Hb : plain (py "b1")) by (split; [py_in | vm_compute; reflexivity]).
  assert (Hc : plain (py "balance")) by (split; [py_in | vm_compute; reflexivity]).
  assert (Hroom : (2 <= @recursion_room stub_runtime in_create_sim_collection)%nat)
    by (apply Nat.leb_le; vm_compute; reflexivity).
  split; [exact Ha|]. split; [exact Hw|]. split; [exact Hb|]. split; [exact Hc|].
  split; [exact Hroom|].
  exact (proj1 (@plain_purpose_round_trip stub_runtime (py "cartpole")
                  (py "session-1") (py "b1") 2 (py "balance") (py "Train")
                  None None None None None None None None None false None stub_world
                  Ha Hw Hb Hc) in_create_sim_collection Hroom).
Defined.


Lemma user_agent_sent_witness :
  @_get_user_info (stub_externals unreachable) (py "1.0.0") 3 8 0 (py "linux")
  = Ok (@user_info (stub_externals unreachable)) /\
  fst (@__init__ (stub_externals unreachable) (Some (py "bonsai-key-0123456789abcdef"))
         (Some (py "acme")) (Some (py "tenant-1")) (Some (py "https://api.bons.ai"))
         (Some (py "https://gateway.bons.ai")) []) = Ok stub_client /\
  req_headers (brains_get unreachable None) !! py "User-Agent"
  = Some (VStr (py "bonsai-cli/" ++ py "1.0.0" ++ py " (python "
                ++ str_of_int 3 ++ py "." ++ str_of_int 8 ++ py "."
                ++ str_of_int 0 ++ py "; " ++ py "linux" ++ py ")")).
Proof.
  assert (Hinfo : @_get_user_info (stub_externals unreachable) (py "1.0.0") 3 8 0
                    (py "linux") = Ok (@user_info (stub_externals unreachable)))
    by (vm_compute; reflexivity).
  assert (Hinit : fst (@__init__ (stub_externals unreachable)
                         (Some (py "bonsai-key-0123456789abcdef")) (Some (py "acme"))
                         (Some (py "tenant-1")) (Some (py "https://api.bons.ai"))
                         (Some (py "https://gateway.bons.ai")) []) = Ok stub_client)
    by (vm_compute; reflexivity).
  split; [exact Hinfo|]. split; [exact Hinit|].
  assert (Hrq : request_for (py "GET") brains_url VNone
                  (@headers_out (stub_externals unreachable) stub_world None)
                = Ok (brains_get unreachable None)) by (vm_compute; reflexivity).
  exact (proj1 (proj2 (@user_agent_sent (stub_externals unreachable) (py "1.0.0") 3 8 0
                         (py "linux") _ _ _ _ _ [] stub_client (py "GET") brains_url VNone
                         stub_world _ Hinfo Hinit eq_refl Hrq))).
Defined.

(** ** A listing from end to end, and calls in turn *)

Section EndToEnd.
Context `{Externals}.

Lemma format_list_brains_log ws :
  format (py "Getting list of brains for {}...") [VStr ws] ∅
  = Ok (py "Getting list of brains for " ++ ws ++ py "...").
Proof. format_eq. Qed.

Lemma format_list_brains_url ws :
  format _LIST_BRAINS_URL_PATH_TEMPLATE [] (dict_of [("workspacename", ws)])
  = Ok (py "/v2/workspaces/" ++ py_str ws ++ py "/brains").
Proof. reflexivity. Qed.

Lemma list_brains_unfold workspace debug output w :
  list_brains workspace debug output w
  = _get (urljoin (_api_url (self w))
            (py "/v2/workspaces/" ++ py_str (select_workspace workspace (self w))
             ++ py "/brains"))
      debug output
      (after_log (py "Getting list of brains for " ++ _workspace_id (self w) ++ py "...") w).
Proof.
  unfold list_brains, log_format, url_for, get_self, log_debug.
  unfold bind, lift, ret.
  rewrite format_list_brains_log. cbn [self].
  now rewrite (format_list_brains_url (select_workspace workspace (self w))).
Qed.

(** X21: a listing of brains from end to end: [list_brains] asks with one
    GET, without a body, that follows redirects and has the timeout of
    300 seconds, for [urljoin] of the API URL and
    ["/v2/workspaces/<selected workspace>/brains"]; when the answer is
    neither an error status nor 301, it ends as [_dict] does on the
    answer: it raises the [RecursionError] of the decoder when the text
    is not blank and the decoder raises it, and in every other case it
    returns the dictionary of [_dict], with status [Succeeded]. The
    client is unchanged. The message it logs first names the workspace
    of the client, also when another workspace is selected. *)
Theorem list_brains_returns_normalized workspace debug output w response :
  network (wire w)
    (mkRequest GET
       (urljoin (_api_url (self w))
          (py "/v2/workspaces/" ++ py_str (select_workspace workspace (self w))
           ++ py "/brains"))
       (base_headers w) NoBody true TIMEOUT)
  = Returns response ->
  ~ (400 <= status_code response < 600)%Z ->
  status_code response <> 301%Z ->
  let run := list_brains workspace debug output w in
  let too_deep :=
    strip_nonempty (text response) = true /\
    json in_dict response = Raise RecursionError in
  fst run = _dict response (uuid4 (drawn w)) /\
  (too_deep -> fst run = Raise RecursionError) /\
  (~ too_deep ->
   exists r, fst run = Ok r /\ r !! py "status" = Some (VStr (py "Succeeded"))) /\
  wire (snd run)
  = mkRequest GET
      (urljoin (_api_url (self w))
         (py "/v2/workspaces/" ++ py_str (select_workspace workspace (self w))
          ++ py "/brains"))
      (base_headers w) NoBody true TIMEOUT :: wire w /\
  self (snd run) = self w /\
  exists later,
    debug_log (snd run)
    = later ++ (py "Getting list of brains for " ++ _workspace_id (self w) ++ py "...")
      :: debug_log w.
Proof.
  intros Hnet Hcode H301. cbv zeta.
  rewrite list_brains_unfold. unfold _get. rewrite http_request_unfold.
  set (u := urljoin _ _) in *.
  set (w0 := after_echo (py "GET") u VNone debug (after_log _ w)).
  assert (Hh : headers_out w0 None = base_headers w) by (unfold w0; now destruct debug).
  assert (Hw : wire w0 = wire w) by (unfold w0; now destruct debug).
  assert (Hs : self w0 = self w) by (unfold w0; now destruct debug).
  assert (Hl : debug_log w0
               = (py "Getting list of brains for " ++ _workspace_id (self w) ++ py "...")
                 :: debug_log w)
    by (unfold w0; now destruct debug).
  assert (Hd : uuid4 (drawn w0) = uuid4 (drawn w)) by (unfold w0; now destruct debug).
  rewrite (try_http_request_success (py "GET") u VNone None w0
             (mkRequest GET u (base_headers w) NoBody true TIMEOUT) response);
    [|now rewrite Hh|now rewrite Hw|assumption|assumption].
  rewrite Hd.
  destruct (dict_of_success response (uuid4 (drawn w)) (proj2 (ok_true_iff _) Hcode))
    as [Hdeep Hshallow].
  assert (Hrun : forall e, _dict response (uuid4 (drawn w)) = Raise e ->
                           e = RecursionError).
  { intros e. rewrite dict_eq.
    destruct (lets_out response) as [e'|] eqn:E; [|discriminate].
    apply lets_out_recursion in E. subst e'. now intros [= <-]. }
  destruct (_dict response (uuid4 (drawn w))) as [r|e] eqn:Edict.
  - cbn [fst snd wire self debug_log after_log after_send after_prologue].
    rewrite Hw, Hs, Hl.
    split; [reflexivity|]. split; [exact Hdeep|].
    split; [intros Hno; destruct (Hshallow Hno) as (r' & Hr' & Hst & _); eauto|].
    split; [reflexivity|]. split; [reflexivity|]. now eexists [_; _; _].
  - rewrite (Hrun e eq_refl).
    cbn [fst snd wire self debug_log after_log after_send after_prologue].
    rewrite Hw, Hs, Hl.
    split; [reflexivity|]. split; [reflexivity|].
    split; [intros Hno; destruct (Hshallow Hno) as (r' & Hr' & _); discriminate Hr'|].
    split; [reflexivity|]. split; [reflexivity|]. now eexists [_; _; _].
Qed.

End EndToEnd.

Section CallsInTurn.
Context `{Externals}.

Lemma same_config_trans s1 s2 s3 :
  same_config s1 s2 -> same_config s2 s3 -> same_config s1 s3.
Proof.
  unfold same_config. intros (? & ? & ? & ? & ?) (? & ? & ? & ? & ?).
  repeat split; congruence.
Qed.

(** X22: once a resource method has switched the client to the token of
    the fallback scheme (it made two session calls), the next resource
    method starts with the token: its first session call carries the
    token as [Authorization], not the access key the client was built
    with. *)
Theorem credential_switch_persists c1 c2 workspace1 workspace2 debug1 debug2
    output1 output2 w rq1 rq2 sent rq :
  let w1 := snd (invoke c1 workspace1 debug1 output1 w) in
  let w2 := snd (invoke c2 workspace2 debug2 output2 w1) in
  wire w1 = rq2 :: rq1 :: wire w ->
  wire w2 = sent ++ rq :: wire w1 ->
  _access_key (self w1) = get_access_token (tenant_id (self w)) /\
  req_headers rq !! py "Authorization"
  = Some (VStr (get_access_token (tenant_id (self w)))).
Proof.
  intros w1 w2 Hw1 Hw2.
  destruct (invoke_behaves c1 workspace1 debug1 output1 (self w) (wire w) w eq_refl eq_refl)
    as [(_ & sent1 & Hs1 & _ & Hk1 & _) _].
  fold w1 in Hs1, Hk1.
  assert (E1 : sent1 = [rq2; rq1]).
  { apply (app_inv_tail (wire w)). now rewrite <- Hs1. }
  subst sent1. rewrite bool_decide_eq_true_2 in Hk1 by reflexivity.
  split; [exact Hk1|].
  destruct (invoke_behaves c2 workspace2 debug2 output2 (self w1) (wire w1) w1
              eq_refl eq_refl) as [(_ & sent2 & Hs2 & _ & _ & _ & Hfirst & _) _].
  fold w2 in Hs2.
  assert (E2 : sent2 = sent ++ [rq]).
  { apply (app_inv_tail (wire w1)). rewrite <- Hs2, Hw2. now rewrite <- app_assoc. }
  rewrite <- Hk1. apply Hfirst. rewrite E2. apply last_snoc.
Qed.

(** X23: an invariant of the client over any number of resource methods
    called in turn, whatever they return or raise: the workspace, the
    tenant, the two base URLs and the user-agent text stay as [__init__]
    set them; the credential is the access key of the start or the token
    of the fallback scheme; at most two session calls are made for each
    method called, each with the timeout of 300 seconds and with one of
    these two credentials as [Authorization]. *)
Theorem client_invariant calls w :
  let w' := run_calls calls w in
  same_config (self w) (self w') /\
  (_access_key (self w') = _access_key (self w) \/
   _access_key (self w') = get_access_token (tenant_id (self w))) /\
  exists sent,
    wire w' = sent ++ wire w /\ (length sent <= 2 * length calls)%nat /\
    forall rq, rq ∈ sent ->
      timeout rq = 300%Z /\
      (req_headers rq !! py "Authorization" = Some (VStr (_access_key (self w))) \/
       req_headers rq !! py "Authorization"
       = Some (VStr (get_access_token (tenant_id (self w))))).
Proof.
  revert w.
  induction calls as [|[[[c workspace] debug] output] calls IH]; intros w; cbv zeta.
  - cbn [run_calls]. split; [apply same_config_refl|]. split; [now left|].
    exists []. split; [reflexivity|]. split; [cbn; lia|]. intros rq Hrq. inversion Hrq.
  - cbn [run_calls].
    destruct (invoke_behaves c workspace debug output (self w) (wire w) w eq_refl eq_refl)
      as [(Hc1 & sent1 & Hw1 & Hl1 & Hk1 & Hall1 & Hfirst1 & Hsecond1) _].
    set (w1 := snd (invoke c workspace debug output w)) in *.
    destruct (IH w1) as (Hc & Hk & sent & Hw & Hl & Hall).
    assert (Ht : tenant_id (self w1) = tenant_id (self w)) by apply Hc1.
    assert (Hk1' : _access_key (self w1) = _access_key (self w) \/
                   _access_key (self w1) = get_access_token (tenant_id (self w)))
      by (rewrite Hk1; case_bool_decide; auto).
    split; [eapply same_config_trans; eassumption|].
    split; [rewrite Ht in Hk; destruct Hk as [-> | ->]; auto|].
    exists (sent ++ sent1). split; [now rewrite Hw, Hw1, app_assoc|].
    split; [rewrite length_app; cbn [length]; lia|].
    intros rq [Hrq|Hrq]%elem_of_app.
    + destruct (Hall rq Hrq) as [Hto Hauth]. split; [assumption|].
      rewrite Ht in Hauth. destruct Hauth as [-> | ->]; [|now right].
      destruct Hk1' as [-> | ->]; auto.
    + rewrite Forall_forall in Hall1. destruct (Hall1 rq Hrq) as (_ & Hto & _).
      split; [assumption|].
      destruct sent1 as [|a [|b [|x sent1]]]; [inversion Hrq| | |cbn in Hl1; lia].
      * apply list_elem_of_singleton in Hrq as ->. left. now apply Hfirst1.
      * apply elem_of_cons in Hrq as [->|Hrq].
        -- right. now apply (Hsecond1 b).
        -- apply list_elem_of_singleton in Hrq as ->. left. now apply Hfirst1.
Qed.

End CallsInTurn.

Lemma list_brains_returns_normalized_witness :
  ~ (400 <= status_code brains_response < 600)%Z /\
  status_code brains_response <> 301%Z /\
  exists r,
    fst (@list_brains (stub_externals always_ok) None false None stub_world) = Ok r /\
    r !! py "status" = Some (VStr (py "Succeeded")) /\
    length (wire (snd (@list_brains (stub_externals always_ok) None false None stub_world)))
    = 1%nat.
Proof.
  assert (Hcode : ~ (400 <= status_code brains_response < 600)%Z)
    by (change (~ (400 <= 200 < 600)%Z); lia).
  assert (H301 : status_code brains_response <> 301%Z) by (vm_compute; discriminate).
  split; [exact Hcode|]. split; [exact H301|].
  destruct (@list_brains_returns_normalized (stub_externals always_ok) None false None
              stub_world brains_response eq_refl Hcode H301)
    as (_ & _ & Hshallow & Hw & _).
  destruct Hshallow as (r & Hres & Hs);
    [intros [_ E]; vm_compute in E; discriminate E|].
  exists r. split; [exact Hres|]. split; [exact Hs|]. now rewrite Hw.
Defined.

Lemma credential_switch_persists_witness :
  exists rq1 rq2 rq,
    wire switched_world = rq2 :: rq1 :: wire stub_world /\
    wire (snd (@invoke (stub_externals aad_only) (GetBrain (py "b1")) None false None
                 switched_world))
    = [] ++ rq :: wire switched_world /\
    _access_key (self switched_world) = py "aad-token" /\
    req_headers rq !! py "Authorization" = Some (VStr (py "aad-token")).
Proof.
  eexists _, _, _.
  assert (Hw1 : wire switched_world = _ :: _ :: wire stub_world)
    by (vm_compute; reflexivity).
  assert (Hw2 : wire (snd (@invoke (stub_externals aad_only) (GetBrain (py "b1")) None
                             false None switched_world))
                = [] ++ _ :: wire switched_world) by (vm_compute; reflexivity).
  split; [exact Hw1|]. split; [exact Hw2|].
  exact (@credential_switch_persists (stub_externals aad_only) ListBrains
           (GetBrain (py "b1")) None None false false None None stub_world _ _ [] _
           Hw1 Hw2).
Defined.

